(** * The streaming anomaly monitor of ml_monitor.py

    A shallow embedding of [MLPredictiveMonitor]: the decoded JSON readings,
    the monitor object as a record, its methods as functions in a
    state-and-exception monad (a raised exception keeps every mutation made
    before it, as in Python), and the properties of the per-reading pipeline.

    Numbers are exact rationals ([Q]); Python's floats are not modelled,
    except that converting an int beyond the float range raises
    OverflowError.
    scikit-learn and [datetime.fromisoformat] are outside the source: they
    are the fields of the class [Runtime], any of which may raise, and the
    theorems hold for every instance of it.  Whether the model file can be
    written is part of each delivery.  Printing and [client.publish] are
    taken not to raise; what they emit is kept in the monitor record. *)

From Stdlib Require Import List String Ascii Bool Arith ZArith QArith Qround Lia.
From Stdlib Require Import DecimalString DecimalNat Sorted.
Import ListNotations.

Set Warnings "-register-all".

Local Open Scope string_scope.
Local Open Scope list_scope.
Local Open Scope nat_scope.

(** ** Decoded JSON *)

(** What [json.loads] returns.  An object is kept as its list of fields;
    [dict_get] reads the first binding of a key. *)
Inductive JVal : Type :=
| JNull
| JBool (b : bool)
| JNum (q : Q)
| JStr (s : string)
| JArr (items : list JVal)
| JObj (fields : list (string * JVal)).

Definition dict : Type := list (string * JVal).

Fixpoint dict_get (k : string) (d : dict) : option JVal :=
  match d with
  | [] => None
  | (k', v) :: d' => if String.eqb k k' then Some v else dict_get k d'
  end.

(** ** Exceptions and fallible values *)

Inductive exn : Type :=
| KeyError (k : JVal)
| TypeError
| ValueError
| AttributeError
| NotFittedError
| OSError
| JSONDecodeError
| OverflowError
| ZeroDivisionError.

Inductive result (A : Type) : Type :=
| Ok (a : A)
| Raise (e : exn).
Arguments Ok {A} a.
Arguments Raise {A} e.

Definition rbind {A B} (r : result A) (k : A -> result B) : result B :=
  match r with
  | Ok a => k a
  | Raise e => Raise e
  end.

Notation "'let?' x ':=' c 'in' k" := (rbind c (fun x => k))
  (at level 10, x name, c at level 100, k at level 200).

(** [data[k]] on a dict. *)
Definition subscript (data : dict) (k : string) : result JVal :=
  match dict_get k data with
  | Some v => Ok v
  | None => Raise (KeyError (JStr k))
  end.

(** [data.get(k, default)]. *)
Definition dict_get_default (data : dict) (k : string) (default : JVal) : JVal :=
  match dict_get k data with
  | Some v => v
  | None => default
  end.

(** The numeric value of an int, float or bool; other values have none and
    make an ordering comparison with a number raise [TypeError]. *)
Definition as_number (v : JVal) : option Q :=
  match v with
  | JNum q => Some q
  | JBool b => Some (if b then 1%Q else 0%Q)
  | _ => None
  end.

Definition Qlt_bool (x y : Q) : bool := negb (Qle_bool y x).

(** [v > c] and [v < c] for a numeric literal [c]. *)
Definition py_gt (v : JVal) (c : Q) : result bool :=
  match as_number v with
  | Some q => Ok (Qlt_bool c q)
  | None => Raise TypeError
  end.

Definition py_lt (v : JVal) (c : Q) : result bool :=
  match as_number v with
  | Some q => Ok (Qlt_bool q c)
  | None => Raise TypeError
  end.

(** ** Feature extraction, severity and recommendation *)

Definition extract_features (data : dict) : list JVal :=
  [ dict_get_default data "temperature" (JNum 0);
    dict_get_default data "vibration" (JNum 0);
    dict_get_default data "current" (JNum 0);
    dict_get_default data "pressure" (JNum 0);
    dict_get_default data "rpm" (JNum 0) ].

Definition calculate_severity (score : Q) : string :=
  if Qlt_bool score (-5 # 10) then "CRITICAL"
  else if Qlt_bool score (-3 # 10) then "WARNING"
  else "INFO".

Definition msg_temperature : string := "Temperature exceeds safe threshold".
Definition msg_vibration : string := "Excessive vibration detected".
Definition msg_current : string := "High current draw".
Definition msg_rpm : string := "RPM below optimal range".
Definition msg_monitor : string := "Monitor closely for additional anomalies".

Definition append_if (b : bool) (issues : list string) (msg : string) : list string :=
  if b then issues ++ [msg] else issues.

Definition get_recommendation (data : dict) : result string :=
  let issues := [] in
  let? t := subscript data "temperature" in
  let? hot := py_gt t 80 in
  let issues := append_if hot issues msg_temperature in
  let? v := subscript data "vibration" in
  let? shaky := py_gt v 4 in
  let issues := append_if shaky issues msg_vibration in
  let? c := subscript data "current" in
  let? high := py_gt c 15 in
  let issues := append_if high issues msg_current in
  let? r := subscript data "rpm" in
  let? slow := py_lt r 1400 in
  let issues := append_if slow issues msg_rpm in
  match issues with
  | [] => Ok msg_monitor
  | _ => Ok ("Schedule inspection: " ++ String.concat "; " issues)%string
  end.

(** [s] contains [p] as a substring. *)
Definition contains (s p : string) : bool :=
  match String.index 0 p s with
  | Some _ => true
  | None => false
  end.

(** ** Alert identifiers *)

Definition decimal (n : nat) : string := NilEmpty.string_of_uint (Nat.to_uint n).

Fixpoint zeros (k : nat) : string :=
  match k with
  | O => ""
  | S k' => String "0" (zeros k')
  end.

(** [f"{n:04d}"]: at least four digits, padded with zeros on the left. *)
Definition format_04d (n : nat) : string :=
  let d := decimal n in (zeros (4 - String.length d) ++ d)%string.

Definition alert_id_of (n : nat) : string := ("ALERT_" ++ format_04d n)%string.

(** [round(x, 4)], ties to even. *)
Definition round_half_even (q : Q) : Z :=
  let f := Qfloor q in
  let r := (q - inject_Z f)%Q in
  if Qlt_bool r (1 # 2) then f
  else if Qlt_bool (1 # 2) r then (f + 1)%Z
  else if Z.even f then f else (f + 1)%Z.

Definition round4 (q : Q) : Q :=
  (inject_Z (round_half_even (q * 10000)) / 10000)%Q.

(** ** Alerts, machine states and the monitor object *)

Record Metrics : Type := mkMetrics {
  m_temperature : JVal;
  m_vibration : JVal;
  m_current : JVal;
  m_pressure : JVal;
  m_rpm : JVal
}.

Record Alert : Type := mkAlert {
  alert_id : string;
  machine_id : JVal;
  timestamp : JVal;
  anomaly_score : Q;
  metrics : Metrics;
  severity : string;
  recommendation : string
}.

(** [deque(maxlen=n).append(x)]: the oldest entry leaves when the deque is
    full. *)
Definition deque_append {A : Type} (maxlen : nat) (d : list A) (x : A) : list A :=
  let d' := d ++ [x] in
  if maxlen <? List.length d' then tl d' else d'.

Record MachineState : Type := mkMachineState {
  readings : list dict;      (* deque(maxlen=50) *)
  alerts : list Alert
}.

Definition readings_maxlen : nat := 50.
Definition min_training_samples : nat := 30.

(** Keys of [self.machine_data].  Python compares dict keys with [==], so
    [1], [1.0] and [True] are one key; lists and dicts are unhashable. *)
Inductive Key : Type :=
| KNone
| KNum (q : Q)
| KStr (s : string).

Definition hash_key (v : JVal) : result Key :=
  match v with
  | JNull => Ok KNone
  | JBool b => Ok (KNum (if b then 1%Q else 0%Q))
  | JNum q => Ok (KNum q)
  | JStr s => Ok (KStr s)
  | JArr _ => Raise TypeError
  | JObj _ => Raise TypeError
  end.

Definition key_eqb (a b : Key) : bool :=
  match a, b with
  | KNone, KNone => true
  | KNum p, KNum q => Qeq_bool p q
  | KStr s, KStr t => String.eqb s t
  | _, _ => false
  end.

Definition machine_map : Type := list (Key * MachineState).

Fixpoint md_lookup (k : Key) (md : machine_map) : option MachineState :=
  match md with
  | [] => None
  | (k', st) :: md' => if key_eqb k k' then Some st else md_lookup k md'
  end.

(** [md[k] = st] for a key that is not in [md] yet, and the in-place update
    of the entry of a key that is. *)
Definition md_add (k : Key) (st : MachineState) (md : machine_map) : machine_map :=
  md ++ [(k, st)].

Fixpoint md_update (k : Key) (f : MachineState -> MachineState) (md : machine_map)
  : machine_map :=
  match md with
  | [] => []
  | (k', st) :: md' =>
      if key_eqb k k' then (k', f st) :: md' else (k', st) :: md_update k f md'
  end.

(** The dict literal [alert = {...}] of [handle_anomaly], its entries
    evaluated in order; [n] is [self.anomalies_detected]. *)
Definition build_alert (n : nat) (machine_id : JVal) (data : dict) (score : Q)
  : result Alert :=
  let? ts := subscript data "timestamp" in
  let? temperature := subscript data "temperature" in
  let? vibration := subscript data "vibration" in
  let? current := subscript data "current" in
  let? pressure := subscript data "pressure" in
  let? rpm := subscript data "rpm" in
  let? advice := get_recommendation data in
  Ok (mkAlert (alert_id_of n) machine_id ts (round4 score)
        (mkMetrics temperature vibration current pressure rpm)
        (calculate_severity score) advice).

(** What the monitor prints. *)
Inductive event : Type :=
| TrainingBanner                     (* "Training ML Model..." *)
| ModelTrained (samples : nat)       (* "Model trained on n samples" *)
| ModelSaved                         (* "Model saved to models/anomaly_detector.pkl" *)
| AnomalyBanner (a : Alert)          (* "ANOMALY DETECTED!", alert id, machine *)
| AnomalyDetails (a : Alert)         (* time, severity, score, metrics, recommendation *)
| NormalOperation (machine : JVal)   (* "<machine>: Normal operation | ..." *)
| ErrorProcessing (e : exn).         (* "Error processing message: <e>" *)

(** ** The method monad: a state transformer that may raise

    A raised exception ends the computation and keeps the state reached. *)

Definition StateExn (S A : Type) : Type := S -> result A * S.

Definition ret {S A} (a : A) : StateExn S A := fun s => (Ok a, s).

Definition bind {S A B} (m : StateExn S A) (k : A -> StateExn S B) : StateExn S B :=
  fun s =>
    match m s with
    | (Ok a, s') => k a s'
    | (Raise e, s') => (Raise e, s')
    end.

Definition raise {S A} (e : exn) : StateExn S A := fun s => (Raise e, s).
Definition lift {S A} (r : result A) : StateExn S A := fun s => (r, s).
Definition gets {S A} (f : S -> A) : StateExn S A := fun s => (Ok (f s), s).
Definition modify {S} (f : S -> S) : StateExn S unit := fun s => (Ok tt, f s).

Notation "x <- c ;; k" := (bind c (fun x => k))
  (at level 61, c at next level, right associativity).
Notation "c ;; k" := (bind c (fun _ => k))
  (at level 61, right associativity).

(** The libraries the monitor calls.  [None] stands for a raised exception. *)
Class Runtime : Type := {
  Scaler : Type;       (* a fitted StandardScaler *)
  Forest : Type;       (* a fitted IsolationForest *)
  Matrix : Type;       (* a scaled sample array *)
  fit_transform : list (list JVal) -> option (Scaler * Matrix);
  forest_fit : Matrix -> option Forest;
  transform : Scaler -> list JVal -> option Matrix;
  predict : Forest -> Matrix -> option Z;
  score_samples : Forest -> Matrix -> option Q;
  fromisoformat : string -> bool
}.

Section Monitor.

Context {rt : Runtime}.

(** [self.model]: [None], a fresh [IsolationForest(...)], or a fitted one. *)
Inductive ModelSlot : Type :=
| NoModel
| Unfitted
| Fitted (f : Forest).

Record Monitor : Type := mkMonitor {
  machine_data : machine_map;
  alert_history : list Alert;
  model : ModelSlot;
  scaler : option Scaler;           (* None: StandardScaler() not fitted yet *)
  model_trained : bool;
  training_data : list (list JVal);
  total_readings : nat;
  anomalies_detected : nat;
  published : list Alert;           (* payloads given to client.publish *)
  console : list event              (* standard output, oldest first *)
}.

Definition init : Monitor :=
  mkMonitor [] [] NoModel None false [] 0 0 [] [].

Definition set_machine_data (f : machine_map -> machine_map) (s : Monitor) : Monitor :=
  mkMonitor (f (machine_data s)) (alert_history s) (model s) (scaler s)
    (model_trained s) (training_data s) (total_readings s) (anomalies_detected s)
    (published s) (console s).

Definition set_alert_history (f : list Alert -> list Alert) (s : Monitor) : Monitor :=
  mkMonitor (machine_data s) (f (alert_history s)) (model s) (scaler s)
    (model_trained s) (training_data s) (total_readings s) (anomalies_detected s)
    (published s) (console s).

Definition set_model (m : ModelSlot) (s : Monitor) : Monitor :=
  mkMonitor (machine_data s) (alert_history s) m (scaler s)
    (model_trained s) (training_data s) (total_readings s) (anomalies_detected s)
    (published s) (console s).

Definition set_scaler (sc : option Scaler) (s : Monitor) : Monitor :=
  mkMonitor (machine_data s) (alert_history s) (model s) sc
    (model_trained s) (training_data s) (total_readings s) (anomalies_detected s)
    (published s) (console s).

Definition set_model_trained (b : bool) (s : Monitor) : Monitor :=
  mkMonitor (machine_data s) (alert_history s) (model s) (scaler s)
    b (training_data s) (total_readings s) (anomalies_detected s)
    (published s) (console s).

Definition set_training_data (f : list (list JVal) -> list (list JVal)) (s : Monitor)
  : Monitor :=
  mkMonitor (machine_data s) (alert_history s) (model s) (scaler s)
    (model_trained s) (f (training_data s)) (total_readings s) (anomalies_detected s)
    (published s) (console s).

Definition set_total_readings (f : nat -> nat) (s : Monitor) : Monitor :=
  mkMonitor (machine_data s) (alert_history s) (model s) (scaler s)
    (model_trained s) (training_data s) (f (total_readings s)) (anomalies_detected s)
    (published s) (console s).

Definition set_anomalies_detected (f : nat -> nat) (s : Monitor) : Monitor :=
  mkMonitor (machine_data s) (alert_history s) (model s) (scaler s)
    (model_trained s) (training_data s) (total_readings s) (f (anomalies_detected s))
    (published s) (console s).

Definition set_published (f : list Alert -> list Alert) (s : Monitor) : Monitor :=
  mkMonitor (machine_data s) (alert_history s) (model s) (scaler s)
    (model_trained s) (training_data s) (total_readings s) (anomalies_detected s)
    (f (published s)) (console s).

Definition set_console (f : list event -> list event) (s : Monitor) : Monitor :=
  mkMonitor (machine_data s) (alert_history s) (model s) (scaler s)
    (model_trained s) (training_data s) (total_readings s) (anomalies_detected s)
    (published s) (f (console s)).

(** The methods run in the monad [M]. *)

Definition M (A : Type) : Type := StateExn Monitor A.

(** One more line on the console. *)
Definition say (e : event) (s : Monitor) : Monitor :=
  set_console (fun out => out ++ [e]) s.

Definition print (e : event) : M unit := modify (say e).

(** ** The methods of [MLPredictiveMonitor] *)

(** One MQTT delivery: the decoded payload ([None] when [json.loads] or
    [decode] fails) and whether models/anomaly_detector.pkl can be written
    at that moment. *)
Record Delivery : Type := mkDelivery {
  payload : option JVal;
  disk_ok : bool
}.

Definition scaler_fit_transform (X : list (list JVal)) : M Matrix :=
  match fit_transform X with
  | Some (sc, X_scaled) => modify (set_scaler (Some sc)) ;; ret X_scaled
  | None => raise ValueError
  end.

Definition model_fit (X_scaled : Matrix) : M unit :=
  match forest_fit X_scaled with
  | Some f => modify (set_model (Fitted f))
  | None => raise ValueError
  end.

(** [with open(..., 'wb') as f: pickle.dump(...)]. *)
Definition save_model (writable : bool) : M unit :=
  if writable then ret tt else raise OSError.

Definition train_model (writable : bool) : M unit :=
  print TrainingBanner ;;
  X <- gets training_data ;;
  X_scaled <- scaler_fit_transform X ;;
  modify (set_model Unfitted) ;;
  model_fit X_scaled ;;
  modify (set_model_trained true) ;;
  n <- gets (fun s => List.length (training_data s)) ;;
  print (ModelTrained n) ;;
  save_model writable ;;
  print ModelSaved.

Definition scaler_transform (features : list JVal) : M Matrix :=
  sc <- gets scaler ;;
  match sc with
  | None => raise NotFittedError
  | Some sc =>
      match transform sc features with
      | Some X_scaled => ret X_scaled
      | None => raise ValueError
      end
  end.

Definition model_predict (X_scaled : Matrix) : M Z :=
  m <- gets model ;;
  match m with
  | NoModel => raise AttributeError
  | Unfitted => raise NotFittedError
  | Fitted f =>
      match predict f X_scaled with
      | Some label => ret label
      | None => raise ValueError
      end
  end.

Definition model_score_samples (X_scaled : Matrix) : M Q :=
  m <- gets model ;;
  match m with
  | NoModel => raise AttributeError
  | Unfitted => raise NotFittedError
  | Fitted f =>
      match score_samples f X_scaled with
      | Some score => ret score
      | None => raise ValueError
      end
  end.

Definition detect_anomaly (features : list JVal) : M (bool * Q) :=
  X_scaled <- scaler_transform features ;;
  prediction <- model_predict X_scaled ;;
  score <- model_score_samples X_scaled ;;
  let is_anomaly := (prediction =? -1)%Z in
  ret (is_anomaly, score).

(** [self.machine_data[machine_id]]: the key of an existing entry. *)
Definition machine_entry (machine_id : JVal) : M Key :=
  k <- lift (hash_key machine_id) ;;
  md <- gets machine_data ;;
  match md_lookup k md with
  | Some _ => ret k
  | None => raise (KeyError machine_id)
  end.

Definition add_alert (a : Alert) (st : MachineState) : MachineState :=
  mkMachineState (readings st) (alerts st ++ [a]).

Definition add_reading (data : dict) (st : MachineState) : MachineState :=
  mkMachineState (deque_append readings_maxlen (readings st) data) (alerts st).

(** [datetime.fromisoformat(ts)]. *)
Definition parse_timestamp (ts : JVal) : result unit :=
  match ts with
  | JStr s => if fromisoformat s then Ok tt else Raise ValueError
  | _ => Raise TypeError
  end.

Definition handle_anomaly (machine_id : JVal) (data : dict) (score : Q) : M unit :=
  modify (set_anomalies_detected S) ;;
  n <- gets anomalies_detected ;;
  alert <- lift (build_alert n machine_id data score) ;;
  (* store alert *)
  k <- machine_entry machine_id ;;
  modify (set_machine_data (md_update k (add_alert alert))) ;;
  modify (set_alert_history (fun h => h ++ [alert])) ;;
  (* publish alert *)
  modify (set_published (fun p => p ++ [alert])) ;;
  (* display alert *)
  print (AnomalyBanner alert) ;;
  ts' <- lift (subscript data "timestamp") ;;
  lift (parse_timestamp ts') ;;
  print (AnomalyDetails alert).

(** The least magnitude that no longer converts to a float: rounding to 53
    bits, half to even, takes an int at or beyond [2^1024 - 2^970] to
    [2^1024].  A decoded float is below it, so a number at or beyond it is
    an int. *)
Definition float_overflow : Q := inject_Z (2 ^ 1024 - 2 ^ 970).

Definition fits_float (q : Q) : bool :=
  Qlt_bool (- float_overflow) q && Qlt_bool q float_overflow.

(** A value under a format spec such as [:.1f]: an int is converted to a
    float first, which raises OverflowError when it is too large. *)
Definition format_f (v : JVal) : result unit :=
  match v with
  | JNum q => if fits_float q then Ok tt else Raise OverflowError
  | JBool _ => Ok tt
  | JStr _ => Raise ValueError
  | _ => Raise TypeError
  end.

Definition log_normal_operation (machine_id : JVal) (data : dict) : M unit :=
  t <- lift (subscript data "temperature") ;;
  lift (format_f t) ;;
  v <- lift (subscript data "vibration") ;;
  lift (format_f v) ;;
  c <- lift (subscript data "current") ;;
  lift (format_f c) ;;
  print (NormalOperation machine_id).

(** The part of [process_sensor_data] that collects training data. *)
Definition collect (writable : bool) (features : list JVal) : M unit :=
  trained <- gets model_trained ;;
  if negb trained then
    modify (set_training_data (fun t => t ++ [features])) ;;
    n <- gets (fun s => List.length (training_data s)) ;;
    if min_training_samples <=? n then train_model writable else ret tt
  else ret tt.

(** The part of [process_sensor_data] that scores the reading. *)
Definition score_reading (machine_id : JVal) (data : dict) (features : list JVal)
  : M unit :=
  trained <- gets model_trained ;;
  if trained then
    r <- detect_anomaly features ;;
    let '(is_anomaly, anomaly_score) := r in
    if is_anomaly then handle_anomaly machine_id data anomaly_score
    else log_normal_operation machine_id data
  else ret tt.

Definition process_sensor_data (writable : bool) (msg : JVal) : M unit :=
  match msg with
  | JObj data =>
      machine_id <- lift (subscript data "machine_id") ;;
      modify (set_total_readings S) ;;
      (* initialize storage for a new machine *)
      k <- lift (hash_key machine_id) ;;
      md <- gets machine_data ;;
      (match md_lookup k md with
       | None => modify (set_machine_data (md_add k (mkMachineState [] [])))
       | Some _ => ret tt
       end) ;;
      (* store reading *)
      k <- machine_entry machine_id ;;
      modify (set_machine_data (md_update k (add_reading data))) ;;
      let features := extract_features data in
      collect writable features ;;
      score_reading machine_id data features
  | _ => raise TypeError
  end.

Definition on_message (d : Delivery) (s : Monitor) : Monitor :=
  match payload d with
  | None => say (ErrorProcessing JSONDecodeError) s
  | Some msg =>
      match process_sensor_data (disk_ok d) msg s with
      | (Ok _, s') => s'
      | (Raise e, s') => say (ErrorProcessing e) s'
      end
  end.

(** The monitor after a sequence of deliveries, handled one at a time. *)
Definition run (ds : list Delivery) (s : Monitor) : Monitor :=
  fold_left (fun s d => on_message d s) ds s.

End Monitor.

(** ** A small runtime for the examples

    A threshold detector in the place of scikit-learn: fitting and scaling
    refuse a sample with a non-numeric feature (as [StandardScaler] does),
    a sample is an outlier when its temperature is above 100, and its score
    is minus the temperature over 200. *)
Module Toy.

Definition numeric (v : JVal) : bool :=
  match as_number v with
  | Some _ => true
  | None => false
  end.

Definition number (v : JVal) : Q :=
  match as_number v with
  | Some q => q
  | None => 0%Q
  end.

Definition scale (features : list JVal) : option (list Q) :=
  if forallb numeric features then Some (map number features) else None.

Definition temperature_of (x : list Q) : Q := hd 0%Q x.

Definition runtime : Runtime := {|
  Scaler := unit;
  Forest := unit;
  Matrix := list Q;
  fit_transform X :=
    if forallb (forallb numeric) X then Some (tt, List.concat (map (map number) X)) else None;
  forest_fit _ := Some tt;
  transform _ features := scale features;
  predict _ x := Some (if Qlt_bool 100 (temperature_of x) then (-1)%Z else 1%Z);
  score_samples _ x := Some (- temperature_of x / 200)%Q;
  fromisoformat s := negb (String.eqb s "")
|}.

Definition reading (id : string) (temperature vibration current pressure rpm : Q)
  : dict :=
  [ ("machine_id", JStr id); ("timestamp", JStr "2024-01-01T00:00:00");
    ("temperature", JNum temperature); ("vibration", JNum vibration);
    ("current", JNum current); ("pressure", JNum pressure);
    ("rpm", JNum rpm) ].

Definition normal_reading : dict := reading "M1" 65 2 10 6 1500.
Definition hot_reading : dict := reading "M1" 120 8 20 6 1200.

(** A hot reading that has no timestamp. *)
Definition hot_untimed : dict :=
  [ ("machine_id", JStr "M1"); ("temperature", JNum 120);
    ("vibration", JNum 8); ("current", JNum 20); ("pressure", JNum 6);
    ("rpm", JNum 1200) ].

(** A reading whose temperature is not a number. *)
Definition garbled : dict :=
  [ ("machine_id", JStr "M1"); ("timestamp", JStr "2024-01-01T00:00:00");
    ("temperature", JStr "hot"); ("vibration", JNum 2);
    ("current", JNum 10); ("pressure", JNum 6); ("rpm", JNum 1500) ].

(** The [i]-th reading of machine M1 in a numbered series. *)
Definition numbered_reading (i : nat) : dict :=
  reading "M1" (inject_Z (Z.of_nat i)) 2 10 6 1500.

(** Readings of machine M1 in normal operation, no two in a row alike:
    temperature 60 to 70, vibration 1 to 3, current 8 to 11, pressure 5 to
    7, rpm 1450 to 1530. *)
Definition varied_reading (i : nat) : dict :=
  reading "M1"
    (60 + inject_Z (Z.of_nat (i mod 11)))
    (1 + inject_Z (Z.of_nat (i mod 5)) / 2)
    (8 + inject_Z (Z.of_nat (i mod 7)) / 2)
    (5 + inject_Z (Z.of_nat (i mod 3)))
    (1450 + 10 * inject_Z (Z.of_nat (i mod 9))).

(** The first [n] of them. *)
Definition varied (n : nat) : list dict := map varied_reading (seq 0 n).

Definition deliver (data : dict) : Delivery := mkDelivery (Some (JObj data)) true.

Definition start : Monitor := @init runtime.
Definition after (ds : list Delivery) : Monitor := @run runtime ds start.

End Toy.

(** ** The recommendation as the specification words it

    One message per violated threshold, in the order temperature, vibration,
    current, rpm, joined with "; " after a fixed heading; the generic message
    when no threshold is violated. *)

Definition spec_violations (t v c r : Q) : list string :=
  (if Qlt_bool 80 t then [msg_temperature] else []) ++
  (if Qlt_bool 4 v then [msg_vibration] else []) ++
  (if Qlt_bool 15 c then [msg_current] else []) ++
  (if Qlt_bool r 1400 then [msg_rpm] else []).

Definition spec_recommend (t v c r : Q) : string :=
  match spec_violations t v c r with
  | [] => msg_monitor
  | issues => ("Schedule inspection: " ++ String.concat "; " issues)%string
  end.

(** The recommendation for given outcomes of the four threshold tests. *)
Definition recommend_flags (hot shaky high slow : bool) : string :=
  match append_if slow (append_if high (append_if shaky (append_if hot [] msg_temperature)
          msg_vibration) msg_current) msg_rpm with
  | [] => msg_monitor
  | issues => ("Schedule inspection: " ++ String.concat "; " issues)%string
  end.

(** The reading [data] carries the number [q] under the key [k]. *)
Definition metric (data : dict) (k : string) (q : Q) : Prop :=
  exists v, dict_get k data = Some v /\ as_number v = Some q.

(** ** States and observations used in the statements *)

Section Observations.

Context {rt : Runtime}.

(** The monitor once [train_model] has fitted scaler [sc] and forest [f]
    and printed its report, before the artifact is written. *)
Definition fitted (sc : Scaler) (f : Forest) (s : Monitor) : Monitor :=
  say (ModelTrained (List.length (training_data s)))
    (set_model_trained true
       (set_model (Fitted f)
          (set_model Unfitted (set_scaler (Some sc) (say TrainingBanner s))))).

(** The machine map once a reading of machine [k] is stored: the entry is
    created when missing, and the reading appended to its deque. *)
Definition store_reading (k : Key) (data : dict) (md : machine_map) : machine_map :=
  md_update k (add_reading data)
    (match md_lookup k md with
     | None => md_add k (mkMachineState [] []) md
     | Some _ => md
     end).

(** The monitor once the reading is counted and stored. *)
Definition received (k : Key) (data : dict) (s : Monitor) : Monitor :=
  set_machine_data (store_reading k data) (set_total_readings S s).

(** The monitor once [alert] of machine [k] is stored, published and
    its banner printed. *)
Definition alerted (k : Key) (alert : Alert) (s : Monitor) : Monitor :=
  say (AnomalyBanner alert)
    (set_published (fun p => p ++ [alert])
       (set_alert_history (fun h => h ++ [alert])
          (set_machine_data (md_update k (add_alert alert)) s))).

(** What [detect_anomaly] returns for a fitted scaler and forest. *)
Definition verdict (sc : Scaler) (f : Forest) (features : list JVal)
  : result (bool * Q) :=
  match transform sc features with
  | None => Raise ValueError
  | Some X_scaled =>
      match predict f X_scaled with
      | None => Raise ValueError
      | Some label =>
          match score_samples f X_scaled with
          | None => Raise ValueError
          | Some score => Ok ((label =? -1)%Z, score)
          end
      end
  end.

(** What the scoring branch does with a verdict. *)
Definition act_on (machine_id : JVal) (data : dict) (v : result (bool * Q)) : M unit :=
  match v with
  | Ok (true, score) => handle_anomaly machine_id data score
  | Ok (false, _) => log_normal_operation machine_id data
  | Raise e => raise e
  end.

(** The alert list of machine [k]; empty for a machine not seen yet. *)
Definition alerts_of (k : Key) (s : Monitor) : list Alert :=
  match md_lookup k (machine_data s) with
  | Some st => alerts st
  | None => []
  end.

(** The stored readings of machine [k]. *)
Definition readings_of (k : Key) (s : Monitor) : list dict :=
  match md_lookup k (machine_data s) with
  | Some st => readings st
  | None => []
  end.

(** From [s] to [s'] no alert was stored or published. *)
Definition no_alert (s s' : Monitor) : Prop :=
  alert_history s' = alert_history s /\
  published s' = published s /\
  forall k, alerts_of k s' = alerts_of k s.

(** From [s] to [s'] exactly the alert [a] of machine [k] was stored and
    published. *)
Definition one_alert (a : Alert) (k : Key) (s s' : Monitor) : Prop :=
  alert_history s' = alert_history s ++ [a] /\
  published s' = published s ++ [a] /\
  forall k', alerts_of k' s' =
             if key_eqb k' k then alerts_of k' s ++ [a] else alerts_of k' s.

(** No machine has an alert stored. *)
Definition no_alerts_stored (s : Monitor) : Prop :=
  Forall (fun entry => alerts (snd entry) = []) (machine_data s).

(** The numbering of the alert history: the ids spell the strictly
    increasing counter values [ns], none above the counter. *)
Definition numbered (ns : list nat) (s : Monitor) : Prop :=
  map alert_id (alert_history s) = map alert_id_of ns /\
  StronglySorted lt ns /\
  Forall (fun n => 1 <= n <= anomalies_detected s) ns.

(** No alert carries the number [n0], and the counter has passed it. *)
Definition skipped (n0 : nat) (s : Monitor) : Prop :=
  n0 <= anomalies_detected s /\
  exists ns, map alert_id (alert_history s) = map alert_id_of ns /\
             Forall (fun n => n <= anomalies_detected s /\ n <> n0) ns.

End Observations.

(** The machine a payload is a reading of, when it is one: a dict with a
    hashable [machine_id]. *)
Definition reading_key (msg : JVal) : option (Key * dict) :=
  match msg with
  | JObj data =>
      match dict_get "machine_id" data with
      | Some mid =>
          match hash_key mid with
          | Ok k => Some (k, data)
          | Raise _ => None
          end
      | None => None
      end
  | _ => None
  end.

(** The payload is a dict that has a [machine_id]. *)
Definition is_reading (msg : JVal) : bool :=
  match msg with
  | JObj data =>
      match dict_get "machine_id" data with
      | Some _ => true
      | None => false
      end
  | _ => false
  end.

(** The readings of machine [k] among the deliveries, in arrival order. *)
Fixpoint readings_for (k : Key) (ds : list Delivery) : list dict :=
  match ds with
  | [] => []
  | d :: ds' =>
      match payload d with
      | Some msg =>
          match reading_key msg with
          | Some (k', data) =>
              if key_eqb k k' then data :: readings_for k ds' else readings_for k ds'
          | None => readings_for k ds'
          end
      | None => readings_for k ds'
      end
  end.

(** What a delivery appends to the deque [h] of machine [k]. *)
Definition deque_extend (k : Key) (d : Delivery) (h : list dict) : list dict :=
  match payload d with
  | Some msg =>
      match reading_key msg with
      | Some (k', data) =>
          if key_eqb k k' then deque_append readings_maxlen h data else h
      | None => h
      end
  | None => h
  end.

(** The last [n] entries of a list. *)
Definition lastn {A : Type} (n : nat) (l : list A) : list A :=
  skipn (List.length l - n) l.

Definition is_banner (e : event) : bool :=
  match e with
  | TrainingBanner => true
  | _ => false
  end.

Definition is_trained_report (e : event) : bool :=
  match e with
  | ModelTrained _ => true
  | _ => false
  end.

(** How many times [train_model] was entered, and how many times it got as
    far as setting [model_trained], as the console shows. *)
Definition trainings_started (out : list event) : nat :=
  List.length (filter is_banner out).

Definition trainings_completed (out : list event) : nat :=
  List.length (filter is_trained_report out).

Definition six_keys : list string :=
  ["timestamp"; "temperature"; "vibration"; "current"; "pressure"; "rpm"].

Definition has_key (data : dict) (k : string) : bool :=
  match dict_get k data with
  | Some _ => true
  | None => false
  end.

Definition has_number (data : dict) (k : string) : bool :=
  match dict_get k data with
  | Some v =>
      match as_number v with
      | Some _ => true
      | None => false
      end
  | None => false
  end.


(** A reading from which an alert can always be built: the six keys are
    there and the four metrics that [get_recommendation] compares are
    numbers. *)
Definition complete (data : dict) : bool :=
  forallb (has_key data) six_keys &&
  forallb (has_number data) ["temperature"; "vibration"; "current"; "rpm"].

(** The number written in a string of digits. *)
Definition parse_number (s : string) : option nat :=
  option_map Nat.of_uint (NilEmpty.uint_of_string s).

(** ** Observations for the rest of the monitor *)

(** The delivery is counted in [total_readings]: its payload is a dict that
    has a machine_id. *)
Definition counted (d : Delivery) : bool :=
  match payload d with
  | Some msg => is_reading msg
  | None => false
  end.

(** The reading a delivery stores, with the key of its machine. *)
Definition stored (d : Delivery) : option (Key * dict) :=
  match payload d with
  | Some msg => reading_key msg
  | None => None
  end.

(** The readings stored from a sequence of deliveries, of all machines, in
    arrival order. *)
Fixpoint stored_readings (ds : list Delivery) : list dict :=
  match ds with
  | [] => []
  | d :: ds' =>
      match stored d with
      | Some (_, data) => data :: stored_readings ds'
      | None => stored_readings ds'
      end
  end.

(** No two entries of the machine map have equal keys. *)
Fixpoint keys_distinct (md : machine_map) : Prop :=
  match md with
  | [] => True
  | (k, _) :: md' => md_lookup k md' = None /\ keys_distinct md'
  end.

(** The alert belongs to machine [k]. *)
Definition alert_of_machine (k : Key) (a : Alert) : bool :=
  match hash_key (machine_id a) with
  | Ok k' => key_eqb k k'
  | Raise _ => false
  end.

(** The metrics snapshot of an alert, in the order of the feature vector. *)
Definition metrics_list (m : Metrics) : list JVal :=
  [m_temperature m; m_vibration m; m_current m; m_pressure m; m_rpm m].

(** CRITICAL above WARNING above INFO. *)
Definition severity_rank (sev : string) : nat :=
  if String.eqb sev "CRITICAL" then 2
  else if String.eqb sev "WARNING" then 1
  else 0.

Section Statistics.

Context {rt : Runtime}.

(** What [print_statistics] prints: the two counters, the anomaly rate in
    percent, the number of machines and the model status. *)
Record StatsReport : Type := mkStatsReport {
  rep_total_readings : nat;
  rep_anomalies : nat;
  rep_anomaly_rate : Q;
  rep_machines : nat;
  rep_trained : bool
}.

(** [a / b] on two ints: true division raises ZeroDivisionError on a zero
    divisor, and OverflowError when the quotient is too large for a
    float. *)
Definition py_truediv (a b : nat) : result Q :=
  if Nat.eqb b 0 then Raise ZeroDivisionError
  else
    let q := (inject_Z (Z.of_nat a) / inject_Z (Z.of_nat b))%Q in
    if fits_float q then Ok q else Raise OverflowError.

Definition print_statistics (s : Monitor) : result StatsReport :=
  let? ratio := py_truediv (anomalies_detected s) (Nat.max (total_readings s) 1) in
  Ok (mkStatsReport
        (total_readings s)
        (anomalies_detected s)
        (ratio * 100)%Q
        (List.length (machine_data s))
        (model_trained s)).

End Statistics.

(** ** The dashboard of dashboard.py

    [dashboard_data] as a record, the two handlers and the MQTT callback in
    the same state-and-exception monad, and the routes that read the state.
    What [socketio.emit] sends is kept in the record. *)
Module Dashboard.

Record Machine : Type := mkMachine {
  readings : list JVal;
  status : string;
  last_update : JVal
}.

Record Statistics : Type := mkStatistics {
  total_readings : nat;
  total_anomalies : nat;
  active_machines : nat
}.

Inductive Emit : Type :=
| SensorUpdate (machine_id : JVal) (data : JVal)
| AlertEvent (alert : JVal).

Record State : Type := mkState {
  machines : list (Key * Machine);
  alerts : list JVal;               (* newest first *)
  statistics : Statistics;
  emitted : list Emit;
  errors : list exn                 (* "Error processing MQTT message" lines *)
}.

Definition init : State :=
  mkState [] [] (mkStatistics 0 0 0) [] [].

Fixpoint lookup (k : Key) (ms : list (Key * Machine)) : option Machine :=
  match ms with
  | [] => None
  | (k', m) :: ms' => if key_eqb k k' then Some m else lookup k ms'
  end.

Fixpoint update (k : Key) (f : Machine -> Machine) (ms : list (Key * Machine))
  : list (Key * Machine) :=
  match ms with
  | [] => []
  | (k', m) :: ms' =>
      if key_eqb k k' then (k', f m) :: ms' else (k', m) :: update k f ms'
  end.

Definition set_machines (f : list (Key * Machine) -> list (Key * Machine)) (s : State)
  : State :=
  mkState (f (machines s)) (alerts s) (statistics s) (emitted s) (errors s).

Definition set_alerts (f : list JVal -> list JVal) (s : State) : State :=
  mkState (machines s) (f (alerts s)) (statistics s) (emitted s) (errors s).

Definition set_statistics (f : Statistics -> Statistics) (s : State) : State :=
  mkState (machines s) (alerts s) (f (statistics s)) (emitted s) (errors s).

Definition emit (e : Emit) (s : State) : State :=
  mkState (machines s) (alerts s) (statistics s) (emitted s ++ [e]) (errors s).

Definition log_error (e : exn) (s : State) : State :=
  mkState (machines s) (alerts s) (statistics s) (emitted s) (errors s ++ [e]).

Definition incr_total_readings (st : Statistics) : Statistics :=
  mkStatistics (S (total_readings st)) (total_anomalies st) (active_machines st).

Definition incr_total_anomalies (st : Statistics) : Statistics :=
  mkStatistics (total_readings st) (S (total_anomalies st)) (active_machines st).

Definition incr_active_machines (st : Statistics) : Statistics :=
  mkStatistics (total_readings st) (total_anomalies st) (S (active_machines st)).

(** [v[k]] for any decoded value: only a dict can be subscripted by a
    string. *)
Definition item (v : JVal) (k : string) : result JVal :=
  match v with
  | JObj fields => subscript fields k
  | _ => Raise TypeError
  end.

(** [readings.append(data)] followed by [pop(0)] when longer than 50. *)
Definition append_keep_50 (data : JVal) (l : list JVal) : list JVal :=
  let l' := l ++ [data] in
  if 50 <? List.length l' then tl l' else l'.

(** [alerts.insert(0, alert)] followed by [pop()] when longer than 100. *)
Definition insert_keep_100 (alert : JVal) (l : list JVal) : list JVal :=
  let l' := alert :: l in
  if 100 <? List.length l' then removelast l' else l'.

Definition add_reading (data : JVal) (m : Machine) : Machine :=
  mkMachine (append_keep_50 data (readings m)) (status m) (last_update m).

Definition set_last_update (ts : JVal) (m : Machine) : Machine :=
  mkMachine (readings m) (status m) ts.

Definition set_status (st : string) (m : Machine) : Machine :=
  mkMachine (readings m) st (last_update m).

Definition handle_sensor_data (data : JVal) : StateExn State unit :=
  machine_id <- lift (item data "machine_id") ;;
  k <- lift (hash_key machine_id) ;;
  ms <- gets machines ;;
  (match lookup k ms with
   | None =>
       modify (set_machines (fun ms => ms ++ [(k, mkMachine [] "normal" JNull)])) ;;
       modify (set_statistics incr_active_machines)
   | Some _ => ret tt
   end) ;;
  (* store reading (keep last 50) *)
  modify (set_machines (update k (add_reading data))) ;;
  ts <- lift (item data "timestamp") ;;
  modify (set_machines (update k (set_last_update ts))) ;;
  modify (set_statistics incr_total_readings) ;;
  modify (emit (SensorUpdate machine_id data)).

Definition handle_alert (alert : JVal) : StateExn State unit :=
  (* store alert (keep last 100) *)
  modify (set_alerts (insert_keep_100 alert)) ;;
  modify (set_statistics incr_total_anomalies) ;;
  (* update machine status *)
  machine_id <- lift (item alert "machine_id") ;;
  k <- lift (hash_key machine_id) ;;
  ms <- gets machines ;;
  (match lookup k ms with
   | Some _ => modify (set_machines (update k (set_status "anomaly")))
   | None => ret tt
   end) ;;
  modify (emit (AlertEvent alert)).

(** One MQTT message: its topic and its decoded payload ([None] when
    decoding fails). *)
Record Message : Type := mkMessage {
  topic : string;
  body : option JVal
}.

Definition on_message (msg : Message) (s : State) : State :=
  match body msg with
  | None => log_error JSONDecodeError s
  | Some data =>
      let handler :=
        if contains (topic msg) "sensors" then handle_sensor_data data
        else if contains (topic msg) "alerts" then handle_alert data
        else ret tt in
      match handler s with
      | (Ok _, s') => s'
      | (Raise e, s') => log_error e s'
      end
  end.

Definition run (msgs : list Message) (s : State) : State :=
  fold_left (fun s m => on_message m s) msgs s.

(** [/api/alerts]: the twenty most recent alerts. *)
Definition get_alerts (s : State) : list JVal := firstn 20 (alerts s).

(** One row of [/api/machines]. *)
Record MachineRow : Type := mkMachineRow {
  row_id : Key;
  row_status : string;
  row_last_update : JVal;
  row_latest_readings : JVal
}.

Definition get_machines (s : State) : list MachineRow :=
  map (fun entry =>
         mkMachineRow (fst entry) (status (snd entry)) (last_update (snd entry))
           (last (readings (snd entry)) (JObj [])))
      (machines s).

(** The alert payloads a message sequence hands to [handle_alert], in
    arrival order. *)
Fixpoint alert_payloads (msgs : list Message) : list JVal :=
  match msgs with
  | [] => []
  | m :: msgs' =>
      match body m with
      | Some data =>
          if contains (topic m) "sensors" then alert_payloads msgs'
          else if contains (topic m) "alerts" then data :: alert_payloads msgs'
          else alert_payloads msgs'
      | None => alert_payloads msgs'
      end
  end.

(** The sensor payload of a message that is stored for machine [k]: a dict
    with a hashable machine_id, on a sensor topic. *)
Definition sensor_reading (m : Message) : option (Key * JVal) :=
  match body m with
  | Some data =>
      if contains (topic m) "sensors" then
        match reading_key data with
        | Some (k, _) => Some (k, data)
        | None => None
        end
      else None
  | None => None
  end.

Fixpoint readings_for (k : Key) (msgs : list Message) : list JVal :=
  match msgs with
  | [] => []
  | m :: msgs' =>
      match sensor_reading m with
      | Some (k', data) =>
          if key_eqb k k' then data :: readings_for k msgs' else readings_for k msgs'
      | None => readings_for k msgs'
      end
  end.

(** The message is counted in the dashboard's total_readings: a stored
    sensor reading that also has a timestamp. *)
Definition counted (m : Message) : bool :=
  match sensor_reading m with
  | Some (_, JObj fields) => has_key fields "timestamp"
  | _ => false
  end.

Definition readings_of (k : Key) (s : State) : list JVal :=
  match lookup k (machines s) with
  | Some m => readings m
  | None => []
  end.

Definition status_of (k : Key) (s : State) : option string :=
  option_map status (lookup k (machines s)).

End Dashboard.

(** The alert dict that [handle_anomaly] hands to [json.dumps]. *)
Definition alert_json (a : Alert) : JVal :=
  JObj [ ("alert_id", JStr (alert_id a));
         ("machine_id", machine_id a);
         ("timestamp", timestamp a);
         ("anomaly_score", JNum (anomaly_score a));
         ("metrics", JObj [ ("temperature", m_temperature (metrics a));
                            ("vibration", m_vibration (metrics a));
                            ("current", m_current (metrics a));
                            ("pressure", m_pressure (metrics a));
                            ("rpm", m_rpm (metrics a)) ]);
         ("severity", JStr (severity a));
         ("recommendation", JStr (recommendation a)) ].

(** The topic the monitor publishes alerts on. *)
Definition alert_topic : string := "factory/alerts/anomaly".

(** The monitor's published alerts as the dashboard receives them. *)
Definition alert_messages (published : list Alert) : list Dashboard.Message :=
  map (fun a => Dashboard.mkMessage alert_topic (Some (alert_json a))) published.


(** What a handler may do to a machine entry besides appending a reading:
    keep its readings, and keep its status or set it to "anomaly". *)
Definition dashboard_touch (f : Dashboard.Machine -> Dashboard.Machine) : Prop :=
  forall mc,
    Dashboard.readings (f mc) = Dashboard.readings mc /\
    (Dashboard.status (f mc) = Dashboard.status mc \/
     Dashboard.status (f mc) = "anomaly").

(** The entry a sensor reading is appended to: the machine's own, or the
    fresh one created for a machine seen for the first time. *)
Definition dashboard_entry (o : option Dashboard.Machine) : Dashboard.Machine :=
  match o with
  | Some mc => mc
  | None => Dashboard.mkMachine [] "normal" JNull
  end.


(** Both fitting steps of [train_model] return on the sample matrix [X]. *)
Definition fits {rt : Runtime} (X : list (list JVal)) : bool :=
  match fit_transform X with
  | Some (_, M) =>
      match forest_fit M with
      | Some _ => true
      | None => false
      end
  | None => false
  end.

(** The feature vectors of the first thirty stored readings: the sample
    matrix of the first call of [train_model]. *)
Definition first_training_set (ds : list Delivery) : list (list JVal) :=
  map extract_features (firstn min_training_samples (stored_readings ds)).

(** The reading a delivery stores, if it stores one, has the six keys and
    numeric temperature, vibration, current and rpm. *)
Definition complete_reading (d : Delivery) : bool :=
  match stored d with
  | Some (_, data) => complete data
  | None => true
  end.

(** * Properties *)

(** ** Severity and recommendation *)

Lemma Qlt_bool_iff (x y : Q) : Qlt_bool x y = true <-> (x < y)%Q.
Proof.
  unfold Qlt_bool. rewrite negb_true_iff. split.
  - intros H. apply Qnot_le_lt. intros Hle.
    apply Qle_bool_iff in Hle. congruence.
  - intros H. destruct (Qle_bool y x) eqn:E; [|reflexivity].
    apply Qle_bool_iff in E. exfalso. exact (Qlt_not_le _ _ H E).
Qed.

Lemma Qlt_bool_false_iff (x y : Q) : Qlt_bool x y = false <-> (y <= x)%Q.
Proof.
  unfold Qlt_bool. rewrite negb_false_iff. apply Qle_bool_iff.
Qed.

(** C5. The severity of a score is CRITICAL exactly below -0.5, WARNING
    exactly from -0.5 up to (not including) -0.3 and INFO exactly in the
    remaining case; -0.6, -0.4 and -0.1 give the three tiers in turn. *)
Theorem calculate_severity_tiers (s : Q) :
  (calculate_severity s = "CRITICAL" <-> (s < -5 # 10)%Q) /\
  (calculate_severity s = "WARNING" <-> (-5 # 10 <= s)%Q /\ (s < -3 # 10)%Q) /\
  (calculate_severity s = "INFO" <->
     ~ (s < -5 # 10)%Q /\ ~ ((-5 # 10 <= s)%Q /\ (s < -3 # 10)%Q)) /\
  calculate_severity (-6 # 10) = "CRITICAL" /\
  calculate_severity (-4 # 10) = "WARNING" /\
  calculate_severity (-1 # 10) = "INFO".
Proof.
  assert (Hstep : (-5 # 10 < -3 # 10)%Q) by reflexivity.
  unfold calculate_severity.
  destruct (Qlt_bool s (-5 # 10)) eqn:E1; [|destruct (Qlt_bool s (-3 # 10)) eqn:E2].
  - apply Qlt_bool_iff in E1.
    repeat split; try reflexivity; try discriminate; try (intros _; exact E1).
    + intros [Hle _]. exfalso. exact (Qlt_not_le _ _ E1 Hle).
    + intros [Hn _]. exfalso. exact (Hn E1).
  - apply Qlt_bool_false_iff in E1. apply Qlt_bool_iff in E2.
    repeat split; try reflexivity; try discriminate; try assumption.
    + intros H. exfalso. exact (Qlt_not_le _ _ H E1).
    + intros [_ Hn]. exfalso. apply Hn. split; assumption.
  - apply Qlt_bool_false_iff in E1. apply Qlt_bool_false_iff in E2.
    repeat split; try reflexivity; try discriminate.
    + intros Hlt. exfalso. exact (Qlt_not_le _ _ Hlt E1).
    + intros [_ Hlt]. exfalso. exact (Qlt_not_le _ _ Hlt E2).
    + intros Hlt. exact (Qlt_not_le _ _ Hlt E1).
    + intros [_ Hlt]. exact (Qlt_not_le _ _ Hlt E2).
Qed.

Lemma recommend_flags_contains (hot shaky high slow : bool) :
  contains (recommend_flags hot shaky high slow) msg_temperature = hot /\
  contains (recommend_flags hot shaky high slow) msg_vibration = shaky /\
  contains (recommend_flags hot shaky high slow) msg_current = high /\
  contains (recommend_flags hot shaky high slow) msg_rpm = slow /\
  (recommend_flags hot shaky high slow = msg_monitor <->
     hot = false /\ shaky = false /\ high = false /\ slow = false).
Proof.
  destruct hot, shaky, high, slow; vm_compute;
    repeat split; try reflexivity; try discriminate;
    intros; repeat match goal with H : _ /\ _ |- _ => destruct H end; discriminate.
Qed.

Lemma get_recommendation_flags (data : dict) (t v c r : Q) :
  metric data "temperature" t -> metric data "vibration" v ->
  metric data "current" c -> metric data "rpm" r ->
  get_recommendation data =
    Ok (recommend_flags (Qlt_bool 80 t) (Qlt_bool 4 v) (Qlt_bool 15 c) (Qlt_bool r 1400)).
Proof.
  intros (tv & Ht & Htn) (vv & Hv & Hvn) (cv & Hc & Hcn) (rv & Hr & Hrn).
  unfold get_recommendation, subscript, py_gt, py_lt, rbind.
  rewrite Ht, Htn, Hv, Hvn, Hc, Hcn, Hr, Hrn. unfold recommend_flags.
  match goal with |- match ?l with _ => _ end = _ => destruct l end; reflexivity.
Qed.

Lemma recommend_flags_words (t v c r : Q) :
  recommend_flags (Qlt_bool 80 t) (Qlt_bool 4 v) (Qlt_bool 15 c) (Qlt_bool r 1400)
  = spec_recommend t v c r.
Proof.
  unfold spec_recommend, recommend_flags, spec_violations, append_if.
  destruct (Qlt_bool 80 t), (Qlt_bool 4 v), (Qlt_bool 15 c), (Qlt_bool r 1400);
    reflexivity.
Qed.

Lemma not_Qlt_bool (x y : Q) : Qlt_bool x y = false <-> ~ (x < y)%Q.
Proof.
  rewrite <- Qlt_bool_iff. destruct (Qlt_bool x y); split; intros H;
    try reflexivity; try discriminate; congruence.
Qed.

Lemma build_alert_recommendation (n : nat) (mid : JVal) (data : dict) (score : Q)
    (a : Alert) (msg : string) :
  get_recommendation data = Ok msg ->
  build_alert n mid data score = Ok a -> recommendation a = msg.
Proof.
  intros Hrec. unfold build_alert, rbind. rewrite Hrec.
  repeat match goal with
         | |- context [subscript data ?k] => destruct (subscript data k)
         end; try discriminate.
  intros H. injection H as <-. reflexivity.
Qed.

(** C7. For a reading whose temperature, vibration, current and rpm are
    numbers, the recommendation is fixed by the four threshold tests alone:
    it is the heading followed by the messages of the violated thresholds
    joined with "; ", it contains the message of a threshold exactly when
    that threshold is violated, it is the generic monitor-closely message
    exactly when none is, and the alert built for any score carries it. *)
Theorem get_recommendation_rules (data : dict) (t v c r : Q) :
  metric data "temperature" t -> metric data "vibration" v ->
  metric data "current" c -> metric data "rpm" r ->
  exists msg : string,
    get_recommendation data = Ok msg /\
    msg = spec_recommend t v c r /\
    (msg = msg_monitor <->
       ~ (80 < t)%Q /\ ~ (4 < v)%Q /\ ~ (15 < c)%Q /\ ~ (r < 1400)%Q) /\
    (contains msg msg_temperature = true <-> (80 < t)%Q) /\
    (contains msg msg_vibration = true <-> (4 < v)%Q) /\
    (contains msg msg_current = true <-> (15 < c)%Q) /\
    (contains msg msg_rpm = true <-> (r < 1400)%Q) /\
    (forall n mid score a,
       build_alert n mid data score = Ok a -> recommendation a = msg).
Proof.
  intros Ht Hv Hc Hr.
  pose proof (get_recommendation_flags data t v c r Ht Hv Hc Hr) as Hrec.
  eexists. split; [exact Hrec|].
  destruct (recommend_flags_contains (Qlt_bool 80 t) (Qlt_bool 4 v)
              (Qlt_bool 15 c) (Qlt_bool r 1400)) as (C1 & C2 & C3 & C4 & C5).
  split; [apply recommend_flags_words|].
  split; [rewrite C5, !not_Qlt_bool; reflexivity|].
  rewrite C1, C2, C3, C4, !Qlt_bool_iff.
  repeat split; try tauto.
  intros n mid score a. apply build_alert_recommendation. exact Hrec.
Qed.

(** The reading of the example: temperature 95, vibration 1, current 5,
    rpm 1500. *)
Lemma get_recommendation_rules_witness :
  exists msg : string,
    get_recommendation
      [("temperature", JNum 95); ("vibration", JNum 1); ("current", JNum 5);
       ("rpm", JNum 1500)] = Ok msg /\
    contains msg msg_temperature = true /\
    contains msg msg_vibration = false /\
    contains msg msg_current = false /\
    contains msg msg_rpm = false.
Proof.
  destruct (get_recommendation_rules
              [("temperature", JNum 95); ("vibration", JNum 1);
               ("current", JNum 5); ("rpm", JNum 1500)] 95 1 5 1500)
    as (msg & Hrec & _ & _ & Ct & Cv & Cc & Cr & _).
  - eexists. split; reflexivity.
  - eexists. split; reflexivity.
  - eexists. split; reflexivity.
  - eexists. split; reflexivity.
  - exists msg. split; [exact Hrec|].
    split; [apply Ct; reflexivity|].
    repeat split.
    + destruct (contains msg msg_vibration); [|reflexivity].
      exfalso. assert (H : (4 < 1)%Q) by (apply Cv; reflexivity). discriminate H.
    + destruct (contains msg msg_current); [|reflexivity].
      exfalso. assert (H : (15 < 5)%Q) by (apply Cc; reflexivity). discriminate H.
    + destruct (contains msg msg_rpm); [|reflexivity].
      exfalso. assert (H : (1500 < 1400)%Q) by (apply Cr; reflexivity). discriminate H.
Defined.

(** ** Keys and the machine map *)

Lemma key_eqb_refl (k : Key) : key_eqb k k = true.
Proof.
  destruct k; simpl; [reflexivity | apply Qeq_bool_refl | apply String.eqb_refl].
Qed.

Lemma key_eqb_sym (a b : Key) : key_eqb a b = key_eqb b a.
Proof.
  destruct a, b; simpl; try reflexivity.
  - apply Qeq_bool_comm.
  - apply String.eqb_sym.
Qed.

Lemma key_eqb_trans (a b c : Key) :
  key_eqb a b = true -> key_eqb b c = true -> key_eqb a c = true.
Proof.
  destruct a, b, c; simpl; try discriminate; try reflexivity.
  - apply Qeq_bool_trans.
  - rewrite !String.eqb_eq. congruence.
Qed.

(** Equal keys are looked up alike. *)
Lemma key_eqb_congr (a b c : Key) :
  key_eqb a b = true -> key_eqb a c = key_eqb b c.
Proof.
  intros Hab. destruct (key_eqb b c) eqn:Hbc.
  - exact (key_eqb_trans _ _ _ Hab Hbc).
  - destruct (key_eqb a c) eqn:Hac; [|reflexivity].
    rewrite key_eqb_sym in Hab.
    rewrite (key_eqb_trans _ _ _ Hab Hac) in Hbc. discriminate.
Qed.

Lemma md_lookup_congr (a b : Key) (md : machine_map) :
  key_eqb a b = true -> md_lookup a md = md_lookup b md.
Proof.
  intros Hab. induction md as [|[k st] md IH]; simpl; [reflexivity|].
  rewrite (key_eqb_congr a b k Hab), IH. reflexivity.
Qed.

Lemma md_lookup_add (k' k : Key) (st : MachineState) (md : machine_map) :
  md_lookup k' (md_add k st md) =
    match md_lookup k' md with
    | Some st' => Some st'
    | None => if key_eqb k' k then Some st else None
    end.
Proof.
  unfold md_add. induction md as [|[k0 st0] md IH]; simpl; [reflexivity|].
  destruct (key_eqb k' k0); [reflexivity|exact IH].
Qed.

Lemma md_lookup_update (k' k : Key) (f : MachineState -> MachineState)
    (md : machine_map) :
  md_lookup k' (md_update k f md) =
    if key_eqb k' k then option_map f (md_lookup k' md) else md_lookup k' md.
Proof.
  induction md as [|[k0 st0] md IH]; simpl.
  - destruct (key_eqb k' k); reflexivity.
  - destruct (key_eqb k k0) eqn:Hk0; simpl.
    + destruct (key_eqb k' k) eqn:Hk.
      * rewrite (key_eqb_congr k' k k0 Hk), Hk0. reflexivity.
      * destruct (key_eqb k' k0) eqn:Hk'; [|reflexivity].
        rewrite key_eqb_sym in Hk0.
        rewrite (key_eqb_trans _ _ _ Hk' Hk0) in Hk. discriminate.
    + destruct (key_eqb k' k0) eqn:Hk'.
      * destruct (key_eqb k' k) eqn:Hk; [|reflexivity].
        rewrite key_eqb_sym in Hk.
        rewrite (key_eqb_trans _ _ _ Hk Hk') in Hk0. discriminate.
      * exact IH.
Qed.

(** ** The methods as equations *)

Section Pipeline.

Context {rt : Runtime}.

Lemma train_model_eq (w : bool) (s : Monitor) :
  train_model w s =
    match fit_transform (training_data s) with
    | None => (Raise ValueError, say TrainingBanner s)
    | Some (sc, X_scaled) =>
        match forest_fit X_scaled with
        | None =>
            (Raise ValueError,
             set_model Unfitted (set_scaler (Some sc) (say TrainingBanner s)))
        | Some f =>
            if w then (Ok tt, say ModelSaved (fitted sc f s))
            else (Raise OSError, fitted sc f s)
        end
    end.
Proof.
  unfold train_model, scaler_fit_transform, model_fit, save_model, print, bind,
    gets, modify, ret, raise. simpl.
  destruct (fit_transform (training_data s)) as [[sc X]|]; simpl; [|reflexivity].
  destruct (forest_fit X); simpl; [|reflexivity].
  destruct w; reflexivity.
Qed.

Lemma collect_trained (w : bool) (f : list JVal) (s : Monitor) :
  model_trained s = true -> collect w f s = (Ok tt, s).
Proof.
  intros H. unfold collect, bind, gets. rewrite H. reflexivity.
Qed.

Lemma collect_untrained (w : bool) (f : list JVal) (s : Monitor) :
  model_trained s = false ->
  collect w f s =
    if min_training_samples <=? List.length (training_data s ++ [f])
    then train_model w (set_training_data (fun t => t ++ [f]) s)
    else (Ok tt, set_training_data (fun t => t ++ [f]) s).
Proof.
  intros H. unfold collect, bind, gets, modify. rewrite H.
  cbn -[Nat.leb min_training_samples].
  destruct (min_training_samples <=? List.length (training_data s ++ [f])); reflexivity.
Qed.

Lemma detect_anomaly_eq (features : list JVal) (s : Monitor) :
  detect_anomaly features s =
    (match scaler s, model s with
     | None, _ => Raise NotFittedError
     | Some sc, Fitted f => verdict sc f features
     | Some sc, NoModel =>
         match transform sc features with
         | Some _ => Raise AttributeError
         | None => Raise ValueError
         end
     | Some sc, Unfitted =>
         match transform sc features with
         | Some _ => Raise NotFittedError
         | None => Raise ValueError
         end
     end, s).
Proof.
  unfold detect_anomaly, scaler_transform, model_predict, model_score_samples,
    verdict, bind, gets, ret, raise.
  destruct (scaler s) as [sc|]; [|reflexivity].
  destruct (transform sc features) as [X|]; [|destruct (model s); reflexivity].
  destruct (model s) as [| |f] eqn:Em; try reflexivity.
  destruct (predict f X); [|reflexivity].
  cbv beta iota. rewrite Em.
  destruct (score_samples f X); reflexivity.
Qed.

Lemma score_reading_untrained (mid : JVal) (data : dict) (f : list JVal) (s : Monitor) :
  model_trained s = false -> score_reading mid data f s = (Ok tt, s).
Proof.
  intros H. unfold score_reading, bind, gets. rewrite H. reflexivity.
Qed.

Lemma score_reading_trained (mid : JVal) (data : dict) (f : list JVal) (s : Monitor) :
  model_trained s = true ->
  score_reading mid data f s = act_on mid data (fst (detect_anomaly f s)) s.
Proof.
  intros H. unfold score_reading, bind, gets. rewrite H.
  rewrite detect_anomaly_eq. simpl.
  match goal with |- match ?v with _ => _ end = _ => destruct v as [[[] q]|e] end;
    reflexivity.
Qed.

Lemma handle_anomaly_eq (mid : JVal) (data : dict) (score : Q) (s : Monitor) :
  handle_anomaly mid data score s =
    let s1 := set_anomalies_detected S s in
    match build_alert (S (anomalies_detected s)) mid data score with
    | Raise e => (Raise e, s1)
    | Ok alert =>
        match hash_key mid with
        | Raise e => (Raise e, s1)
        | Ok k =>
            match md_lookup k (machine_data s) with
            | None => (Raise (KeyError mid), s1)
            | Some _ =>
                match rbind (subscript data "timestamp") parse_timestamp with
                | Ok _ => (Ok tt, say (AnomalyDetails alert) (alerted k alert s1))
                | Raise e => (Raise e, alerted k alert s1)
                end
            end
        end
    end.
Proof.
  unfold handle_anomaly, machine_entry, print, bind, gets, modify, lift, ret, raise.
  simpl.
  destruct (build_alert (S (anomalies_detected s)) mid data score); [|reflexivity].
  destruct (hash_key mid) as [k|]; [|reflexivity]. simpl.
  destruct (md_lookup k (machine_data s)); [|reflexivity]. simpl.
  destruct (subscript data "timestamp") as [ts|]; [|reflexivity]. simpl.
  destruct (parse_timestamp ts); reflexivity.
Qed.

Lemma md_lookup_store (k : Key) (data : dict) (md : machine_map) :
  exists st, md_lookup k (match md_lookup k md with
                          | None => md_add k (mkMachineState [] []) md
                          | Some _ => md
                          end) = Some st.
Proof.
  destruct (md_lookup k md) as [st|] eqn:E.
  - exists st. exact E.
  - exists (mkMachineState [] []). rewrite md_lookup_add, E, key_eqb_refl. reflexivity.
Qed.

(** [process_sensor_data] on a reading: count it, store it, then collect and
    score. *)
Lemma process_reading (w : bool) (data : dict) (mid : JVal) (k : Key) (s : Monitor) :
  dict_get "machine_id" data = Some mid -> hash_key mid = Ok k ->
  process_sensor_data w (JObj data) s =
    (collect w (extract_features data) ;;
     score_reading mid data (extract_features data)) (received k data s).
Proof.
  intros Hmid Hk.
  unfold process_sensor_data, machine_entry, subscript, received, store_reading.
  rewrite Hmid.
  unfold bind, lift, gets, modify, ret, raise.
  cbn -[collect score_reading add_reading md_add md_lookup md_update]. rewrite Hk.
  unfold set_machine_data, set_total_readings.
  destruct (md_lookup k (machine_data s)) as [st0|] eqn:E;
    cbn -[collect score_reading add_reading md_add md_lookup md_update].
  - rewrite E. reflexivity.
  - rewrite md_lookup_add, E, key_eqb_refl. reflexivity.
Qed.

Lemma process_not_reading (w : bool) (msg : JVal) (s : Monitor) :
  is_reading msg = false ->
  exists e, process_sensor_data w msg s = (Raise e, s).
Proof.
  destruct msg as [| | | | |data]; simpl; try (intros _; eexists; reflexivity).
  unfold subscript, bind, lift.
  destruct (dict_get "machine_id" data); [discriminate|].
  intros _. eexists. reflexivity.
Qed.

Lemma process_unhashable (w : bool) (data : dict) (mid : JVal) (e : exn) (s : Monitor) :
  dict_get "machine_id" data = Some mid -> hash_key mid = Raise e ->
  process_sensor_data w (JObj data) s = (Raise e, set_total_readings S s).
Proof.
  intros Hmid Hk. unfold process_sensor_data, subscript, bind, lift, modify.
  rewrite Hmid, Hk. reflexivity.
Qed.

End Pipeline.

(** ** What one delivery can do to the monitor *)

Section Steps.

Context {rt : Runtime}.

Lemma log_normal_operation_cases (mid : JVal) (data : dict) (s : Monitor) r s' :
  log_normal_operation mid data s = (r, s') ->
  s' = s \/ s' = say (NormalOperation mid) s.
Proof.
  unfold log_normal_operation, print, bind, lift, modify.
  repeat match goal with
         | |- context [subscript data ?k] => destruct (subscript data k)
         | |- context [format_f ?v] => destruct (format_f v)
         end;
    intros H; injection H as _ <-; auto.
Qed.

(** [handle_anomaly] either stops while building the alert, with only the
    counter advanced, or stores and publishes one alert numbered by the
    advanced counter. *)
Lemma handle_anomaly_cases (mid : JVal) (data : dict) (q : Q) (s : Monitor) r s' :
  handle_anomaly mid data q s = (r, s') ->
  (exists e, r = Raise e /\ s' = set_anomalies_detected S s /\
     (build_alert (S (anomalies_detected s)) mid data q = Raise e \/
      hash_key mid = Raise e \/
      exists k, hash_key mid = Ok k /\ md_lookup k (machine_data s) = None)) \/
  (exists a k,
     build_alert (S (anomalies_detected s)) mid data q = Ok a /\
     hash_key mid = Ok k /\
     (s' = alerted k a (set_anomalies_detected S s) \/
      s' = say (AnomalyDetails a) (alerted k a (set_anomalies_detected S s)))).
Proof.
  rewrite handle_anomaly_eq. cbv zeta.
  destruct (build_alert (S (anomalies_detected s)) mid data q) as [a|e];
    [|intros H; injection H as <- <-; left; exists e; auto].
  destruct (hash_key mid) as [k|e];
    [|intros H; injection H as <- <-; left; exists e; auto].
  destruct (md_lookup k (machine_data s)) eqn:E;
    [|intros H; injection H as <- <-; left; exists (KeyError mid);
      repeat split; right; right; exists k; auto].
  destruct (rbind (subscript data "timestamp") parse_timestamp);
    intros H; injection H as <- <-; right; exists a, k; auto.
Qed.

(** The scoring branch either leaves everything but the console alone, or
    runs [handle_anomaly] in a trained monitor on a reading the detector
    flagged. *)
Lemma score_reading_cases (mid : JVal) (data : dict) (f : list JVal) (s : Monitor) r s' :
  score_reading mid data f s = (r, s') ->
  (s' = s \/ s' = say (NormalOperation mid) s) \/
  (model_trained s = true /\
   exists q, fst (detect_anomaly f s) = Ok (true, q) /\
             handle_anomaly mid data q s = (r, s')).
Proof.
  destruct (model_trained s) eqn:Ht.
  - rewrite (score_reading_trained _ _ _ _ Ht).
    destruct (fst (detect_anomaly f s)) as [[[] q]|e] eqn:Ev; simpl.
    + intros H. right. split; [reflexivity|]. exists q. split; [reflexivity|exact H].
    + intros H. left. eapply log_normal_operation_cases. exact H.
    + intros H. injection H as _ <-. left. left. reflexivity.
  - rewrite (score_reading_untrained _ _ _ _ Ht).
    intros H. injection H as _ <-. left. left. reflexivity.
Qed.

(** The collecting branch does nothing in a trained monitor; in an untrained
    one it appends the sample and, from the threshold on, trains. *)
Lemma collect_cases (w : bool) (f : list JVal) (s : Monitor) r s' :
  collect w f s = (r, s') ->
  (model_trained s = true /\ s' = s /\ r = Ok tt) \/
  (model_trained s = false /\
   List.length (training_data s ++ [f]) < min_training_samples /\
   s' = set_training_data (fun t => t ++ [f]) s /\ r = Ok tt) \/
  (model_trained s = false /\
   min_training_samples <= List.length (training_data s ++ [f]) /\
   train_model w (set_training_data (fun t => t ++ [f]) s) = (r, s')).
Proof.
  destruct (model_trained s) eqn:Ht.
  - rewrite (collect_trained _ _ _ Ht). intros H. injection H as <- <-. auto.
  - rewrite (collect_untrained _ _ _ Ht).
    destruct (min_training_samples <=? List.length (training_data s ++ [f])) eqn:E.
    + apply Nat.leb_le in E. intros H. right. right. auto.
    + apply Nat.leb_gt in E. intros H. injection H as <- <-. right. left. auto.
Qed.

(** [train_model] in the four ways it can end. *)
Lemma train_model_cases (w : bool) (s : Monitor) r s' :
  train_model w s = (r, s') ->
  (r = Raise ValueError /\ fit_transform (training_data s) = None /\
   s' = say TrainingBanner s) \/
  (exists sc X, r = Raise ValueError /\
     fit_transform (training_data s) = Some (sc, X) /\ forest_fit X = None /\
     s' = set_model Unfitted (set_scaler (Some sc) (say TrainingBanner s))) \/
  (exists sc X f,
     fit_transform (training_data s) = Some (sc, X) /\ forest_fit X = Some f /\
     ((w = false /\ r = Raise OSError /\ s' = fitted sc f s) \/
      (w = true /\ r = Ok tt /\ s' = say ModelSaved (fitted sc f s)))).
Proof.
  rewrite train_model_eq.
  destruct (fit_transform (training_data s)) as [[sc X]|];
    [|intros H; injection H as <- <-; auto].
  destruct (forest_fit X) as [f|] eqn:Ef.
  - destruct w; intros H; injection H as <- <-; right; right; exists sc, X, f;
      repeat split; auto.
  - intros H; injection H as <- <-. right. left. exists sc, X. auto.
Qed.

(** A payload is refused, or counted and refused (an unhashable machine
    id), or counted, stored, and taken through collecting and scoring. *)
Lemma process_cases (w : bool) (msg : JVal) (s : Monitor) r s' :
  process_sensor_data w msg s = (r, s') ->
  (is_reading msg = false /\ s' = s /\ exists e, r = Raise e) \/
  (is_reading msg = true /\ reading_key msg = None /\
   s' = set_total_readings S s /\ exists e, r = Raise e) \/
  (exists data mid k c s1,
     msg = JObj data /\ dict_get "machine_id" data = Some mid /\
     hash_key mid = Ok k /\
     collect w (extract_features data) (received k data s) = (c, s1) /\
     match c with
     | Raise e => r = Raise e /\ s' = s1
     | Ok _ => score_reading mid data (extract_features data) s1 = (r, s')
     end).
Proof.
  destruct (is_reading msg) eqn:Hr.
  2:{ destruct (process_not_reading w msg s Hr) as [e He].
      rewrite He. intros H. injection H as <- <-. left. eauto. }
  destruct msg as [| | | | |data]; try discriminate Hr.
  simpl in Hr. destruct (dict_get "machine_id" data) as [mid|] eqn:Hmid;
    [|discriminate].
  destruct (hash_key mid) as [k|e] eqn:Hk.
  - rewrite (process_reading _ _ _ _ _ Hmid Hk). unfold bind.
    destruct (collect w (extract_features data) (received k data s))
      as [c s1] eqn:Hc.
    intros H. right. right.
    exists data, mid, k, c, s1. repeat split; try assumption.
    destruct c as [[]|e]; [exact H|].
    injection H as <- <-. auto.
  - rewrite (process_unhashable _ _ _ _ _ Hmid Hk).
    intros H. injection H as <- <-. right. left. repeat split.
    + simpl. rewrite Hmid, Hk. reflexivity.
    + eauto.
Qed.

(** [on_message] adds at most an error line to what [process_sensor_data]
    leaves: a property that error lines keep carries over. *)
Lemma on_message_lifts (P : Monitor -> Prop) (d : Delivery) (s : Monitor) :
  (forall e s', P s' -> P (say (ErrorProcessing e) s')) ->
  (payload d = None -> P s) ->
  (forall msg r s',
     payload d = Some msg -> process_sensor_data (disk_ok d) msg s = (r, s') -> P s') ->
  P (on_message d s).
Proof.
  intros Hsay Hs Hp. unfold on_message.
  destruct (payload d) as [msg|]; [|apply Hsay; apply Hs; reflexivity].
  destruct (process_sensor_data (disk_ok d) msg s) as [[[]|e] s'] eqn:E.
  - eapply Hp; [reflexivity|exact E].
  - apply Hsay. eapply Hp; [reflexivity|exact E].
Qed.

Lemma run_nil (s : Monitor) : run [] s = s.
Proof. reflexivity. Qed.

Lemma run_snoc (ds : list Delivery) (d : Delivery) (s : Monitor) :
  run (ds ++ [d]) s = on_message d (run ds s).
Proof. unfold run. rewrite fold_left_app. reflexivity. Qed.

Lemma run_app (ds1 ds2 : list Delivery) (s : Monitor) :
  run (ds1 ++ ds2) s = run ds2 (run ds1 s).
Proof. unfold run. apply fold_left_app. Qed.

(** A property of the initial monitor that every delivery keeps holds
    after every sequence of deliveries. *)
Lemma run_invariant (P : Monitor -> Prop) (s : Monitor) :
  P s -> (forall d s', P s' -> P (on_message d s')) -> forall ds, P (run ds s).
Proof.
  intros H0 Hstep ds. revert s H0.
  induction ds as [|d ds IH]; intros s H0; simpl; [exact H0|].
  apply IH. apply Hstep. exact H0.
Qed.

Lemma collect_keeps (w : bool) (f : list JVal) (s : Monitor) r s' :
  collect w f s = (r, s') ->
  machine_data s' = machine_data s /\ alert_history s' = alert_history s /\
  published s' = published s /\ anomalies_detected s' = anomalies_detected s /\
  total_readings s' = total_readings s /\
  (model_trained s = true -> model_trained s' = true).
Proof.
  intros H. apply collect_cases in H.
  destruct H as [(Ht & -> & _)|[(Ht & _ & -> & _)|(Ht & _ & H)]].
  - repeat split; auto.
  - repeat split; auto.
  - apply train_model_cases in H.
    destruct H as [(_ & _ & ->)|[(sc & X & _ & _ & _ & ->)
                  |(sc & X & m & _ & _ & [(_ & _ & ->)|(_ & _ & ->)])]];
      repeat split; auto.
Qed.

Lemma alerts_of_received (k' k : Key) (data : dict) (s : Monitor) :
  alerts_of k' (received k data s) = alerts_of k' s.
Proof.
  unfold alerts_of, received, store_reading. simpl machine_data.
  rewrite md_lookup_update.
  destruct (md_lookup k (machine_data s)) as [st|] eqn:E.
  - destruct (key_eqb k' k) eqn:Hk; [|reflexivity].
    destruct (md_lookup k' (machine_data s)); reflexivity.
  - rewrite md_lookup_add.
    destruct (key_eqb k' k) eqn:Hk.
    + rewrite (md_lookup_congr _ _ _ Hk), E. reflexivity.
    + destruct (md_lookup k' (machine_data s)); reflexivity.
Qed.

Lemma alerts_of_alerted (k' k : Key) (a : Alert) (s : Monitor) :
  md_lookup k (machine_data s) <> None ->
  alerts_of k' (alerted k a s) =
    if key_eqb k' k then alerts_of k' s ++ [a] else alerts_of k' s.
Proof.
  intros Hin. unfold alerts_of, alerted. simpl machine_data.
  rewrite md_lookup_update.
  destruct (key_eqb k' k) eqn:Hk; [|reflexivity].
  rewrite (md_lookup_congr _ _ _ Hk).
  destruct (md_lookup k (machine_data s)); [reflexivity|congruence].
Qed.

(** [handle_anomaly] on a reading whose alert can be built, for a machine
    that has an entry: the alert is stored and published and the counter
    advanced, whether or not the display that follows raises. *)
Lemma handle_anomaly_alert (mid : JVal) (data : dict) (q : Q) (s : Monitor)
    (k : Key) (a : Alert) :
  build_alert (S (anomalies_detected s)) mid data q = Ok a ->
  hash_key mid = Ok k ->
  md_lookup k (machine_data s) <> None ->
  exists r s',
    handle_anomaly mid data q s = (r, s') /\
    alert_history s' = alert_history s ++ [a] /\
    published s' = published s ++ [a] /\
    alerts_of k s' = alerts_of k s ++ [a] /\
    anomalies_detected s' = S (anomalies_detected s).
Proof.
  intros Hb Hk Hin. rewrite handle_anomaly_eq. cbv zeta. rewrite Hb, Hk.
  destruct (md_lookup k (machine_data s)) as [st|] eqn:El; [|congruence].
  assert (O : alerts_of k (alerted k a (set_anomalies_detected S s)) =
              alerts_of k s ++ [a]).
  { rewrite alerts_of_alerted, key_eqb_refl; [reflexivity|].
    simpl machine_data. rewrite El. discriminate. }
  destruct (rbind (subscript data "timestamp") parse_timestamp);
    eexists; eexists; (split; [reflexivity|]); repeat split; exact O.
Qed.

Lemma no_alert_refl (s : Monitor) : no_alert s s.
Proof. repeat split. Qed.

Lemma no_alert_trans (s1 s2 s3 : Monitor) :
  no_alert s1 s2 -> no_alert s2 s3 -> no_alert s1 s3.
Proof.
  intros (H1 & H2 & H3) (G1 & G2 & G3).
  repeat split; try congruence; intros k; rewrite G3; apply H3.
Qed.

Lemma one_alert_after (a : Alert) (k : Key) (s1 s2 s3 : Monitor) :
  no_alert s1 s2 -> one_alert a k s2 s3 -> one_alert a k s1 s3.
Proof.
  intros (H1 & H2 & H3) (G1 & G2 & G3).
  repeat split; try congruence; intros k'; rewrite G3, H3; reflexivity.
Qed.

Lemma no_alert_received (k : Key) (data : dict) (s : Monitor) :
  no_alert s (received k data s).
Proof. repeat split. intros k'. apply alerts_of_received. Qed.

Lemma md_lookup_received (k : Key) (data : dict) (s : Monitor) :
  md_lookup k (machine_data (received k data s)) <> None.
Proof.
  unfold received, store_reading. simpl machine_data.
  rewrite md_lookup_update, key_eqb_refl.
  destruct (md_lookup_store k data (machine_data s)) as [st ->]. discriminate.
Qed.

(** What one call of [process_sensor_data] does to the alert stores and to
    the anomaly counter: nothing; or the counter advances in a trained
    monitor and the call raises; or the counter advances and the alert
    numbered by it is stored and published for the reading's machine. *)
Lemma process_alerts (w : bool) (msg : JVal) (s : Monitor) r s' :
  process_sensor_data w msg s = (r, s') ->
  (no_alert s s' /\ anomalies_detected s' = anomalies_detected s) \/
  (no_alert s s' /\ anomalies_detected s' = S (anomalies_detected s) /\
   model_trained s' = true /\ is_reading msg = true /\
   exists data mid q e,
     msg = JObj data /\ dict_get "machine_id" data = Some mid /\
     build_alert (S (anomalies_detected s)) mid data q = Raise e /\ r = Raise e) \/
  (exists a k data mid q,
     one_alert a k s s' /\ anomalies_detected s' = S (anomalies_detected s) /\
     model_trained s' = true /\
     msg = JObj data /\ dict_get "machine_id" data = Some mid /\
     hash_key mid = Ok k /\
     build_alert (S (anomalies_detected s)) mid data q = Ok a).
Proof.
  intros H. apply process_cases in H.
  destruct H as [(_ & -> & _)|[(_ & _ & -> & _)
                |(data & mid & k & c & s1 & -> & Hmid & Hk & Hc & H)]].
  - left. split; [apply no_alert_refl|reflexivity].
  - left. split; [repeat split|reflexivity].
  - pose proof (no_alert_received k data s) as N0.
    pose proof (md_lookup_received k data s) as Hin.
    destruct (collect_keeps _ _ _ _ _ Hc) as (Kmd & Kh & Kp & Ka & _ & Kt).
    assert (N1 : no_alert s s1).
    { apply (no_alert_trans _ _ _ N0). repeat split; try assumption.
      intros k'. unfold alerts_of. rewrite Kmd. reflexivity. }
    assert (A1 : anomalies_detected s1 = anomalies_detected s) by exact Ka.
    destruct c as [[]|e]; [|destruct H as [_ ->]; left; auto].
    apply score_reading_cases in H.
    destruct H as [[->| ->]|(Ht & q & _ & H)].
    + left. auto.
    + left. split; [|exact A1]. apply (no_alert_trans _ _ _ N1). repeat split.
    + apply handle_anomaly_cases in H.
      destruct H as [(e & -> & -> & Hwhy)|(a & k0 & Hb & Hk0 & H)].
      * right. left. repeat split; try apply N1; simpl; try congruence.
        -- rewrite Hmid. reflexivity.
        -- exists data, mid, q, e. repeat split; try assumption.
           rewrite <- A1.
           destruct Hwhy as [Hb|[Hh|(k0 & Hh & Hl)]]; [exact Hb|congruence|].
           exfalso. rewrite Hk in Hh. injection Hh as <-.
           apply Hin. rewrite <- Kmd. exact Hl.
      * right. right. rewrite Hk in Hk0. injection Hk0 as <-.
        rewrite A1 in Hb.
        exists a, k, data, mid, q.
        assert (O : one_alert a k s1 s').
        { destruct H as [-> | ->]; repeat split;
            intros k'; rewrite <- alerts_of_alerted
              by (simpl machine_data; rewrite Kmd; exact Hin); reflexivity. }
        split; [exact (one_alert_after _ _ _ _ _ N1 O)|].
        destruct H as [-> | ->]; simpl; repeat split; auto; congruence.
Qed.

Lemma trainings_started_say (e : event) (s : Monitor) :
  trainings_started (console (say e s)) =
    trainings_started (console s) + (if is_banner e then 1 else 0).
Proof.
  unfold trainings_started. simpl. rewrite filter_app, length_app. simpl.
  destruct (is_banner e); reflexivity.
Qed.

Lemma trainings_completed_say (e : event) (s : Monitor) :
  trainings_completed (console (say e s)) =
    trainings_completed (console s) + (if is_trained_report e then 1 else 0).
Proof.
  unfold trainings_completed. simpl. rewrite filter_app, length_app. simpl.
  destruct (is_trained_report e); reflexivity.
Qed.

(** The scoring branch leaves the training state and the training lines of
    the console as they are. *)
Lemma score_reading_keeps (mid : JVal) (data : dict) (f : list JVal) (s : Monitor) r s' :
  score_reading mid data f s = (r, s') ->
  model_trained s' = model_trained s /\ training_data s' = training_data s /\
  model s' = model s /\ scaler s' = scaler s /\
  total_readings s' = total_readings s /\
  trainings_started (console s') = trainings_started (console s) /\
  trainings_completed (console s') = trainings_completed (console s).
Proof.
  intros H. apply score_reading_cases in H.
  destruct H as [[->| ->]|(_ & q & _ & H)].
  - repeat split.
  - rewrite trainings_started_say, trainings_completed_say. simpl.
    rewrite !Nat.add_0_r. repeat split.
  - apply handle_anomaly_cases in H.
    destruct H as [(e & _ & -> & _)|(a & k & _ & _ & [->| ->])].
    + repeat split.
    + unfold alerted.
      rewrite trainings_started_say, trainings_completed_say. simpl.
      rewrite !Nat.add_0_r. repeat split.
    + unfold alerted.
      rewrite !trainings_started_say, !trainings_completed_say. simpl.
      rewrite !Nat.add_0_r. repeat split.
Qed.

(** What the collecting branch does to the training state.  In a trained
    monitor, nothing.  In an untrained one the sample is appended, and
    [train_model] is entered at most once; when the monitor comes out
    trained, exactly one training was entered and completed, on at least
    [min_training_samples] samples. *)
Lemma collect_training (w : bool) (f : list JVal) (s : Monitor) r s' :
  collect w f s = (r, s') ->
  (model_trained s = true -> s' = s) /\
  (model_trained s = false ->
     training_data s' = training_data s ++ [f] /\
     (model_trained s' = false ->
        trainings_completed (console s') = trainings_completed (console s) /\
        trainings_started (console s') <= S (trainings_started (console s)) /\
        (trainings_started (console s') = S (trainings_started (console s)) ->
         fit_transform (training_data s') = None \/
         exists sc X, fit_transform (training_data s') = Some (sc, X) /\
                      forest_fit X = None)) /\
     (model_trained s' = true ->
        trainings_completed (console s') = S (trainings_completed (console s)) /\
        trainings_started (console s') = S (trainings_started (console s)) /\
        min_training_samples <= List.length (training_data s'))).
Proof.
  intros H. apply collect_cases in H.
  destruct H as [(Ht & -> & _)|[(Ht & _ & -> & _)|(Ht & Hlen & H)]].
  - split; [reflexivity|congruence].
  - split; [congruence|]. intros _. split; [reflexivity|]. split.
    + intros _. simpl. repeat split; [lia|]. intros E. exfalso. lia.
    + simpl. congruence.
  - split; [congruence|]. intros _.
    apply train_model_cases in H.
    destruct H as [(_ & Hf & ->)|[(sc & X & _ & Hf & Hm & ->)
                  |(sc & X & m & _ & _ & [(_ & _ & ->)|(_ & _ & ->)])]].
    + split; [reflexivity|]. split; [|simpl; congruence]. intros _.
      rewrite trainings_started_say, trainings_completed_say. simpl.
      repeat split; try lia. intros _. left. exact Hf.
    + split; [reflexivity|]. split; [|simpl; congruence]. intros _.
      change (console (set_model Unfitted (set_scaler (Some sc)
                (say TrainingBanner (set_training_data (fun t => t ++ [f]) s)))))
        with (console (say TrainingBanner (set_training_data (fun t => t ++ [f]) s))).
      rewrite trainings_started_say, trainings_completed_say. simpl.
      repeat split; try lia. intros _. right. exists sc, X. auto.
    + split; [reflexivity|]. split; [simpl; congruence|]. intros _.
      unfold fitted.
      rewrite trainings_started_say, trainings_completed_say.
      change (console (set_model_trained true (set_model (Fitted m)
                (set_model Unfitted (set_scaler (Some sc)
                   (say TrainingBanner (set_training_data (fun t => t ++ [f]) s)))))))
        with (console (say TrainingBanner (set_training_data (fun t => t ++ [f]) s))).
      rewrite trainings_started_say, trainings_completed_say. simpl.
      repeat split; first [lia | exact Hlen].
    + split; [reflexivity|]. split; [simpl; congruence|]. intros _.
      unfold fitted.
      rewrite !trainings_started_say, !trainings_completed_say.
      change (console (set_model_trained true (set_model (Fitted m)
                (set_model Unfitted (set_scaler (Some sc)
                   (say TrainingBanner (set_training_data (fun t => t ++ [f]) s)))))))
        with (console (say TrainingBanner (set_training_data (fun t => t ++ [f]) s))).
      rewrite trainings_started_say, trainings_completed_say. simpl.
      repeat split; first [lia | exact Hlen].
Qed.

Lemma Forall_md_update (P : Key * MachineState -> Prop) (k : Key)
    (f : MachineState -> MachineState) (md : machine_map) :
  (forall k' st, P (k', st) -> P (k', f st)) ->
  Forall P md -> Forall P (md_update k f md).
Proof.
  intros Hf. induction 1 as [|[k0 st0] md H0 H IH]; simpl; [constructor|].
  destruct (key_eqb k k0); constructor; auto.
Qed.

Lemma no_alerts_store_reading (k : Key) (data : dict) (md : machine_map) :
  Forall (fun entry => alerts (snd entry) = []) md ->
  Forall (fun entry => alerts (snd entry) = []) (store_reading k data md).
Proof.
  intros H. unfold store_reading. apply Forall_md_update; [auto|].
  destruct (md_lookup k md); [exact H|].
  unfold md_add. apply Forall_app. split; [exact H|]. repeat constructor.
Qed.

(** A call that leaves the monitor untrained has raised no alert and at
    most stored the reading. *)
Lemma process_untrained (w : bool) (msg : JVal) (s : Monitor) r s' :
  process_sensor_data w msg s = (r, s') ->
  model_trained s' = false ->
  alert_history s' = alert_history s /\ published s' = published s /\
  anomalies_detected s' = anomalies_detected s /\
  (no_alerts_stored s -> no_alerts_stored s').
Proof.
  intros H Hu.
  assert (A : alert_history s' = alert_history s /\ published s' = published s /\
              anomalies_detected s' = anomalies_detected s).
  { destruct (process_alerts _ _ _ _ _ H)
      as [((Nh & Np & _) & Na)|[(_ & _ & Ht & _)|(a & k & data & mid & q & _ & _ & Ht & _)]];
      [auto|congruence|congruence]. }
  destruct A as (A1 & A2 & A3). repeat split; try assumption.
  apply process_cases in H.
  destruct H as [(_ & -> & _)|[(_ & _ & -> & _)
                |(data & mid & k & c & s1 & -> & Hmid & Hk & Hc & H)]];
    try (intros N; exact N).
  destruct (collect_keeps _ _ _ _ _ Hc) as (Kmd & _).
  assert (N1 : no_alerts_stored s -> no_alerts_stored s1).
  { unfold no_alerts_stored. rewrite Kmd. simpl. apply no_alerts_store_reading. }
  destruct c as [[]|e]; [|destruct H as [_ ->]; exact N1].
  pose proof (score_reading_keeps _ _ _ _ _ _ H) as (Kt & _).
  apply score_reading_cases in H.
  destruct H as [[->| ->]|(Ht & _)]; [exact N1|exact N1|congruence].
Qed.

(** What one delivery does to the training state. *)
Lemma on_message_training (d : Delivery) (s : Monitor) :
  (model_trained s = true ->
     model_trained (on_message d s) = true /\
     training_data (on_message d s) = training_data s /\
     model (on_message d s) = model s /\ scaler (on_message d s) = scaler s /\
     trainings_started (console (on_message d s)) = trainings_started (console s) /\
     trainings_completed (console (on_message d s)) =
       trainings_completed (console s)) /\
  (model_trained s = false -> model_trained (on_message d s) = false ->
     trainings_completed (console (on_message d s)) =
       trainings_completed (console s) /\
     trainings_started (console (on_message d s)) <= S (trainings_started (console s)) /\
     (trainings_started (console (on_message d s)) = S (trainings_started (console s)) ->
      (exists X, fit_transform X = None) \/ (exists X, forest_fit X = None))) /\
  (model_trained s = false -> model_trained (on_message d s) = true ->
     trainings_completed (console (on_message d s)) =
       S (trainings_completed (console s)) /\
     trainings_started (console (on_message d s)) = S (trainings_started (console s)) /\
     min_training_samples <= List.length (training_data (on_message d s))).
Proof.
  apply on_message_lifts.
  - intros e s' H.
    rewrite trainings_started_say, trainings_completed_say. simpl.
    rewrite !Nat.add_0_r. exact H.
  - intros _. repeat split; try congruence; try lia; intros E; exfalso; lia.
  - intros msg r s' _ H. apply process_cases in H.
    destruct H as [(_ & -> & _)|[(_ & _ & -> & _)
                  |(data & mid & k & c & s1 & -> & Hmid & Hk & Hc & H)]].
    + repeat split; try congruence; try lia; intros E; exfalso; lia.
    + simpl. repeat split; try congruence; try lia; intros E; exfalso; lia.
    + destruct (collect_training _ _ _ _ _ Hc) as (C1 & C2).
      assert (K : model_trained s' = model_trained s1 /\
                  training_data s' = training_data s1 /\
                  model s' = model s1 /\ scaler s' = scaler s1 /\
                  trainings_started (console s') = trainings_started (console s1) /\
                  trainings_completed (console s') = trainings_completed (console s1)).
      { destruct c as [[]|e]; [|destruct H as [_ ->]; repeat split].
        destruct (score_reading_keeps _ _ _ _ _ _ H) as (K1 & K2 & K3 & K4 & _ & K5 & K6).
        repeat split; assumption. }
      destruct K as (K1 & K2 & K3 & K4 & K5 & K6).
      rewrite K1, K2, K3, K4, K5, K6.
      split; [|split].
      * intros Ht. rewrite (C1 Ht). repeat split. exact Ht.
      * intros Ht Hu. destruct (C2 Ht) as (_ & C3 & _).
        destruct (C3 Hu) as (D1 & D2 & D3).
        repeat split; try assumption.
        intros E. destruct (D3 E) as [F|(sc & X & _ & F)]; eauto.
      * intros Ht Hu. destruct (C2 Ht) as (_ & _ & C3). exact (C3 Hu).
Qed.

End Steps.

(** ** Gating of alerts, training, counters *)

Section Claims.

Context {rt : Runtime}.

Lemma on_message_untrained (d : Delivery) (s : Monitor) :
  model_trained (on_message d s) = false ->
  alert_history (on_message d s) = alert_history s /\
  published (on_message d s) = published s /\
  anomalies_detected (on_message d s) = anomalies_detected s /\
  (no_alerts_stored s -> no_alerts_stored (on_message d s)).
Proof.
  apply on_message_lifts.
  - intros e s' H. exact H.
  - intros _ _. repeat split. auto.
  - intros msg r s' _ H. exact (process_untrained _ _ _ _ _ H).
Qed.

(** The gate: below the threshold the model is untrained, and an untrained
    monitor has raised no alert. *)
Lemma untrained_is_silent (ds : list Delivery) :
  (List.length (training_data (run ds init)) < min_training_samples ->
   model_trained (run ds init) = false) /\
  (model_trained (run ds init) = false ->
   alert_history (run ds init) = [] /\
   no_alerts_stored (run ds init) /\
   published (run ds init) = [] /\
   anomalies_detected (run ds init) = 0).
Proof.
  apply (run_invariant
           (fun s =>
              (List.length (training_data s) < min_training_samples ->
               model_trained s = false) /\
              (model_trained s = false ->
               alert_history s = [] /\ no_alerts_stored s /\
               published s = [] /\ anomalies_detected s = 0))).
  - split; [reflexivity|]. intros _. repeat split. constructor.
  - intros d s (I1 & I2).
    destruct (on_message_training d s) as (T1 & _ & T3).
    destruct (model_trained s) eqn:Ht.
    + destruct (T1 eq_refl) as (E1 & E2 & _). split.
      * intros Hlen. rewrite E2 in Hlen. specialize (I1 Hlen). discriminate.
      * intros Hu. congruence.
    + split.
      * intros Hlen.
        destruct (model_trained (on_message d s)) eqn:Ht'; [|reflexivity].
        destruct (T3 eq_refl eq_refl) as (_ & _ & Hge). exfalso. lia.
      * intros Hu.
        destruct (on_message_untrained d s Hu) as (U1 & U2 & U3 & U4).
        destruct (I2 eq_refl) as (J1 & J2 & J3 & J4).
        rewrite U1, U2, U3. auto.
Qed.

(** C1. After any sequence of deliveries: with fewer than 30 training
    samples collected the model is not trained, and as long as the model is
    not trained no alert has been stored in the history or in any machine's
    list, none has been published, and no anomaly has been counted. *)
Theorem no_alert_before_training (ds : list Delivery) :
  (List.length (training_data (run ds init)) < min_training_samples ->
   model_trained (run ds init) = false) /\
  (model_trained (run ds init) = false ->
   alert_history (run ds init) = [] /\
   no_alerts_stored (run ds init) /\
   published (run ds init) = [] /\
   anomalies_detected (run ds init) = 0).
Proof. exact (untrained_is_silent ds). Qed.

Lemma process_total (w : bool) (msg : JVal) (s : Monitor) r s' :
  process_sensor_data w msg s = (r, s') ->
  total_readings s' =
    if is_reading msg then S (total_readings s) else total_readings s.
Proof.
  intros H. apply process_cases in H.
  destruct H as [(-> & -> & _)|[(-> & _ & -> & _)
                |(data & mid & k & c & s1 & -> & Hmid & Hk & Hc & H)]];
    try reflexivity.
  simpl. rewrite Hmid.
  destruct (collect_keeps _ _ _ _ _ Hc) as (_ & _ & _ & _ & Kt & _).
  destruct c as [[]|e]; [|destruct H as [_ ->]; exact Kt].
  destruct (score_reading_keeps _ _ _ _ _ _ H) as (_ & _ & _ & _ & K & _).
  rewrite K. exact Kt.
Qed.

Lemma process_anomalies (w : bool) (msg : JVal) (s : Monitor) r s' :
  process_sensor_data w msg s = (r, s') ->
  anomalies_detected s' = anomalies_detected s \/
  (anomalies_detected s' = S (anomalies_detected s) /\ is_reading msg = true).
Proof.
  intros H.
  destruct (process_alerts _ _ _ _ _ H)
    as [(_ & Na)|[(_ & Na & _ & Hr & _)
       |(a & k & data & mid & q & _ & Na & _ & -> & Hmid & _)]].
  - left. exact Na.
  - right. auto.
  - right. split; [exact Na|]. simpl. rewrite Hmid. reflexivity.
Qed.

(** C4. Both counters start at 0; a call of [process_sensor_data] on a
    reading (a dict that has a machine_id) increments total_readings exactly
    once and anomalies_detected at most once, a call on anything else is
    refused with both counters as they were; so after every sequence of
    deliveries anomalies_detected <= total_readings. *)
Theorem anomalies_le_total_readings :
  (total_readings init = 0 /\ anomalies_detected init = 0) /\
  (forall w msg s r s',
     process_sensor_data w msg s = (r, s') -> is_reading msg = true ->
     total_readings s' = S (total_readings s) /\
     (anomalies_detected s' = anomalies_detected s \/
      anomalies_detected s' = S (anomalies_detected s))) /\
  (forall w msg s r s',
     process_sensor_data w msg s = (r, s') -> is_reading msg = false ->
     total_readings s' = total_readings s /\
     anomalies_detected s' = anomalies_detected s) /\
  (forall ds,
     anomalies_detected (run ds init) <= total_readings (run ds init)).
Proof.
  split; [split; reflexivity|]. split; [|split].
  - intros w msg s r s' H Hr. split.
    + rewrite (process_total _ _ _ _ _ H), Hr. reflexivity.
    + destruct (process_anomalies _ _ _ _ _ H) as [E|[E _]]; auto.
  - intros w msg s r s' H Hr. split.
    + rewrite (process_total _ _ _ _ _ H), Hr. reflexivity.
    + destruct (process_anomalies _ _ _ _ _ H) as [E|[_ E]]; [exact E|congruence].
  - apply (run_invariant (fun s => anomalies_detected s <= total_readings s)).
    + apply Nat.le_refl.
    + intros d s I. apply on_message_lifts.
      * intros e s' H. exact H.
      * intros _. exact I.
      * intros msg r s' _ H.
        rewrite (process_total _ _ _ _ _ H).
        destruct (process_anomalies _ _ _ _ _ H) as [E|[E Hr]]; rewrite E.
        -- destruct (is_reading msg); lia.
        -- rewrite Hr. lia.
Qed.

(** Once the model is trained, deliveries leave the training state alone. *)
Lemma trained_is_final (ds : list Delivery) (s : Monitor) :
  model_trained s = true ->
  model_trained (run ds s) = true /\ training_data (run ds s) = training_data s /\
  model (run ds s) = model s /\ scaler (run ds s) = scaler s /\
  trainings_started (console (run ds s)) = trainings_started (console s) /\
  trainings_completed (console (run ds s)) = trainings_completed (console s).
Proof.
  revert s. induction ds as [|d ds IH]; intros s Ht; simpl; [repeat split; exact Ht|].
  destruct (on_message_training d s) as (T1 & _).
  destruct (T1 Ht) as (E1 & E2 & E3 & E4 & E5 & E6).
  destruct (IH _ E1) as (F1 & F2 & F3 & F4 & F5 & F6).
  repeat split; congruence.
Qed.

Lemma completed_matches_flag (ds : list Delivery) :
  trainings_completed (console (run ds init)) =
    if model_trained (run ds init) then 1 else 0.
Proof.
  apply (run_invariant
           (fun s => trainings_completed (console s) =
                     if model_trained s then 1 else 0)); [reflexivity|].
  intros d s I.
  destruct (on_message_training d s) as (T1 & T2 & T3).
  destruct (model_trained s) eqn:Ht.
  - destruct (T1 eq_refl) as (E1 & _ & _ & _ & _ & E6). rewrite E1, E6. exact I.
  - destruct (model_trained (on_message d s)) eqn:Ht'.
    + destruct (T3 eq_refl eq_refl) as (E & _). rewrite E, I. reflexivity.
    + destruct (T2 eq_refl eq_refl) as (E & _). rewrite E, I. reflexivity.
Qed.

(** ** The bounded reading history *)

Lemma lastn_short {A} (n : nat) (l : list A) :
  List.length l <= n -> lastn n l = l.
Proof.
  intros H. unfold lastn. replace (List.length l - n) with 0 by lia. reflexivity.
Qed.

Lemma length_lastn {A} (n : nat) (l : list A) :
  List.length (lastn n l) = Nat.min n (List.length l).
Proof. unfold lastn. rewrite length_skipn. lia. Qed.

(** Appending to the deque of the last [n] entries gives the last [n]
    entries of the longer sequence. *)
Lemma deque_append_lastn {A} (n : nat) (l : list A) (x : A) :
  deque_append n (lastn n l) x = lastn n (l ++ [x]).
Proof.
  unfold deque_append. cbv zeta.
  rewrite length_app, length_lastn. simpl List.length.
  destruct (Nat.le_gt_cases n (List.length l)) as [Hge|Hlt].
  - replace (n <? Nat.min n (List.length l) + 1) with true
      by (symmetry; apply Nat.ltb_lt; lia).
    unfold lastn. rewrite length_app. simpl List.length.
    replace (List.length l + 1 - n) with (1 + (List.length l - n)) by lia.
    rewrite <- skipn_skipn, skipn_app.
    replace (List.length l - n - List.length l) with 0 by lia.
    reflexivity.
  - replace (n <? Nat.min n (List.length l) + 1) with false
      by (symmetry; apply Nat.ltb_ge; lia).
    rewrite !lastn_short; [reflexivity| |lia].
    rewrite length_app. simpl. lia.
Qed.

Lemma readings_for_app (k : Key) (ds1 ds2 : list Delivery) :
  readings_for k (ds1 ++ ds2) = readings_for k ds1 ++ readings_for k ds2.
Proof.
  induction ds1 as [|d ds1 IH]; simpl; [reflexivity|].
  destruct (payload d) as [msg|]; [|exact IH].
  destruct (reading_key msg) as [[k' data]|]; [|exact IH].
  destruct (key_eqb k k'); [|exact IH].
  simpl. rewrite IH. reflexivity.
Qed.

Lemma readings_of_received (k' k : Key) (data : dict) (s : Monitor) :
  readings_of k' (received k data s) =
    if key_eqb k' k then deque_append readings_maxlen (readings_of k' s) data
    else readings_of k' s.
Proof.
  unfold readings_of, received, store_reading. simpl machine_data.
  rewrite md_lookup_update.
  destruct (key_eqb k' k) eqn:Hk.
  - destruct (md_lookup k (machine_data s)) as [st|] eqn:E.
    + rewrite (md_lookup_congr _ _ _ Hk), E. reflexivity.
    + rewrite md_lookup_add, (md_lookup_congr _ _ _ Hk), E, Hk.
      reflexivity.
  - destruct (md_lookup k (machine_data s)) as [st|] eqn:E; [reflexivity|].
    rewrite md_lookup_add, Hk.
    destruct (md_lookup k' (machine_data s)); reflexivity.
Qed.

Lemma readings_of_alerted (k' k : Key) (a : Alert) (s : Monitor) :
  readings_of k' (alerted k a s) = readings_of k' s.
Proof.
  unfold readings_of, alerted. simpl machine_data. rewrite md_lookup_update.
  destruct (key_eqb k' k); [|reflexivity].
  destruct (md_lookup k' (machine_data s)); reflexivity.
Qed.

Lemma score_reading_readings (k' : Key) (mid : JVal) (data : dict) (f : list JVal)
    (s : Monitor) r s' :
  score_reading mid data f s = (r, s') -> readings_of k' s' = readings_of k' s.
Proof.
  intros H. apply score_reading_cases in H.
  destruct H as [[->| ->]|(_ & q & _ & H)]; try reflexivity.
  apply handle_anomaly_cases in H.
  destruct H as [(e & _ & -> & _)|(a & k & _ & _ & [->| ->])]; try reflexivity.
  - rewrite readings_of_alerted. reflexivity.
  - change (readings_of k' (alerted k a (set_anomalies_detected S s)) =
            readings_of k' s).
    rewrite readings_of_alerted. reflexivity.
Qed.

Lemma is_reading_key (msg : JVal) :
  is_reading msg = false -> reading_key msg = None.
Proof.
  destruct msg as [| | | | |data]; simpl; try reflexivity.
  destruct (dict_get "machine_id" data); [discriminate|reflexivity].
Qed.

(** The stored readings of machine [k] after one delivery. *)
Lemma on_message_readings (k : Key) (d : Delivery) (s : Monitor) :
  readings_of k (on_message d s) =
    deque_extend k d (readings_of k s).
Proof.
  unfold deque_extend. apply on_message_lifts.
  - intros e s' H. exact H.
  - intros ->. reflexivity.
  - intros msg r s' -> H. apply process_cases in H.
    destruct H as [(Hr & -> & _)|[(_ & Hr & -> & _)
                  |(data & mid & k0 & c & s1 & -> & Hmid & Hk & Hc & H)]].
    + rewrite (is_reading_key _ Hr). reflexivity.
    + rewrite Hr. reflexivity.
    + simpl. rewrite Hmid, Hk.
      destruct (collect_keeps _ _ _ _ _ Hc) as (Kmd & _).
      assert (R1 : readings_of k s1 = readings_of k (received k0 data s)).
      { unfold readings_of. rewrite Kmd. reflexivity. }
      rewrite <- readings_of_received, <- R1.
      destruct c as [[]|e]; [|destruct H as [_ ->]; reflexivity].
      exact (score_reading_readings _ _ _ _ _ _ _ H).
Qed.

(** C3. After any sequence of deliveries the stored history of a machine
    holds at most 50 readings, and they are the last 50 readings delivered
    for that machine, in arrival order; with 51 delivered, the history is
    all of them but the oldest. *)
Theorem reading_history_bounded (ds : list Delivery) (k : Key) :
  List.length (readings_of k (run ds init)) <= 50 /\
  readings_of k (run ds init) = lastn 50 (readings_for k ds) /\
  (List.length (readings_for k ds) = 51 ->
   readings_of k (run ds init) = tl (readings_for k ds)).
Proof.
  assert (H : readings_of k (run ds init) = lastn 50 (readings_for k ds)).
  { induction ds as [|d ds IH] using rev_ind; [reflexivity|].
    rewrite run_snoc, on_message_readings, IH, readings_for_app.
    unfold deque_extend. simpl readings_for.
    destruct (payload d) as [msg|]; [|rewrite app_nil_r; reflexivity].
    destruct (reading_key msg) as [[k' data]|]; [|rewrite app_nil_r; reflexivity].
    destruct (key_eqb k k'); [|rewrite app_nil_r; reflexivity].
    apply deque_append_lastn. }
  split; [|split].
  - rewrite H, length_lastn. lia.
  - exact H.
  - intros Hlen. rewrite H. unfold lastn. rewrite Hlen.
    destruct (readings_for k ds); reflexivity.
Qed.

(** ** Alert identifiers *)

Lemma parse_number_zeros (k : nat) (s : string) :
  parse_number (zeros k ++ s) = parse_number s.
Proof.
  induction k as [|k IH]; [reflexivity|].
  unfold parse_number in *. simpl.
  destruct (NilEmpty.uint_of_string (zeros k ++ s)) as [d|];
    destruct (NilEmpty.uint_of_string s) as [d'|]; try discriminate; try reflexivity.
  simpl in *. rewrite <- IH. reflexivity.
Qed.

Lemma parse_number_format (n : nat) : parse_number (format_04d n) = Some n.
Proof.
  unfold format_04d. cbv zeta. rewrite parse_number_zeros.
  unfold parse_number, decimal. rewrite NilEmpty.usu. simpl.
  rewrite Unsigned.of_to. reflexivity.
Qed.

(** Distinct counter values give distinct alert ids. *)
Lemma alert_id_of_inj (n m : nat) : alert_id_of n = alert_id_of m -> n = m.
Proof.
  unfold alert_id_of. simpl. intros H. injection H as H.
  assert (E : parse_number (format_04d n) = parse_number (format_04d m))
    by (rewrite H; reflexivity).
  rewrite !parse_number_format in E. congruence.
Qed.

Lemma build_alert_id (n : nat) (mid : JVal) (data : dict) (q : Q) (a : Alert) :
  build_alert n mid data q = Ok a ->
  alert_id a = alert_id_of n /\ machine_id a = mid /\
  subscript data "timestamp" = Ok (timestamp a) /\
  anomaly_score a = round4 q /\ severity a = calculate_severity q /\
  get_recommendation data = Ok (recommendation a).
Proof.
  unfold build_alert, rbind.
  repeat match goal with
         | |- context [subscript data ?k] => destruct (subscript data k)
         end; try discriminate.
  destruct (get_recommendation data); [|discriminate].
  intros H. injection H as <-. repeat split.
Qed.

Lemma has_number_metric (data : dict) (k : string) :
  has_number data k = true -> exists q, metric data k q.
Proof.
  unfold has_number, metric.
  destruct (dict_get k data) as [v|]; [|discriminate].
  destruct (as_number v) as [q|] eqn:E; [|discriminate].
  intros _. exists q, v. auto.
Qed.

Lemma build_alert_complete (n : nat) (mid : JVal) (data : dict) (q : Q) :
  complete data = true -> exists a, build_alert n mid data q = Ok a.
Proof.
  unfold complete. intros H. apply andb_prop in H as [Hk Hn].
  cbn [forallb six_keys] in Hk, Hn.
  repeat match goal with
         | H : _ && _ = true |- _ => apply andb_prop in H as [? ?]
         end.
  repeat match goal with
         | H : has_number _ _ = true |- _ =>
             apply has_number_metric in H; destruct H as [? ?]
         end.
  unfold build_alert, subscript, rbind.
  repeat match goal with
         | H : has_key data ?k = true |- _ =>
             unfold has_key in H; destruct (dict_get k data); [clear H|discriminate H]
         end.
  erewrite get_recommendation_flags by eassumption.
  eexists. reflexivity.
Qed.

(** A reading that lacks one of the six keys: building the alert raises
    the [KeyError] of the first missing one. *)
Lemma build_alert_missing (n : nat) (mid : JVal) (data : dict) (q : Q) :
  forallb (has_key data) six_keys = false ->
  exists k, In k six_keys /\ dict_get k data = None /\
            build_alert n mid data q = Raise (KeyError (JStr k)).
Proof.
  unfold build_alert, subscript, rbind, has_key. cbn [forallb six_keys].
  destruct (dict_get "timestamp" data) eqn:E0;
    [|intros _; exists "timestamp"; simpl; repeat split; auto 10].
  destruct (dict_get "temperature" data) eqn:E1;
    [|intros _; exists "temperature"; simpl; repeat split; auto 10].
  destruct (dict_get "vibration" data) eqn:E2;
    [|intros _; exists "vibration"; simpl; repeat split; auto 10].
  destruct (dict_get "current" data) eqn:E3;
    [|intros _; exists "current"; simpl; repeat split; auto 10].
  destruct (dict_get "pressure" data) eqn:E4;
    [|intros _; exists "pressure"; simpl; repeat split; auto 10].
  destruct (dict_get "rpm" data) eqn:E5;
    [|intros _; exists "rpm"; simpl; repeat split; auto 10].
  discriminate.
Qed.

Lemma StronglySorted_snoc (ns : list nat) (n : nat) :
  StronglySorted lt ns -> Forall (fun m => m < n) ns ->
  StronglySorted lt (ns ++ [n]).
Proof.
  induction 1 as [|m ns Hs IH Hm]; intros Hn; simpl.
  - repeat constructor.
  - inversion Hn as [|? ? Hm' Hn']; subst. constructor; [apply IH; exact Hn'|].
    apply Forall_app. split; [exact Hm|]. repeat constructor. exact Hm'.
Qed.

Lemma sorted_nth_ge (ns : list nat) (b : nat) :
  StronglySorted lt ns -> Forall (fun n => b <= n) ns ->
  forall i n, nth_error ns i = Some n -> b + i <= n.
Proof.
  intros Hs. revert b. induction Hs as [|m ns Hs IH Hm]; intros b Hb i n Hi.
  - destruct i; discriminate.
  - inversion Hb as [|? ? Hbm Hb']; subst.
    destruct i as [|i]; simpl in Hi.
    + injection Hi as <-. lia.
    + assert (H : S m + i <= n).
      { apply (IH (S m)); [|exact Hi].
        rewrite Forall_forall in *. intros x Hx. apply Hm in Hx. lia. }
      lia.
Qed.

Lemma numbered_step (d : Delivery) (s : Monitor) (ns : list nat) :
  numbered ns s -> published s = alert_history s ->
  (exists ns', numbered ns' (on_message d s)) /\
  published (on_message d s) = alert_history (on_message d s).
Proof.
  intros (Hid & Hs & Hb) Hp. apply on_message_lifts.
  - intros e s' H. exact H.
  - intros _. split; [exists ns; repeat split; assumption|exact Hp].
  - intros msg r s' _ H.
    destruct (process_alerts _ _ _ _ _ H)
      as [((Nh & Np & _) & Na)|[((Nh & Np & _) & Na & _)
         |(a & k & data & mid & q & (Oh & Op & _) & Na & _ & _ & _ & _ & Hb')]].
    + split; [|congruence]. exists ns. unfold numbered. rewrite Nh, Na. auto.
    + split; [|congruence]. exists ns. unfold numbered. rewrite Nh, Na.
      repeat split; try assumption.
      eapply Forall_impl; [|exact Hb]. simpl. intros n Hn. lia.
    + split; [|congruence]. exists (ns ++ [S (anomalies_detected s)]).
      destruct (build_alert_id _ _ _ _ _ Hb') as (Ha & _).
      unfold numbered. rewrite Oh, Na, !map_app, Hid. simpl. rewrite Ha.
      repeat split.
      * apply StronglySorted_snoc; [exact Hs|].
        eapply Forall_impl; [|exact Hb]. simpl. intros n Hn. lia.
      * apply Forall_app. split.
        -- eapply Forall_impl; [|exact Hb]. simpl. intros n Hn. lia.
        -- constructor; [lia|constructor].
Qed.

(** A delivery that advances the counter stores a reading. *)
Lemma process_anomaly_stored (w : bool) (msg : JVal) (s : Monitor) r s' :
  process_sensor_data w msg s = (r, s') ->
  anomalies_detected s' <> anomalies_detected s ->
  exists k data, msg = JObj data /\ reading_key msg = Some (k, data).
Proof.
  intros H Hne. apply process_cases in H.
  destruct H as [(_ & -> & _)|[(_ & _ & -> & _)
                |(data & mid & k & c & s1 & -> & Hmid & Hk & _)]].
  - exfalso. apply Hne. reflexivity.
  - exfalso. apply Hne. reflexivity.
  - exists k, data. split; [reflexivity|]. simpl. rewrite Hmid, Hk. reflexivity.
Qed.

Lemma complete_step (d : Delivery) (s : Monitor) :
  complete_reading d = true ->
  map alert_id (alert_history s) = map alert_id_of (seq 1 (anomalies_detected s)) ->
  map alert_id (alert_history (on_message d s)) =
    map alert_id_of (seq 1 (anomalies_detected (on_message d s))).
Proof.
  intros Hc Hid. apply on_message_lifts.
  - intros e s' H. exact H.
  - intros _. exact Hid.
  - intros msg r s' Hp H.
    destruct (process_alerts _ _ _ _ _ H)
      as [((Nh & _) & Na)|[(_ & Na & _ & _ & data & mid & q & e & E & _ & Hb & _)
         |(a & k & data & mid & q & (Oh & _) & Na & _ & _ & _ & _ & Hb)]].
    + rewrite Nh, Na. exact Hid.
    + exfalso.
      destruct (process_anomaly_stored _ _ _ _ _ H) as (k & data' & E' & Hrk);
        [rewrite Na; lia|].
      rewrite E in E'. injection E' as <-.
      unfold complete_reading, stored in Hc. rewrite Hp, Hrk in Hc.
      destruct (build_alert_complete (S (anomalies_detected s)) mid data q Hc)
        as [a Ha].
      congruence.
    + destruct (build_alert_id _ _ _ _ _ Hb) as (Ha & _).
      rewrite Oh, Na, seq_S, !map_app, Hid. simpl. rewrite Ha. reflexivity.
Qed.

Lemma run_complete (ds : list Delivery) (s : Monitor) :
  map alert_id (alert_history s) = map alert_id_of (seq 1 (anomalies_detected s)) ->
  forallb complete_reading ds = true ->
  map alert_id (alert_history (run ds s)) =
    map alert_id_of (seq 1 (anomalies_detected (run ds s))).
Proof.
  revert s. induction ds as [|d ds IH]; intros s H0 Hc; simpl in *; [exact H0|].
  apply andb_prop in Hc as [Hd Hc].
  apply IH; [|exact Hc]. apply complete_step; assumption.
Qed.

(** An alert is numbered by the counter as it stands when the alert is
    created: a delivery either stores no alert, or advances the counter by
    one and stores one alert whose id is written from the new value. *)
Lemma alert_numbered_at_creation (d : Delivery) (s : Monitor) :
  alert_history (on_message d s) = alert_history s \/
  exists a,
    alert_history (on_message d s) = alert_history s ++ [a] /\
    anomalies_detected (on_message d s) = S (anomalies_detected s) /\
    alert_id a = alert_id_of (anomalies_detected (on_message d s)).
Proof.
  apply on_message_lifts.
  - intros e s' H. exact H.
  - intros _. left. reflexivity.
  - intros msg r s' _ H.
    destruct (process_alerts _ _ _ _ _ H)
      as [((Nh & _) & _)|[((Nh & _) & _)
         |(a & k & data & mid & q & (Oh & _) & Na & _ & _ & _ & _ & Hb)]].
    + left. exact Nh.
    + left. exact Nh.
    + right. exists a. destruct (build_alert_id _ _ _ _ _ Hb) as (Ha & _).
      rewrite Na. auto.
Qed.

Lemma history_numbered (ds : list Delivery) :
  (exists ns, numbered ns (run ds init)) /\
  published (run ds init) = alert_history (run ds init).
Proof.
  apply (run_invariant
           (fun s => (exists ns, numbered ns s) /\ published s = alert_history s)).
  - split; [|reflexivity]. exists []. repeat split; constructor.
  - intros d s [[ns Hn] Hp]. exact (numbered_step d s ns Hn Hp).
Qed.

(** C6, as amended.  After any sequence of deliveries the published alerts
    are the stored ones; their ids are "ALERT_" followed by zero-padded
    counter values that strictly increase along the history, the N-th being
    at least N and at most anomalies_detected.  The number in an id is the
    value anomalies_detected has when the alert is created: a further
    delivery either stores no alert, or advances the counter by one and
    appends one alert whose id is written from the new value.  When every
    reading stored so far is complete (payloads that are no reading do not
    matter), the N-th id is that of N exactly and anomalies_detected is the
    number of alerts. *)
Theorem alert_ids_increase (ds : list Delivery) :
  published (run ds init) = alert_history (run ds init) /\
  (exists ns,
     map alert_id (alert_history (run ds init)) = map alert_id_of ns /\
     StronglySorted lt ns /\
     forall i n, nth_error ns i = Some n ->
                 S i <= n <= anomalies_detected (run ds init)) /\
  (forall d,
     alert_history (run (ds ++ [d]) init) = alert_history (run ds init) \/
     exists a,
       alert_history (run (ds ++ [d]) init) = alert_history (run ds init) ++ [a] /\
       anomalies_detected (run (ds ++ [d]) init) =
         S (anomalies_detected (run ds init)) /\
       alert_id a = alert_id_of (anomalies_detected (run (ds ++ [d]) init))) /\
  (forallb complete_reading ds = true ->
   map alert_id (alert_history (run ds init)) =
     map alert_id_of (seq 1 (anomalies_detected (run ds init))) /\
   anomalies_detected (run ds init) = List.length (alert_history (run ds init))).
Proof.
  destruct (history_numbered ds) as [[ns (Hid & Hs & Hb)] Hp].
  split; [exact Hp|]. split; [|split].
  - exists ns. repeat split; try assumption.
    + pose proof (sorted_nth_ge ns 1 Hs) as Hge.
      assert (Hb1 : Forall (fun n => 1 <= n) ns)
        by (eapply Forall_impl; [|exact Hb]; simpl; intros; lia).
      specialize (Hge Hb1 i n H). lia.
    + rewrite Forall_forall in Hb. apply nth_error_In in H. apply Hb in H. lia.
  - intros d. rewrite run_snoc. apply alert_numbered_at_creation.
  - intros Hc.
    assert (E : map alert_id (alert_history (run ds init)) =
                map alert_id_of (seq 1 (anomalies_detected (run ds init)))).
    { apply run_complete; [reflexivity|exact Hc]. }
    split; [exact E|].
    apply (f_equal (@List.length _)) in E.
    rewrite !length_map, length_seq in E. congruence.
Qed.

(** ** Training at the threshold, and scoring afterwards *)

(** The collecting branch on the sample that reaches the threshold, when
    fitting succeeds. *)
Lemma collect_trains (w : bool) (f : list JVal) (s : Monitor)
    (sc : Scaler) (X : Matrix) (m : Forest) :
  model_trained s = false ->
  min_training_samples <= List.length (training_data s) + 1 ->
  fit_transform (training_data s ++ [f]) = Some (sc, X) ->
  forest_fit X = Some m ->
  collect w f s =
    if w
    then (Ok tt, say ModelSaved (fitted sc m (set_training_data (fun t => t ++ [f]) s)))
    else (Raise OSError, fitted sc m (set_training_data (fun t => t ++ [f]) s)).
Proof.
  intros Ht Hlen Hfit Hforest.
  rewrite (collect_untrained _ _ _ Ht).
  replace (min_training_samples <=? List.length (training_data s ++ [f])) with true
    by (symmetry; apply Nat.leb_le; rewrite length_app; simpl; lia).
  rewrite train_model_eq. simpl training_data. rewrite Hfit, Hforest. reflexivity.
Qed.

(** In a monitor with a fitted scaler and forest a reading is scored: it is
    counted and stored, and the verdict of the fitted pair on its features
    decides between [handle_anomaly] and [log_normal_operation]. *)
Lemma process_scores (w : bool) (data : dict) (mid : JVal) (k : Key) (s : Monitor)
    (sc : Scaler) (m : Forest) :
  dict_get "machine_id" data = Some mid -> hash_key mid = Ok k ->
  model_trained s = true -> scaler s = Some sc -> model s = Fitted m ->
  process_sensor_data w (JObj data) s =
    act_on mid data (verdict sc m (extract_features data)) (received k data s).
Proof.
  intros Hmid Hk Ht Hsc Hm.
  rewrite (process_reading _ _ _ _ _ Hmid Hk). unfold bind.
  rewrite collect_trained by exact Ht.
  rewrite score_reading_trained by exact Ht.
  rewrite detect_anomaly_eq. simpl scaler. simpl model. rewrite Hsc, Hm.
  reflexivity.
Qed.

(** C8. If the reading that reaches the training threshold is delivered
    while the model file cannot be written, and fitting succeeds: the
    failure ends up as an error line on the console and [on_message]
    returns; model_trained is true and the fitted scaler and forest are in
    the monitor; and after any further deliveries they still are, and every
    reading is scored by them. *)
Theorem persistence_failure_not_fatal (s : Monitor) (data : dict) (mid : JVal)
    (k : Key) (sc : Scaler) (X : Matrix) (m : Forest) :
  model_trained s = false ->
  min_training_samples <= List.length (training_data s) + 1 ->
  dict_get "machine_id" data = Some mid -> hash_key mid = Ok k ->
  fit_transform (training_data s ++ [extract_features data]) = Some (sc, X) ->
  forest_fit X = Some m ->
  let s' := on_message (mkDelivery (Some (JObj data)) false) s in
  process_sensor_data false (JObj data) s =
    (Raise OSError,
     fitted sc m (set_training_data (fun t => t ++ [extract_features data])
                    (received k data s))) /\
  console s' =
    console s ++ [TrainingBanner;
                  ModelTrained (List.length (training_data s) + 1);
                  ErrorProcessing OSError] /\
  model_trained s' = true /\ scaler s' = Some sc /\ model s' = Fitted m /\
  forall ds,
    model_trained (run ds s') = true /\ scaler (run ds s') = Some sc /\
    model (run ds s') = Fitted m /\
    forall w data2 mid2 k2,
      dict_get "machine_id" data2 = Some mid2 -> hash_key mid2 = Ok k2 ->
      process_sensor_data w (JObj data2) (run ds s') =
        act_on mid2 data2 (verdict sc m (extract_features data2))
          (received k2 data2 (run ds s')).
Proof.
  intros Ht Hlen Hmid Hk Hfit Hforest s'.
  assert (E : process_sensor_data false (JObj data) s =
              (Raise OSError,
               fitted sc m (set_training_data (fun t => t ++ [extract_features data])
                              (received k data s)))).
  { rewrite (process_reading _ _ _ _ _ Hmid Hk). unfold bind.
    rewrite (collect_trains false _ _ sc X m); auto. }
  assert (Es : s' = say (ErrorProcessing OSError)
                      (fitted sc m (set_training_data
                                      (fun t => t ++ [extract_features data])
                                      (received k data s)))).
  { unfold s', on_message; cbn [payload disk_ok]. rewrite E. reflexivity. }
  split; [exact E|]. split; [|split; [|split; [|split]]].
  - rewrite Es. simpl. rewrite length_app, <- !app_assoc. reflexivity.
  - rewrite Es. reflexivity.
  - rewrite Es. reflexivity.
  - rewrite Es. reflexivity.
  - intros ds.
    assert (Ht' : model_trained s' = true) by (rewrite Es; reflexivity).
    destruct (trained_is_final ds s' Ht') as (F1 & _ & F3 & F4 & _).
    assert (Fsc : scaler (run ds s') = Some sc) by (rewrite F4, Es; reflexivity).
    assert (Fm : model (run ds s') = Fitted m) by (rewrite F3, Es; reflexivity).
    repeat split; try assumption.
    intros w data2 mid2 k2 Hmid2 Hk2.
    exact (process_scores w data2 mid2 k2 _ sc m Hmid2 Hk2 F1 Fsc Fm).
Qed.

Lemma alerts_of_empty (k : Key) (s : Monitor) :
  no_alerts_stored s -> alerts_of k s = [].
Proof.
  unfold no_alerts_stored, alerts_of.
  induction (machine_data s) as [|[k0 st0] md IH]; intros H; simpl; [reflexivity|].
  inversion H as [|? ? H0 H1]; subst.
  destruct (key_eqb k k0); [exact H0|exact (IH H1)].
Qed.

(** C9. When the reading that supplies the 30th training sample is
    delivered with a writable disk and fitting succeeds, that same call
    scores the reading with the model just fitted; if the verdict is
    "anomalous" and the alert can be built, the call stores and publishes
    it as the first alert, ALERT_0001, while no alert existed before. *)
Theorem threshold_reading_is_scored (ds : list Delivery) (data : dict) (mid : JVal)
    (k : Key) (sc : Scaler) (X : Matrix) (m : Forest) :
  model_trained (run ds init) = false ->
  List.length (training_data (run ds init)) = 29 ->
  dict_get "machine_id" data = Some mid -> hash_key mid = Ok k ->
  fit_transform (training_data (run ds init) ++ [extract_features data]) = Some (sc, X) ->
  forest_fit X = Some m ->
  let s := run ds init in
  let s' := on_message (mkDelivery (Some (JObj data)) true) s in
  process_sensor_data true (JObj data) s =
    act_on mid data (verdict sc m (extract_features data))
      (say ModelSaved
         (fitted sc m (set_training_data (fun t => t ++ [extract_features data])
                         (received k data s)))) /\
  alert_history s = [] /\ published s = [] /\
  model_trained s' = true /\
  forall q a,
    verdict sc m (extract_features data) = Ok (true, q) ->
    build_alert 1 mid data q = Ok a ->
    alert_history s' = [a] /\ published s' = [a] /\ alerts_of k s' = [a] /\
    anomalies_detected s' = 1 /\ alert_id a = "ALERT_0001".
Proof.
  intros Ht Hlen Hmid Hk Hfit Hforest s s'.
  destruct (untrained_is_silent ds) as (_ & Hnone).
  destruct (Hnone Ht) as (Hh & Hst & Hp & Ha).
  fold s in Hh, Hst, Hp, Ha, Ht, Hlen, Hfit.
  set (s1 := say ModelSaved
               (fitted sc m (set_training_data
                               (fun t => t ++ [extract_features data])
                               (received k data s)))).
  assert (E : process_sensor_data true (JObj data) s =
              act_on mid data (verdict sc m (extract_features data)) s1).
  { rewrite (process_reading _ _ _ _ _ Hmid Hk). unfold bind.
    rewrite (collect_trains true _ _ sc X m); auto;
      [|simpl training_data; rewrite Hlen; unfold min_training_samples; lia].
    rewrite score_reading_trained by reflexivity.
    rewrite detect_anomaly_eq. reflexivity. }
  split; [exact E|]. split; [exact Hh|]. split; [exact Hp|]. split.
  - unfold s', on_message; cbn [payload disk_ok].
    rewrite E.
    destruct (act_on mid data (verdict sc m (extract_features data)) s1)
      as [r s2] eqn:Ea.
    assert (T : model_trained s2 = true).
    { destruct (verdict sc m (extract_features data)) as [[[] q]|e]; simpl in Ea.
      - apply handle_anomaly_cases in Ea.
        destruct Ea as [(e & _ & -> & _)|(a & k0 & _ & _ & [->| ->])]; reflexivity.
      - apply log_normal_operation_cases in Ea. destruct Ea as [->| ->]; reflexivity.
      - injection Ea as _ <-. reflexivity. }
    destruct r as [[]|e]; exact T.
  - intros q a Hv Hb.
    assert (A1 : build_alert (S (anomalies_detected s1)) mid data q = Ok a)
      by (replace (anomalies_detected s1) with 0 by (symmetry; exact Ha); exact Hb).
    destruct (handle_anomaly_alert mid data q s1 k a A1 Hk
                (md_lookup_received k data s))
      as (r & s2 & Eh & B1 & B2 & B3 & B4).
    assert (Es : s' = match r with
                      | Ok _ => s2
                      | Raise e => say (ErrorProcessing e) s2
                      end).
    { unfold s', on_message; cbn [payload disk_ok].
      rewrite E, Hv. cbn [act_on]. rewrite Eh. destruct r as [[]|e]; reflexivity. }
    assert (F : alert_history s' = alert_history s2 /\ published s' = published s2 /\
                alerts_of k s' = alerts_of k s2 /\
                anomalies_detected s' = anomalies_detected s2)
      by (rewrite Es; destruct r as [[]|e]; repeat split).
    destruct F as (F1 & F2 & F3 & F4).
    rewrite F1, F2, F3, F4, B1, B2, B3, B4.
    replace (alert_history s1) with (alert_history s) by reflexivity.
    replace (published s1) with (published s) by reflexivity.
    replace (anomalies_detected s1) with (anomalies_detected s) by reflexivity.
    replace (alerts_of k s1) with (alerts_of k (received k data s)) by reflexivity.
    rewrite alerts_of_received, (alerts_of_empty k s Hst), Hh, Hp, Ha.
    destruct (build_alert_id _ _ _ _ _ Hb) as (Hid & _).
    repeat split. exact Hid.
Qed.

Lemma history_le_anomalies (ds : list Delivery) :
  List.length (alert_history (run ds init)) <= anomalies_detected (run ds init).
Proof.
  apply (run_invariant
           (fun s => List.length (alert_history s) <= anomalies_detected s)).
  - apply Nat.le_refl.
  - intros d s I. apply on_message_lifts.
    + intros e s' H. exact H.
    + intros _. exact I.
    + intros msg r s' _ H.
      destruct (process_alerts _ _ _ _ _ H)
        as [((Nh & _) & Na)|[((Nh & _) & Na & _)
           |(a & k & data & mid & q & (Oh & _) & Na & _)]].
      * rewrite Nh, Na. exact I.
      * rewrite Nh, Na. lia.
      * rewrite Oh, Na, length_app. simpl. lia.
Qed.

Lemma skipped_step (n0 : nat) (d : Delivery) (s : Monitor) :
  skipped n0 s -> skipped n0 (on_message d s).
Proof.
  intros (Hn & ns & Hid & Hb). apply on_message_lifts.
  - intros e s' H. exact H.
  - intros _. split; [exact Hn|]. exists ns. auto.
  - intros msg r s' _ H.
    destruct (process_alerts _ _ _ _ _ H)
      as [((Nh & _) & Na)|[((Nh & _) & Na & _)
         |(a & k & data & mid & q & (Oh & _) & Na & _ & _ & _ & _ & Hb')]].
    + split; [lia|]. exists ns. rewrite Nh, Na. auto.
    + split; [lia|]. exists ns. rewrite Nh, Na. split; [exact Hid|].
      eapply Forall_impl; [|exact Hb]. simpl. intros n Hn'. lia.
    + split; [lia|]. exists (ns ++ [S (anomalies_detected s)]).
      destruct (build_alert_id _ _ _ _ _ Hb') as (Ha & _).
      rewrite Oh, Na, !map_app, Hid. simpl. rewrite Ha. split; [reflexivity|].
      apply Forall_app. split.
      * eapply Forall_impl; [|exact Hb]. simpl. intros n Hn'. lia.
      * constructor; [lia|constructor].
Qed.

Lemma skipped_never_used (n0 : nat) (s : Monitor) :
  skipped n0 s -> ~ In (alert_id_of n0) (map alert_id (alert_history s)).
Proof.
  intros (_ & ns & Hid & Hb) Hin. rewrite Hid in Hin.
  apply in_map_iff in Hin. destruct Hin as (n & Hn & Hin).
  apply alert_id_of_inj in Hn. subst n.
  rewrite Forall_forall in Hb. apply Hb in Hin. lia.
Qed.

(** C10. A reading that is classified anomalous but lacks one of the six
    keys.  [s1] is the monitor as [process_sensor_data] has it when it
    scores the reading: the reading stored and the collecting branch run,
    which is the stored state itself when the model was trained before, and
    the state after [train_model] when this reading is the threshold
    sample.  [handle_anomaly] advances the counter and raises the KeyError
    of the first missing key; [on_message] returns with that error on the
    console, no alert stored for any machine, in the history or published;
    the counter is now above the number of stored alerts, and whatever is
    delivered later no alert ever carries the number that was consumed. *)
Theorem anomalous_reading_missing_key (ds : list Delivery) (w : bool) (data : dict)
    (mid : JVal) (k : Key) (q : Q) (s1 : Monitor) :
  dict_get "machine_id" data = Some mid -> hash_key mid = Ok k ->
  collect w (extract_features data) (received k data (run ds init)) = (Ok tt, s1) ->
  model_trained s1 = true ->
  fst (detect_anomaly (extract_features data) s1) = Ok (true, q) ->
  forallb (has_key data) six_keys = false ->
  let s := run ds init in
  let s' := on_message (mkDelivery (Some (JObj data)) w) s in
  (model_trained s = true /\ s1 = received k data s \/
   model_trained s = false /\ w = true /\
   min_training_samples <= S (List.length (training_data s)) /\
   exists sc X m,
     fit_transform (training_data s ++ [extract_features data]) = Some (sc, X) /\
     forest_fit X = Some m /\
     s1 = say ModelSaved
            (fitted sc m
               (set_training_data (fun t => t ++ [extract_features data])
                  (received k data s)))) /\
  exists key,
    In key six_keys /\ dict_get key data = None /\
    handle_anomaly mid data q s1 =
      (Raise (KeyError (JStr key)), set_anomalies_detected S s1) /\
    s' = say (ErrorProcessing (KeyError (JStr key))) (set_anomalies_detected S s1) /\
    anomalies_detected s' = S (anomalies_detected s) /\
    alert_history s' = alert_history s /\ published s' = published s /\
    (forall k', alerts_of k' s' = alerts_of k' s) /\
    List.length (alert_history s') < anomalies_detected s' /\
    forall ds', ~ In (alert_id_of (S (anomalies_detected s)))
                     (map alert_id (alert_history (run ds' s'))).
Proof.
  intros Hmid Hk Hc Ht1 Hv Hmiss s s'. fold s in Hc.
  destruct (collect_keeps _ _ _ _ _ Hc) as (Kmd & Kh & Kp & Ka & _ & _).
  change (anomalies_detected (received k data s)) with (anomalies_detected s) in Ka.
  change (alert_history (received k data s)) with (alert_history s) in Kh.
  change (published (received k data s)) with (published s) in Kp.
  split.
  { pose proof Hc as Hc'. apply collect_cases in Hc'.
    destruct Hc' as [(Ht & -> & _)|[(Ht & _ & -> & _)|(Ht & Hlen & Htrain)]].
    - left. auto.
    - simpl in Ht, Ht1. congruence.
    - right. split; [exact Ht|].
      rewrite length_app in Hlen. simpl in Hlen.
      apply train_model_cases in Htrain.
      destruct Htrain as [(E & _)|[(sc & X & E & _)
                         |(sc & X & m & Hf & Hm & [(_ & E & _)|(Hw & _ & Hs1)])]];
        try discriminate.
      split; [exact Hw|]. split; [lia|].
      exists sc, X, m. auto. }
  destruct (build_alert_missing (S (anomalies_detected s)) mid data q Hmiss)
    as (key & Hin & Hnone & Hb).
  exists key.
  assert (Eh : handle_anomaly mid data q s1 =
               (Raise (KeyError (JStr key)), set_anomalies_detected S s1)).
  { rewrite handle_anomaly_eq. cbv zeta. rewrite Ka, Hb. reflexivity. }
  assert (Es : s' = say (ErrorProcessing (KeyError (JStr key)))
                      (set_anomalies_detected S s1)).
  { unfold s', on_message; cbn [payload disk_ok].
    rewrite (process_reading _ _ _ _ _ Hmid Hk). unfold bind. rewrite Hc.
    rewrite score_reading_trained by exact Ht1.
    rewrite Hv. simpl act_on. rewrite Eh. reflexivity. }
  repeat split; try assumption; try (rewrite Es; simpl; congruence).
  - intros k'. rewrite Es.
    change (alerts_of k' (say (ErrorProcessing (KeyError (JStr key)))
                            (set_anomalies_detected S s1)))
      with (alerts_of k' s1).
    unfold alerts_of at 1. rewrite Kmd. apply alerts_of_received.
  - rewrite Es. simpl. rewrite Kh, Ka. pose proof (history_le_anomalies ds) as Hle.
    fold s in Hle. lia.
  - intros ds'. apply skipped_never_used.
    apply (run_invariant (skipped (S (anomalies_detected s)))).
    + rewrite Es. split; [simpl; lia|].
      destruct (history_numbered ds) as [[ns (Hid & _ & Hb')] _].
      fold s in Hid, Hb'. exists ns. simpl. rewrite Kh, Ka. split; [exact Hid|].
      eapply Forall_impl; [|exact Hb']. simpl. intros n Hn. lia.
    + intros d s2. apply skipped_step.
Qed.

End Claims.

(** ** The theorems at work on the example runtime *)

(** Twenty-eight normal readings and a hot one: 29 samples, no alert. *)
Lemma no_alert_before_training_witness :
  alert_history (Toy.after (map Toy.deliver
                   (repeat Toy.normal_reading 28 ++ [Toy.hot_reading]))) = [] /\
  published (Toy.after (map Toy.deliver
               (repeat Toy.normal_reading 28 ++ [Toy.hot_reading]))) = [] /\
  anomalies_detected (Toy.after (map Toy.deliver
                        (repeat Toy.normal_reading 28 ++ [Toy.hot_reading]))) = 0.
Proof.
  destruct (@no_alert_before_training Toy.runtime
              (map Toy.deliver (repeat Toy.normal_reading 28 ++ [Toy.hot_reading])))
    as [Hgate Hnone].
  assert (Hlen : List.length
                   (training_data
                      (@run Toy.runtime
                         (map Toy.deliver
                            (repeat Toy.normal_reading 28 ++ [Toy.hot_reading]))
                         init)) < min_training_samples)
    by (apply Nat.ltb_lt; vm_compute; reflexivity).
  destruct (Hnone (Hgate Hlen)) as (H1 & _ & H2 & H3).
  repeat split; assumption.
Defined.

(** C2, the claim as stated fails: with a reading whose temperature is the
    string "hot" among the first thirty, fitting raises, model_trained stays
    false, and the next reading enters [train_model] again. *)
Lemma train_model_runs_twice :
  trainings_started
    (console (Toy.after (map Toy.deliver
                (Toy.garbled :: repeat Toy.normal_reading 30)))) = 2 /\
  model_trained (Toy.after (map Toy.deliver
                   (Toy.garbled :: repeat Toy.normal_reading 30))) = false /\
  ~ (forall (rt : Runtime) (ds : list Delivery),
       trainings_started (console (@run rt ds init)) <= 1).
Proof.
  split; [vm_compute; reflexivity|]. split; [vm_compute; reflexivity|].
  intros H.
  specialize (H Toy.runtime
                (map Toy.deliver (Toy.garbled :: repeat Toy.normal_reading 30))).
  apply Nat.leb_le in H. vm_compute in H. discriminate H.
Qed.

(** Fifty-one readings of one machine: the first is gone, the other fifty
    are stored in arrival order. *)
Lemma reading_history_bounded_witness :
  readings_of (KStr "M1")
    (Toy.after (map Toy.deliver (map Toy.numbered_reading (seq 1 51)))) =
  map Toy.numbered_reading (seq 2 50).
Proof.
  destruct (@reading_history_bounded Toy.runtime
              (map Toy.deliver (map Toy.numbered_reading (seq 1 51))) (KStr "M1"))
    as (_ & _ & Hevict).
  unfold Toy.after, Toy.start. rewrite Hevict; vm_compute; reflexivity.
Defined.

(** A reading counts once; an empty dict is refused and counts nothing. *)
Lemma anomalies_le_total_readings_witness :
  total_readings
    (snd (@process_sensor_data Toy.runtime true (JObj Toy.normal_reading) Toy.start))
    = 1 /\
  total_readings
    (snd (@process_sensor_data Toy.runtime true (JObj []) Toy.start)) = 0.
Proof.
  destruct (@anomalies_le_total_readings Toy.runtime) as (_ & Hread & Hdrop & _).
  split.
  - destruct (Hread true (JObj Toy.normal_reading) Toy.start _ _
                (surjective_pairing _) eq_refl) as [H _].
    exact H.
  - destruct (Hdrop true (JObj []) Toy.start _ _
                (surjective_pairing _) eq_refl) as [H _].
    exact H.
Defined.

(** C6, the claim as stated fails: after training on thirty varied normal
    readings, a hot reading without a timestamp is flagged and consumes
    number 1, and the first alert ever stored and published, that of the
    next hot reading, is ALERT_0002, with anomalies_detected at 2. *)
Lemma first_alert_is_0002 :
  map alert_id
    (published (Toy.after (map Toy.deliver
                  (Toy.varied 30 ++ [Toy.hot_untimed; Toy.hot_reading])))) =
    ["ALERT_0002"] /\
  map alert_id
    (alert_history (Toy.after (map Toy.deliver
                      (Toy.varied 30 ++ [Toy.hot_untimed; Toy.hot_reading])))) =
    ["ALERT_0002"] /\
  anomalies_detected (Toy.after (map Toy.deliver
                        (Toy.varied 30 ++ [Toy.hot_untimed; Toy.hot_reading]))) = 2 /\
  published (Toy.after (map Toy.deliver (Toy.varied 30 ++ [Toy.hot_untimed]))) = [] /\
  anomalies_detected
    (Toy.after (map Toy.deliver (Toy.varied 30 ++ [Toy.hot_untimed]))) = 1.
Proof. repeat split; vm_compute; reflexivity. Qed.

(** With complete readings the ids are ALERT_0001, ALERT_0002 in turn; an
    empty dict delivered in between, which is no reading, does not
    matter. *)
Lemma alert_ids_increase_witness :
  map alert_id
    (alert_history (Toy.after (map Toy.deliver
                      (Toy.varied 30 ++ [Toy.hot_reading; []; Toy.hot_reading])))) =
  ["ALERT_0001"; "ALERT_0002"].
Proof.
  destruct (@alert_ids_increase Toy.runtime
              (map Toy.deliver
                 (Toy.varied 30 ++ [Toy.hot_reading; []; Toy.hot_reading])))
    as (_ & _ & _ & Hcomplete).
  destruct Hcomplete as [Hids _]; [vm_compute; reflexivity|].
  unfold Toy.after, Toy.start. rewrite Hids. vm_compute. reflexivity.
Defined.

(** The thirtieth reading arrives while the disk is read-only: the model is
    trained all the same, and a hot reading delivered next is scored as an
    anomaly. *)
Lemma persistence_failure_not_fatal_witness :
  model_trained
    (@on_message Toy.runtime (mkDelivery (Some (JObj Toy.normal_reading)) false)
       (Toy.after (map Toy.deliver (repeat Toy.normal_reading 29)))) = true /\
  fst (@process_sensor_data Toy.runtime true (JObj Toy.hot_reading)
         (@on_message Toy.runtime (mkDelivery (Some (JObj Toy.normal_reading)) false)
            (Toy.after (map Toy.deliver (repeat Toy.normal_reading 29))))) = Ok tt /\
  anomalies_detected
    (snd (@process_sensor_data Toy.runtime true (JObj Toy.hot_reading)
            (@on_message Toy.runtime
               (mkDelivery (Some (JObj Toy.normal_reading)) false)
               (Toy.after (map Toy.deliver (repeat Toy.normal_reading 29)))))) = 1.
Proof.
  edestruct (@persistence_failure_not_fatal Toy.runtime
               (Toy.after (map Toy.deliver (repeat Toy.normal_reading 29)))
               Toy.normal_reading (JStr "M1") (KStr "M1") tt)
    as (_ & _ & Htrained & _ & _ & Hlater).
  - vm_compute. reflexivity.
  - apply Nat.leb_le. vm_compute. reflexivity.
  - reflexivity.
  - reflexivity.
  - vm_compute. reflexivity.
  - reflexivity.
  - split; [exact Htrained|].
    destruct (Hlater []) as (_ & _ & _ & Hscored).
    pose proof (Hscored true Toy.hot_reading (JStr "M1") (KStr "M1")
                  eq_refl eq_refl) as Hs.
    rewrite run_nil in Hs. rewrite Hs.
    split; vm_compute; reflexivity.
Defined.

(** Twenty-nine normal readings, then a hot one: it is the thirtieth
    sample, it is scored in that call, and it is ALERT_0001. *)
Lemma threshold_reading_is_scored_witness :
  map alert_id
    (alert_history
       (@on_message Toy.runtime (Toy.deliver Toy.hot_reading)
          (Toy.after (map Toy.deliver (repeat Toy.normal_reading 29))))) =
  ["ALERT_0001"] /\
  alert_history (Toy.after (map Toy.deliver (repeat Toy.normal_reading 29))) = [].
Proof.
  edestruct (@threshold_reading_is_scored Toy.runtime
               (map Toy.deliver (repeat Toy.normal_reading 29))
               Toy.hot_reading (JStr "M1") (KStr "M1") tt)
    as (_ & Hbefore & _ & _ & Halert).
  - vm_compute. reflexivity.
  - vm_compute. reflexivity.
  - reflexivity.
  - reflexivity.
  - vm_compute. reflexivity.
  - reflexivity.
  - split; [|exact Hbefore].
    edestruct Halert as (Hh & _ & _ & _ & Hid).
    + vm_compute. reflexivity.
    + vm_compute. reflexivity.
    + refine (eq_trans (f_equal (map alert_id) Hh) _).
      exact (f_equal (fun id => [id]) Hid).
Defined.

(** A hot reading without a timestamp arrives as the thirtieth reading: it
    trains the model and is flagged by it in the same call; the counter
    moves to 1, nothing is stored or published, and the next hot reading
    does not get number 1. *)
Lemma anomalous_reading_missing_key_witness :
  anomalies_detected
    (@on_message Toy.runtime (Toy.deliver Toy.hot_untimed)
       (Toy.after (map Toy.deliver (Toy.varied 29)))) = 1 /\
  alert_history
    (@on_message Toy.runtime (Toy.deliver Toy.hot_untimed)
       (Toy.after (map Toy.deliver (Toy.varied 29)))) = [] /\
  ~ In "ALERT_0001"
      (map alert_id
         (alert_history
            (@run Toy.runtime [Toy.deliver Toy.hot_reading]
               (@on_message Toy.runtime (Toy.deliver Toy.hot_untimed)
                  (Toy.after (map Toy.deliver (Toy.varied 29))))))).
Proof.
  edestruct (@anomalous_reading_missing_key Toy.runtime
               (map Toy.deliver (Toy.varied 29)) true
               Toy.hot_untimed (JStr "M1") (KStr "M1"))
    as (_ & key & _ & _ & _ & _ & Hcount & Hhist & _ & _ & _ & Hnever).
  - reflexivity.
  - reflexivity.
  - vm_compute. reflexivity.
  - vm_compute. reflexivity.
  - vm_compute. reflexivity.
  - vm_compute. reflexivity.
  - split; [|split].
    + refine (eq_trans Hcount _). vm_compute. reflexivity.
    + refine (eq_trans Hhist _). vm_compute. reflexivity.
    + exact (Hnever [mkDelivery (Some (JObj Toy.hot_reading)) true]).
Defined.

(** * More of the monitor *)

Section Coverage.

Context {rt : Runtime}.

(** ** Counting and malformed payloads *)

Lemma on_message_total (d : Delivery) (s : Monitor) :
  total_readings (on_message d s) =
    if counted d then S (total_readings s) else total_readings s.
Proof.
  unfold counted. apply on_message_lifts.
  - intros e s' H. exact H.
  - intros ->. reflexivity.
  - intros msg r s' -> H. exact (process_total _ _ _ _ _ H).
Qed.

(** X1. total_readings is the number of deliveries whose payload is a dict
    that has a machine_id, whatever else the payload holds and whatever
    happens to it afterwards. *)
Theorem total_readings_counts_readings (ds : list Delivery) :
  total_readings (run ds init) = List.length (filter counted ds).
Proof.
  induction ds as [|d ds IH] using rev_ind; [reflexivity|].
  rewrite run_snoc, on_message_total, filter_app, length_app, IH. simpl.
  destruct (counted d); simpl; lia.
Qed.

(** X2. Malformed payloads.  A payload that cannot be decoded, is not a
    dict or has no machine_id leaves the monitor as it was but for one error
    line.  A dict whose machine_id is a list or a dict is counted in
    total_readings and then refused with TypeError: it is stored for no
    machine, added to no training set and not scored. *)
Theorem malformed_payloads (d : Delivery) (s : Monitor) :
  (payload d = None ->
   on_message d s = say (ErrorProcessing JSONDecodeError) s) /\
  (forall msg, payload d = Some msg ->
     (forall data, msg <> JObj data) ->
     on_message d s = say (ErrorProcessing TypeError) s) /\
  (forall data, payload d = Some (JObj data) ->
     dict_get "machine_id" data = None ->
     on_message d s = say (ErrorProcessing (KeyError (JStr "machine_id"))) s) /\
  (forall data mid, payload d = Some (JObj data) ->
     dict_get "machine_id" data = Some mid ->
     (exists items, mid = JArr items) \/ (exists fields, mid = JObj fields) ->
     on_message d s = say (ErrorProcessing TypeError) (set_total_readings S s)).
Proof.
  unfold on_message. repeat split.
  - intros ->. reflexivity.
  - intros msg -> Hnot.
    destruct msg as [| | | | |data]; try reflexivity.
    exfalso. exact (Hnot data eq_refl).
  - intros data -> Hmid.
    unfold process_sensor_data, subscript, bind, lift. rewrite Hmid. reflexivity.
  - intros data mid -> Hmid Hbad.
    assert (Hk : hash_key mid = Raise TypeError)
      by (destruct Hbad as [[items ->]|[fields ->]]; reflexivity).
    rewrite (process_unhashable _ _ _ _ _ Hmid Hk). reflexivity.
Qed.

(** ** The training set and the fitted model *)

Lemma stored_inv (d : Delivery) (k : Key) (data : dict) :
  stored d = Some (k, data) ->
  payload d = Some (JObj data) /\
  exists mid, dict_get "machine_id" data = Some mid /\ hash_key mid = Ok k.
Proof.
  unfold stored. destruct (payload d) as [msg|]; [|discriminate].
  destruct msg as [| | | | |fields]; simpl; try discriminate.
  destruct (dict_get "machine_id" fields) as [mid|] eqn:Hmid; [|discriminate].
  destruct (hash_key mid) as [k'|] eqn:Hk; [|discriminate].
  intros H. injection H as <- <-. split; [reflexivity|]. exists mid. auto.
Qed.

(** A delivery that stores no reading goes through neither branch. *)
Lemma process_not_stored (w : bool) (msg : JVal) (s : Monitor) r s' :
  reading_key msg = None ->
  process_sensor_data w msg s = (r, s') ->
  s' = s \/ s' = set_total_readings S s.
Proof.
  intros Hn H. apply process_cases in H.
  destruct H as [(_ & -> & _)|[(_ & _ & -> & _)
                |(data & mid & k & c & s1 & -> & Hmid & Hk & _)]]; auto.
  simpl in Hn. rewrite Hmid, Hk in Hn. discriminate.
Qed.

(** A delivery that stores a reading: the collecting branch runs on the
    monitor with the reading stored, and the scoring branch after it unless
    collecting raised. *)
Lemma process_stored (w : bool) (data : dict) (k : Key) (d : Delivery) (s : Monitor)
    r s' :
  stored d = Some (k, data) ->
  process_sensor_data w (JObj data) s = (r, s') ->
  exists mid c s1,
    dict_get "machine_id" data = Some mid /\ hash_key mid = Ok k /\
    collect w (extract_features data) (received k data s) = (c, s1) /\
    match c with
    | Raise e => r = Raise e /\ s' = s1
    | Ok _ => score_reading mid data (extract_features data) s1 = (r, s')
    end.
Proof.
  intros Hst H. destruct (stored_inv _ _ _ Hst) as (_ & mid & Hmid & Hk).
  rewrite (process_reading _ _ _ _ _ Hmid Hk) in H. unfold bind in H.
  destruct (collect w (extract_features data) (received k data s)) as [c s1] eqn:Hc.
  exists mid, c, s1. repeat split; try assumption.
  destruct c as [[]|e]; [exact H|]. injection H as <- <-. auto.
Qed.

Lemma on_message_training_data (d : Delivery) (s : Monitor) :
  training_data (on_message d s) =
    if model_trained s then training_data s
    else match stored d with
         | Some (_, data) => training_data s ++ [extract_features data]
         | None => training_data s
         end.
Proof.
  unfold stored. apply on_message_lifts.
  - intros e s' H. exact H.
  - intros ->. destruct (model_trained s); reflexivity.
  - intros msg r s' Hp H. rewrite Hp.
    destruct (reading_key msg) as [[k data]|] eqn:Hrk.
    + assert (Hst : stored d = Some (k, data)) by (unfold stored; rewrite Hp; exact Hrk).
      destruct (stored_inv _ _ _ Hst) as (Hp' & _).
      rewrite Hp in Hp'. injection Hp' as ->.
      destruct (process_stored _ _ _ _ _ _ _ Hst H)
        as (mid & c & s1 & _ & _ & Hc & Hrest).
      destruct (collect_training _ _ _ _ _ Hc) as (C1 & C2).
      assert (K : training_data s' = training_data s1).
      { destruct c as [[]|e]; [|destruct Hrest as [_ ->]; reflexivity].
        destruct (score_reading_keeps _ _ _ _ _ _ Hrest) as (_ & K & _). exact K. }
      rewrite K.
      change (model_trained s) with (model_trained (received k data s)).
      destruct (model_trained (received k data s)) eqn:Ht.
      * rewrite (C1 eq_refl). reflexivity.
      * destruct (C2 eq_refl) as (E & _). exact E.
    + destruct (process_not_stored _ _ _ _ _ Hrk H) as [->| ->];
        destruct (model_trained s); reflexivity.
Qed.

Lemma stored_readings_app (ds1 ds2 : list Delivery) :
  stored_readings (ds1 ++ ds2) = stored_readings ds1 ++ stored_readings ds2.
Proof.
  induction ds1 as [|d ds1 IH]; simpl; [reflexivity|].
  destruct (stored d) as [[k data]|]; simpl; rewrite IH; reflexivity.
Qed.

Lemma training_data_prefix (ds : list Delivery) :
  training_data (run ds init) =
    firstn (List.length (training_data (run ds init)))
      (map extract_features (stored_readings ds)) /\
  (model_trained (run ds init) = false ->
   training_data (run ds init) = map extract_features (stored_readings ds)).
Proof.
  induction ds as [|d ds [IH1 IH2]] using rev_ind; [split; reflexivity|].
  rewrite run_snoc, on_message_training_data, stored_readings_app, map_app.
  destruct (on_message_training d (run ds init)) as (T1 & _).
  destruct (model_trained (run ds init)) eqn:Ht.
  - split.
    + rewrite firstn_app.
      assert (Hle : List.length (training_data (run ds init)) <=
                    List.length (map extract_features (stored_readings ds))).
      { rewrite IH1 at 1. rewrite length_firstn. lia. }
      replace (List.length (training_data (run ds init)) -
               List.length (map extract_features (stored_readings ds))) with 0 by lia.
      simpl. rewrite app_nil_r. exact IH1.
    + intros Hu. destruct (T1 eq_refl) as (E & _). congruence.
  - specialize (IH2 eq_refl).
    assert (E : (match stored d with
                 | Some (_, data) => training_data (run ds init) ++ [extract_features data]
                 | None => training_data (run ds init)
                 end) =
                map extract_features (stored_readings ds) ++
                map extract_features (stored_readings [d])).
    { simpl. destruct (stored d) as [[k data]|]; simpl; rewrite IH2;
        [reflexivity|rewrite app_nil_r; reflexivity]. }
    rewrite E. split; [|reflexivity].
    rewrite <- map_app, firstn_all. reflexivity.
Qed.

Lemma In_firstn {A} (n : nat) (l : list A) (x : A) :
  In x (firstn n l) -> In x l.
Proof.
  intros H. rewrite <- (firstn_skipn n l). apply in_or_app. left. exact H.
Qed.

(** X3. The training set is global and in arrival order: it is always a
    prefix of the feature vectors of the readings stored so far, of all
    machines together; while the model is untrained it is all of them; and
    every sample has five entries. *)
Theorem training_set_in_arrival_order (ds : list Delivery) :
  training_data (run ds init) =
    firstn (List.length (training_data (run ds init)))
      (map extract_features (stored_readings ds)) /\
  (model_trained (run ds init) = false ->
   training_data (run ds init) = map extract_features (stored_readings ds)) /\
  Forall (fun sample => List.length sample = 5) (training_data (run ds init)).
Proof.
  destruct (training_data_prefix ds) as [H1 H2].
  split; [exact H1|]. split; [exact H2|].
  rewrite H1. apply Forall_forall. intros sample Hin.
  apply In_firstn in Hin. apply in_map_iff in Hin.
  destruct Hin as (data & <- & _). reflexivity.
Qed.

(** Every way [train_model] ends, it has printed its banner once. *)
Lemma train_model_started (w : bool) (s : Monitor) r s' :
  train_model w s = (r, s') ->
  trainings_started (console s') = S (trainings_started (console s)).
Proof.
  intros H. apply train_model_cases in H.
  destruct H as [(_ & _ & ->)|[(sc & X & _ & _ & _ & ->)
                |(sc & X & m & _ & _ & [(_ & _ & ->)|(_ & _ & ->)])]].
  - rewrite trainings_started_say. simpl. lia.
  - change (console (set_model Unfitted (set_scaler (Some sc) (say TrainingBanner s))))
      with (console (say TrainingBanner s)).
    rewrite trainings_started_say. simpl. lia.
  - unfold fitted. rewrite trainings_started_say.
    change (console (set_model_trained true (set_model (Fitted m)
              (set_model Unfitted (set_scaler (Some sc) (say TrainingBanner s))))))
      with (console (say TrainingBanner s)).
    rewrite trainings_started_say. simpl. lia.
  - unfold fitted. rewrite !trainings_started_say.
    change (console (set_model_trained true (set_model (Fitted m)
              (set_model Unfitted (set_scaler (Some sc) (say TrainingBanner s))))))
      with (console (say TrainingBanner s)).
    rewrite trainings_started_say. simpl. lia.
Qed.

(** X4. In an untrained monitor a stored reading enters [train_model]
    exactly when it brings the training set to the threshold or beyond, and
    then exactly once: after a fit that raised, every further stored reading
    tries again. *)
Theorem untrained_reading_trains_from_threshold (d : Delivery) (s : Monitor)
    (k : Key) (data : dict) :
  model_trained s = false ->
  stored d = Some (k, data) ->
  trainings_started (console (on_message d s)) =
    if min_training_samples <=? S (List.length (training_data s))
    then S (trainings_started (console s))
    else trainings_started (console s).
Proof.
  intros Ht Hst. destruct (stored_inv _ _ _ Hst) as (Hp & _).
  apply on_message_lifts.
  - intros e s' H. rewrite trainings_started_say. simpl. rewrite Nat.add_0_r. exact H.
  - intros Hn. congruence.
  - intros msg r s' Hp' H. rewrite Hp in Hp'. injection Hp' as <-.
    destruct (process_stored _ _ _ _ _ _ _ Hst H)
      as (mid & c & s1 & _ & _ & Hc & Hrest).
    assert (K : trainings_started (console s') = trainings_started (console s1)).
    { destruct c as [[]|e]; [|destruct Hrest as [_ ->]; reflexivity].
      destruct (score_reading_keeps _ _ _ _ _ _ Hrest) as (_ & _ & _ & _ & _ & K & _).
      exact K. }
    rewrite K. apply collect_cases in Hc.
    destruct Hc as [(Ht' & _)|[(_ & Hlen & -> & _)|(_ & Hlen & Htrain)]].
    + simpl in Ht'. congruence.
    + rewrite length_app in Hlen. simpl in Hlen.
      replace (min_training_samples <=? S (List.length (training_data s))) with false
        by (symmetry; apply Nat.leb_gt; lia).
      reflexivity.
    + rewrite length_app in Hlen. simpl in Hlen.
      replace (min_training_samples <=? S (List.length (training_data s))) with true
        by (symmetry; apply Nat.leb_le; lia).
      rewrite (train_model_started _ _ _ _ Htrain). reflexivity.
Qed.

(** The collecting branch in an untrained monitor: either it leaves the
    monitor trained, with the scaler and forest fitted on the training set
    as it now is, or untrained, with no fitted forest put in place, for one
    of three reasons. *)
Lemma collect_outcome (w : bool) (f : list JVal) (s : Monitor) c s1 :
  model_trained s = false ->
  collect w f s = (c, s1) ->
  training_data s1 = training_data s ++ [f] /\
  ((model_trained s1 = true /\
    min_training_samples <= List.length (training_data s1) /\
    exists sc X m,
      fit_transform (training_data s1) = Some (sc, X) /\ forest_fit X = Some m /\
      scaler s1 = Some sc /\ model s1 = Fitted m) \/
   (model_trained s1 = false /\
    (model s1 = model s \/ model s1 = Unfitted) /\
    (List.length (training_data s1) < min_training_samples \/
     fit_transform (training_data s1) = None \/
     exists sc X, fit_transform (training_data s1) = Some (sc, X) /\
                  forest_fit X = None))).
Proof.
  intros Ht H. apply collect_cases in H.
  destruct H as [(Ht' & _)|[(_ & Hlen & -> & _)|(_ & Hlen & H)]]; [congruence| |].
  - split; [reflexivity|]. right. simpl. auto.
  - apply train_model_cases in H.
    destruct H as [(_ & Hf & ->)|[(sc & X & _ & Hf & Hm & ->)
                  |(sc & X & m & Hf & Hm & [(_ & _ & ->)|(_ & _ & ->)])]];
      (split; [reflexivity|]).
    + right. simpl. auto.
    + right. simpl. split; [exact Ht|]. split; [auto|].
      right. right. exists sc, X. auto.
    + left. simpl. split; [reflexivity|]. split; [exact Hlen|].
      exists sc, X, m. auto.
    + left. simpl. split; [reflexivity|]. split; [exact Hlen|].
      exists sc, X, m. auto.
Qed.

(** The same for a whole delivery. *)
Lemma on_message_outcome (d : Delivery) (s : Monitor) :
  model_trained s = false ->
  (model_trained (on_message d s) = true /\
   min_training_samples <= List.length (training_data (on_message d s)) /\
   exists sc X m,
     fit_transform (training_data (on_message d s)) = Some (sc, X) /\
     forest_fit X = Some m /\
     scaler (on_message d s) = Some sc /\ model (on_message d s) = Fitted m) \/
  (model_trained (on_message d s) = false /\
   (model (on_message d s) = model s \/ model (on_message d s) = Unfitted) /\
   (stored d = None \/
    List.length (training_data (on_message d s)) < min_training_samples \/
    fit_transform (training_data (on_message d s)) = None \/
    exists sc X, fit_transform (training_data (on_message d s)) = Some (sc, X) /\
                 forest_fit X = None)).
Proof.
  intros Ht. unfold stored. apply on_message_lifts.
  - intros e s' H. exact H.
  - intros ->. right. auto.
  - intros msg r s' Hp H. rewrite Hp.
    destruct (reading_key msg) as [[k data]|] eqn:Hrk.
    + assert (Hst : stored d = Some (k, data)) by (unfold stored; rewrite Hp; exact Hrk).
      destruct (stored_inv _ _ _ Hst) as (Hp' & _).
      rewrite Hp in Hp'. injection Hp' as ->.
      destruct (process_stored _ _ _ _ _ _ _ Hst H)
        as (mid & c & s1 & _ & _ & Hc & Hrest).
      assert (K : model_trained s' = model_trained s1 /\
                  training_data s' = training_data s1 /\
                  model s' = model s1 /\ scaler s' = scaler s1).
      { destruct c as [[]|e]; [|destruct Hrest as [_ ->]; repeat split].
        destruct (score_reading_keeps _ _ _ _ _ _ Hrest) as (K1 & K2 & K3 & K4 & _).
        auto. }
      destruct K as (K1 & K2 & K3 & K4). rewrite K1, K2, K3, K4.
      destruct (collect_outcome _ _ (received k data s) _ _ Ht Hc)
        as (_ & [Hyes|(Hu & Hm & Hwhy)]).
      * left. exact Hyes.
      * right. split; [exact Hu|]. split; [exact Hm|]. right. exact Hwhy.
    + destruct (process_not_stored _ _ _ _ _ Hrk H) as [->| ->]; right; auto.
Qed.

Lemma model_follows_flag (ds : list Delivery) :
  (model_trained (run ds init) = true ->
   min_training_samples <= List.length (training_data (run ds init)) /\
   exists sc X m,
     fit_transform (training_data (run ds init)) = Some (sc, X) /\
     forest_fit X = Some m /\
     scaler (run ds init) = Some sc /\ model (run ds init) = Fitted m) /\
  (model_trained (run ds init) = false ->
   forall m, model (run ds init) <> Fitted m).
Proof.
  apply (run_invariant
           (fun s =>
              (model_trained s = true ->
               min_training_samples <= List.length (training_data s) /\
               exists sc X m,
                 fit_transform (training_data s) = Some (sc, X) /\
                 forest_fit X = Some m /\ scaler s = Some sc /\ model s = Fitted m) /\
              (model_trained s = false -> forall m, model s <> Fitted m))).
  - split; [discriminate|]. intros _ m. discriminate.
  - intros d s (I1 & I2).
    destruct (model_trained s) eqn:Ht.
    + destruct (on_message_training d s) as (T1 & _).
      destruct (T1 Ht) as (E1 & E2 & E3 & E4 & _).
      rewrite E1, E2, E3, E4. split; [intros _; exact (I1 eq_refl)|discriminate].
    + destruct (on_message_outcome d s Ht) as [(Hy & Hlen & Hfit)|(Hu & Hm & _)].
      * split; [intros _; auto|congruence].
      * split; [congruence|]. intros _ m.
        destruct Hm as [-> | ->]; [exact (I2 eq_refl m)|discriminate].
Qed.

(** X5. Whenever model_trained is true, the scaler and the forest in the
    monitor are the ones fitted on the training set the monitor still
    holds, which has at least 30 samples; and [detect_anomaly] returns the
    verdict of that pair and leaves the monitor as it is. *)
Theorem trained_model_is_fit_of_training_data (ds : list Delivery) :
  model_trained (run ds init) = true ->
  min_training_samples <= List.length (training_data (run ds init)) /\
  exists sc X m,
    fit_transform (training_data (run ds init)) = Some (sc, X) /\
    forest_fit X = Some m /\
    scaler (run ds init) = Some sc /\ model (run ds init) = Fitted m /\
    forall features,
      detect_anomaly features (run ds init) = (verdict sc m features, run ds init).
Proof.
  intros Ht. destruct (model_follows_flag ds) as (I1 & _).
  destruct (I1 Ht) as (Hlen & sc & X & m & Hf & Hm & Hsc & Hmod).
  split; [exact Hlen|]. exists sc, X, m. repeat split; try assumption.
  intros features. rewrite detect_anomaly_eq, Hsc, Hmod. reflexivity.
Qed.

(** X6. While model_trained is false the monitor holds no fitted forest,
    so a call of [detect_anomaly] cannot return a verdict: it raises, and
    leaves the monitor as it is. *)
Theorem premature_scoring_raises (ds : list Delivery) (features : list JVal) :
  model_trained (run ds init) = false ->
  (forall m, model (run ds init) <> Fitted m) /\
  exists e, detect_anomaly features (run ds init) = (Raise e, run ds init).
Proof.
  intros Ht. destruct (model_follows_flag ds) as (_ & I2).
  specialize (I2 Ht). split; [exact I2|].
  rewrite detect_anomaly_eq.
  destruct (scaler (run ds init)) as [sc|]; [|eexists; reflexivity].
  destruct (model (run ds init)) as [| |m] eqn:Em.
  - destruct (transform sc features); eexists; reflexivity.
  - destruct (transform sc features); eexists; reflexivity.
  - exfalso. exact (I2 m eq_refl).
Qed.

(** One delivery to an untrained monitor: a stored reading enters
    [train_model] exactly when it brings the training set to the threshold
    or beyond. *)
Lemma untrained_attempt (d : Delivery) (s : Monitor) (k : Key) (data : dict) :
  model_trained s = false ->
  stored d = Some (k, data) ->
  trainings_started (console (on_message d s)) =
    if min_training_samples <=? S (List.length (training_data s))
    then S (trainings_started (console s))
    else trainings_started (console s).
Proof.
  intros Ht Hst. destruct (stored_inv _ _ _ Hst) as (Hp & _).
  apply on_message_lifts.
  - intros e s' H. rewrite trainings_started_say. simpl. rewrite Nat.add_0_r. exact H.
  - intros Hn. congruence.
  - intros msg r s' Hp' H. rewrite Hp in Hp'. injection Hp' as <-.
    destruct (process_stored _ _ _ _ _ _ _ Hst H)
      as (mid & c & s1 & _ & _ & Hc & Hrest).
    assert (K : trainings_started (console s') = trainings_started (console s1)).
    { destruct c as [[]|e]; [|destruct Hrest as [_ ->]; reflexivity].
      destruct (score_reading_keeps _ _ _ _ _ _ Hrest) as (_ & _ & _ & _ & _ & K & _).
      exact K. }
    rewrite K. apply collect_cases in Hc.
    destruct Hc as [(Ht' & _)|[(_ & Hlen & -> & _)|(_ & Hlen & Htrain)]].
    + simpl in Ht'. congruence.
    + rewrite length_app in Hlen. simpl in Hlen.
      replace (min_training_samples <=? S (List.length (training_data s))) with false
        by (symmetry; apply Nat.leb_gt; lia).
      reflexivity.
    + rewrite length_app in Hlen. simpl in Hlen.
      replace (min_training_samples <=? S (List.length (training_data s))) with true
        by (symmetry; apply Nat.leb_le; lia).
      rewrite (train_model_started _ _ _ _ Htrain). reflexivity.
Qed.

(** The model is trained after it exactly when, besides, both fitting steps
    return on the training set as it now is. *)
Lemma untrained_fit (d : Delivery) (s : Monitor) (k : Key) (data : dict) :
  model_trained s = false ->
  stored d = Some (k, data) ->
  model_trained (on_message d s) =
    (min_training_samples <=? S (List.length (training_data s))) &&
    fits (training_data s ++ [extract_features data]).
Proof.
  intros Ht Hst.
  pose proof (on_message_training_data d s) as Etd. rewrite Ht, Hst in Etd.
  destruct (on_message_outcome d s Ht)
    as [(Hy & Hlen & sc & X & m & Hf & Hm & _)|(Hu & _ & Hwhy)].
  - rewrite Hy. rewrite Etd in Hlen, Hf. unfold fits. rewrite Hf, Hm.
    rewrite length_app in Hlen. simpl in Hlen.
    replace (min_training_samples <=? S (List.length (training_data s))) with true
      by (symmetry; apply Nat.leb_le; lia).
    reflexivity.
  - rewrite Hu. symmetry. apply andb_false_iff. rewrite Etd in Hwhy.
    destruct Hwhy as [Hn|[Hlt|[Hf|(sc & X & Hf & Hm)]]].
    + congruence.
    + left. apply Nat.leb_gt. rewrite length_app in Hlt. simpl in Hlt. lia.
    + right. unfold fits. rewrite Hf. reflexivity.
    + right. unfold fits. rewrite Hf, Hm. reflexivity.
Qed.

(** Any other delivery leaves the training state alone. *)
Lemma untrained_not_stored (d : Delivery) (s : Monitor) :
  model_trained s = false ->
  stored d = None ->
  model_trained (on_message d s) = false /\
  trainings_started (console (on_message d s)) = trainings_started (console s).
Proof.
  intros Ht Hst. apply on_message_lifts.
  - intros e s' [H1 H2]. split; [exact H1|].
    rewrite trainings_started_say. simpl. rewrite Nat.add_0_r. exact H2.
  - intros _. auto.
  - intros msg r s' Hp H.
    assert (Hrk : reading_key msg = None)
      by (unfold stored in Hst; rewrite Hp in Hst; exact Hst).
    destruct (process_not_stored _ _ _ _ _ Hrk H) as [->| ->]; auto.
Qed.

(** [train_model] has been entered once for every sample of the training
    set from the thirtieth on. *)
Lemma started_counts_samples (ds : list Delivery) :
  trainings_started (console (run ds init)) =
    List.length (training_data (run ds init)) - (min_training_samples - 1).
Proof.
  apply (run_invariant
           (fun s => trainings_started (console s) =
                     List.length (training_data s) - (min_training_samples - 1)));
    [reflexivity|].
  intros d s I.
  pose proof (on_message_training_data d s) as Etd.
  destruct (model_trained s) eqn:Ht.
  - destruct (on_message_training d s) as (T1 & _).
    destruct (T1 Ht) as (_ & _ & _ & _ & E & _). rewrite E, Etd. exact I.
  - destruct (stored d) as [[k data]|] eqn:Hst.
    + rewrite (untrained_attempt d s k data Ht Hst), Etd, length_app, I.
      simpl List.length.
      destruct (Nat.leb_spec min_training_samples (S (List.length (training_data s))));
        unfold min_training_samples in *; lia.
    + destruct (untrained_not_stored d s Ht Hst) as [_ E]. rewrite E, Etd. exact I.
Qed.

Lemma first_training_set_app (ds : list Delivery) (d : Delivery) :
  min_training_samples <= List.length (stored_readings ds) ->
  first_training_set (ds ++ [d]) = first_training_set ds.
Proof.
  intros H. unfold first_training_set. rewrite stored_readings_app, firstn_app.
  replace (min_training_samples - List.length (stored_readings ds)) with 0 by lia.
  simpl. rewrite app_nil_r. reflexivity.
Qed.

(** When fitting the first thirty stored readings does not raise, the model
    is trained from the thirtieth stored reading on, on those thirty. *)
Lemma first_fit_trains (ds : list Delivery) :
  (min_training_samples <= List.length (stored_readings ds) ->
   fits (first_training_set ds) = true) ->
  model_trained (run ds init) =
    (min_training_samples <=? List.length (stored_readings ds)) /\
  training_data (run ds init) = first_training_set ds.
Proof.
  induction ds as [|d ds IH] using rev_ind; [intros _; split; reflexivity|].
  intros Hfit.
  assert (Hlen : List.length (stored_readings (ds ++ [d])) =
                 List.length (stored_readings ds) +
                 List.length (stored_readings [d]))
    by (rewrite stored_readings_app, length_app; reflexivity).
  assert (Hfit' : min_training_samples <= List.length (stored_readings ds) ->
                  fits (first_training_set ds) = true).
  { intros H. rewrite <- (first_training_set_app ds d H). apply Hfit. lia. }
  destruct (IH Hfit') as [It Id]. clear IH.
  rewrite run_snoc.
  pose proof (on_message_training_data d (run ds init)) as Etd.
  destruct (Nat.leb_spec min_training_samples (List.length (stored_readings ds)))
    as [Hge|Hlt].
  - destruct (on_message_training d (run ds init)) as (T1 & _).
    destruct (T1 It) as (E1 & E2 & _).
    rewrite E1, E2, (first_training_set_app ds d Hge), Id.
    split; [|reflexivity]. symmetry. apply Nat.leb_le. lia.
  - assert (Hall : first_training_set ds = map extract_features (stored_readings ds))
      by (unfold first_training_set; rewrite firstn_all2 by lia; reflexivity).
    rewrite It in Etd. simpl in Hlen.
    destruct (stored d) as [[k data]|] eqn:Hst.
    + simpl in Hlen.
      assert (Hnew : training_data (run ds init) ++ [extract_features data] =
                     first_training_set (ds ++ [d])).
      { unfold first_training_set.
        rewrite firstn_all2 by (rewrite Hlen; lia).
        rewrite stored_readings_app, map_app, Id, Hall. simpl. rewrite Hst.
        reflexivity. }
      assert (Htd : List.length (training_data (run ds init)) =
                    List.length (stored_readings ds))
        by (rewrite Id, Hall, length_map; reflexivity).
      rewrite (untrained_fit d _ k data It Hst), Etd, Hnew, Htd, Hlen.
      replace (List.length (stored_readings ds) + 1)
        with (S (List.length (stored_readings ds))) by lia.
      split; [|reflexivity].
      destruct (Nat.leb_spec min_training_samples
                  (S (List.length (stored_readings ds)))) as [Hge'|Hlt'];
        [|reflexivity].
      simpl. apply Hfit. lia.
    + simpl in Hlen.
      destruct (untrained_not_stored d _ It Hst) as [E _].
      rewrite E, Etd, Id, Hlen, Nat.add_0_r.
      split; [symmetry; apply Nat.leb_gt; exact Hlt|].
      unfold first_training_set. rewrite stored_readings_app. simpl. rewrite Hst.
      rewrite app_nil_r. reflexivity.
Qed.

(** X7. When fitting the first thirty stored readings does not raise, the
    model is trained exactly from the thirtieth stored reading on, whether
    or not the model file could be written; the training set is the feature
    vectors of the first thirty stored readings, whatever is delivered
    later; and [train_model] is entered once, at the thirtieth. *)
Theorem trains_on_first_thirty (ds : list Delivery) :
  (min_training_samples <= List.length (stored_readings ds) ->
   fits (first_training_set ds) = true) ->
  model_trained (run ds init) =
    (min_training_samples <=? List.length (stored_readings ds)) /\
  training_data (run ds init) =
    map extract_features (firstn min_training_samples (stored_readings ds)) /\
  trainings_started (console (run ds init)) =
    if min_training_samples <=? List.length (stored_readings ds) then 1 else 0.
Proof.
  intros Hfit. destruct (first_fit_trains ds Hfit) as [Ht Hd].
  split; [exact Ht|]. split; [exact Hd|].
  rewrite started_counts_samples, Hd. unfold first_training_set.
  rewrite length_map, length_firstn.
  destruct (Nat.leb_spec min_training_samples (List.length (stored_readings ds)));
    unfold min_training_samples in *; lia.
Qed.

(** C2, as amended.  After any deliveries [ds]: at most one training has
    completed (got as far as setting model_trained); once model_trained is
    true, further deliveries [ds'] keep it true, append nothing to
    training_data, enter [train_model] no more and leave model and scaler as
    fitted.  [train_model] has been entered once for every sample of the
    training set from the thirtieth on: at most once when fitting the first
    thirty stored readings does not raise, and once for every stored
    reading from the thirtieth on while model_trained is false.  A stored
    reading that arrives in an untrained monitor leaves the model trained
    exactly when it brings the training set to the threshold and both
    fitting steps return: when fitting raises, model_trained stays false
    and the next stored reading enters [train_model] again. *)
Theorem training_completes_once (ds ds' : list Delivery) :
  trainings_completed (console (run ds init)) <= 1 /\
  (model_trained (run ds init) = true ->
   model_trained (run ds' (run ds init)) = true /\
   training_data (run ds' (run ds init)) = training_data (run ds init) /\
   trainings_started (console (run ds' (run ds init))) =
     trainings_started (console (run ds init)) /\
   model (run ds' (run ds init)) = model (run ds init) /\
   scaler (run ds' (run ds init)) = scaler (run ds init)) /\
  trainings_started (console (run ds init)) =
    List.length (training_data (run ds init)) - (min_training_samples - 1) /\
  ((min_training_samples <= List.length (stored_readings ds) ->
    fits (first_training_set ds) = true) ->
   trainings_started (console (run ds init)) <= 1) /\
  (model_trained (run ds init) = false ->
   trainings_started (console (run ds init)) =
     List.length (stored_readings ds) - (min_training_samples - 1) /\
   forall d k data,
     stored d = Some (k, data) ->
     model_trained (run (ds ++ [d]) init) =
       (min_training_samples <=? S (List.length (training_data (run ds init)))) &&
       fits (training_data (run ds init) ++ [extract_features data]) /\
     trainings_started (console (run (ds ++ [d]) init)) =
       if min_training_samples <=? S (List.length (training_data (run ds init)))
       then S (trainings_started (console (run ds init)))
       else trainings_started (console (run ds init))).
Proof.
  split; [|split; [|split; [|split]]].
  - rewrite completed_matches_flag. destruct (model_trained (run ds init)); lia.
  - intros Ht.
    destruct (trained_is_final ds' _ Ht) as (F1 & F2 & F3 & F4 & F5 & F6).
    repeat split; assumption.
  - apply started_counts_samples.
  - intros Hfit. destruct (first_fit_trains ds Hfit) as [_ Hd].
    rewrite started_counts_samples, Hd. unfold first_training_set.
    rewrite length_map, length_firstn. unfold min_training_samples. lia.
  - intros Hu. split.
    + destruct (training_data_prefix ds) as [_ P2].
      rewrite started_counts_samples, (P2 Hu), length_map. reflexivity.
    + intros d k data Hst. rewrite run_snoc. split.
      * apply (untrained_fit d _ k data Hu Hst).
      * apply (untrained_attempt d _ k data Hu Hst).
Qed.

(** ** The machine map *)

Lemma md_lookup_update_none (k' k : Key) (f : MachineState -> MachineState)
    (md : machine_map) :
  md_lookup k' (md_update k f md) = None <-> md_lookup k' md = None.
Proof.
  rewrite md_lookup_update.
  destruct (key_eqb k' k); [|reflexivity].
  destruct (md_lookup k' md); simpl; split; congruence.
Qed.

Lemma keys_distinct_update (k : Key) (f : MachineState -> MachineState)
    (md : machine_map) :
  keys_distinct md -> keys_distinct (md_update k f md).
Proof.
  induction md as [|[k0 st0] md IH]; simpl; [auto|].
  intros [Hk0 Hd]. destruct (key_eqb k k0); simpl.
  - auto.
  - split; [apply md_lookup_update_none; exact Hk0|apply IH; exact Hd].
Qed.

Lemma keys_distinct_add (k : Key) (st : MachineState) (md : machine_map) :
  md_lookup k md = None -> keys_distinct md -> keys_distinct (md_add k st md).
Proof.
  unfold md_add. induction md as [|[k0 st0] md IH]; simpl.
  - auto.
  - destruct (key_eqb k k0) eqn:Hk; [discriminate|].
    intros Hn [Hk0 Hd]. split; [|apply IH; assumption].
    fold (md_add k st md). rewrite md_lookup_add, Hk0, key_eqb_sym, Hk. reflexivity.
Qed.

Lemma keys_distinct_store (k : Key) (data : dict) (md : machine_map) :
  keys_distinct md -> keys_distinct (store_reading k data md).
Proof.
  intros Hd. unfold store_reading. apply keys_distinct_update.
  destruct (md_lookup k md) eqn:E; [exact Hd|].
  apply keys_distinct_add; assumption.
Qed.

Lemma length_md_update (k : Key) (f : MachineState -> MachineState) (md : machine_map) :
  List.length (md_update k f md) = List.length md.
Proof.
  induction md as [|[k0 st0] md IH]; simpl; [reflexivity|].
  destruct (key_eqb k k0); simpl; [reflexivity|rewrite IH; reflexivity].
Qed.

Lemma length_store_reading (k : Key) (data : dict) (md : machine_map) :
  List.length (store_reading k data md) <= S (List.length md).
Proof.
  unfold store_reading. rewrite length_md_update.
  destruct (md_lookup k md); [lia|].
  unfold md_add. rewrite length_app. simpl. lia.
Qed.

Lemma md_lookup_store_none (k' k : Key) (data : dict) (md : machine_map) :
  md_lookup k' (store_reading k data md) = None <->
  md_lookup k' md = None /\ key_eqb k' k = false.
Proof.
  unfold store_reading. rewrite md_lookup_update_none.
  destruct (md_lookup k md) as [st|] eqn:E.
  - split; [|tauto]. intros Hn. split; [exact Hn|].
    destruct (key_eqb k' k) eqn:Hk; [|reflexivity].
    rewrite (md_lookup_congr _ _ _ Hk) in Hn. congruence.
  - rewrite md_lookup_add.
    destruct (md_lookup k' md); [split; [discriminate|intros [? _]; discriminate]|].
    destruct (key_eqb k' k); split; try tauto; try discriminate.
    intros [_ ?]. discriminate.
Qed.

(** The machine map after one delivery: the reading stored, if the delivery
    has one, and at most one alert added to an entry. *)
Lemma on_message_machine_data (d : Delivery) (s : Monitor) :
  let md0 := match stored d with
             | Some (k, data) => store_reading k data (machine_data s)
             | None => machine_data s
             end in
  machine_data (on_message d s) = md0 \/
  exists k a, machine_data (on_message d s) = md_update k (add_alert a) md0.
Proof.
  unfold stored. apply on_message_lifts.
  - intros e s' H. exact H.
  - intros ->. left. reflexivity.
  - intros msg r s' Hp H. rewrite Hp.
    destruct (reading_key msg) as [[k data]|] eqn:Hrk.
    + assert (Hst : stored d = Some (k, data)) by (unfold stored; rewrite Hp; exact Hrk).
      destruct (stored_inv _ _ _ Hst) as (Hp' & _).
      rewrite Hp in Hp'. injection Hp' as ->.
      destruct (process_stored _ _ _ _ _ _ _ Hst H)
        as (mid & c & s1 & _ & _ & Hc & Hrest).
      destruct (collect_keeps _ _ _ _ _ Hc) as (Kmd & _).
      simpl in Kmd. rewrite <- Kmd.
      destruct c as [[]|e]; [|destruct Hrest as [_ ->]; left; reflexivity].
      apply score_reading_cases in Hrest.
      destruct Hrest as [[->| ->]|(_ & q & _ & Hh)]; [left; reflexivity..|].
      apply handle_anomaly_cases in Hh.
      destruct Hh as [(e & _ & -> & _)|(a & k0 & _ & _ & [->| ->])].
      * left. reflexivity.
      * right. exists k0, a. reflexivity.
      * right. exists k0, a. reflexivity.
    + destruct (process_not_stored _ _ _ _ _ Hrk H) as [->| ->]; left; reflexivity.
Qed.

Lemma stored_counted (d : Delivery) :
  stored d <> None -> counted d = true.
Proof.
  unfold stored, counted. destruct (payload d) as [msg|]; [|congruence].
  destruct (is_reading msg) eqn:E; [reflexivity|].
  rewrite (is_reading_key _ E). congruence.
Qed.

Lemma readings_for_nil (k : Key) (ds : list Delivery) :
  readings_for k ds = [] <->
  Forall (fun d => match stored d with
                   | Some (k', _) => key_eqb k k' = false
                   | None => True
                   end) ds.
Proof.
  induction ds as [|d ds IH]; simpl; [split; [constructor|reflexivity]|].
  rewrite Forall_cons_iff, <- IH. unfold stored.
  destruct (payload d) as [msg|]; [|tauto].
  destruct (reading_key msg) as [[k' data]|]; [|tauto].
  destruct (key_eqb k k'); [|tauto].
  split; [discriminate|]. intros [H _]. discriminate.
Qed.

Lemma machine_map_facts (ds : list Delivery) :
  keys_distinct (machine_data (run ds init)) /\
  (forall k, md_lookup k (machine_data (run ds init)) = None <->
             readings_for k ds = []) /\
  List.length (machine_data (run ds init)) <= total_readings (run ds init).
Proof.
  induction ds as [|d ds (I1 & I2 & I3)] using rev_ind.
  - simpl. split; [exact I|]. split; [|lia]. intros k. split; reflexivity.
  - rewrite run_snoc.
    pose proof (on_message_machine_data d (run ds init)) as Hmd.
    pose proof (on_message_total d (run ds init)) as Ht.
    cbv zeta in Hmd.
    set (md0 := match stored d with
                | Some (k, data) => store_reading k data (machine_data (run ds init))
                | None => machine_data (run ds init)
                end) in *.
    assert (D0 : keys_distinct md0).
    { unfold md0. destruct (stored d) as [[k data]|];
        [apply keys_distinct_store|]; exact I1. }
    assert (L0 : forall k, md_lookup k md0 = None <-> readings_for k (ds ++ [d]) = []).
    { intros k. rewrite readings_for_nil, Forall_app, <- readings_for_nil, <- I2.
      unfold md0. destruct (stored d) as [[k' data]|] eqn:Hst.
      - rewrite md_lookup_store_none. split.
        + intros [Hn Hk]. split; [exact Hn|]. constructor; [rewrite Hst; exact Hk|constructor].
        + intros [Hn Hk]. split; [exact Hn|].
          inversion Hk as [|? ? Hk' _]. rewrite Hst in Hk'. exact Hk'.
      - split; [|tauto]. intros Hn. split; [exact Hn|].
        constructor; [rewrite Hst; exact I|constructor]. }
    assert (N0 : List.length md0 <= total_readings (on_message d (run ds init))).
    { rewrite Ht. unfold md0. destruct (stored d) as [[k data]|] eqn:Hst.
      - rewrite (stored_counted d) by congruence.
        pose proof (length_store_reading k data (machine_data (run ds init))). lia.
      - destruct (counted d); lia. }
    destruct Hmd as [-> |(k0 & a & ->)].
    + auto.
    + split; [apply keys_distinct_update; exact D0|]. split.
      * intros k. rewrite md_lookup_update_none. apply L0.
      * rewrite length_md_update. exact N0.
Qed.

(** X8. The machine map has one entry per machine: no two entries have
    equal keys (under Python's key equality), a key has an entry exactly
    when a reading of that machine was delivered, and the number of entries
    never exceeds total_readings. *)
Theorem one_entry_per_machine (ds : list Delivery) :
  keys_distinct (machine_data (run ds init)) /\
  (forall k, md_lookup k (machine_data (run ds init)) = None <->
             readings_for k ds = []) /\
  List.length (machine_data (run ds init)) <= total_readings (run ds init).
Proof. exact (machine_map_facts ds). Qed.

(** ** Alerts *)

Lemma filter_snoc {A} (p : A -> bool) (l : list A) (x : A) :
  filter p (l ++ [x]) = filter p l ++ (if p x then [x] else []).
Proof. rewrite filter_app. simpl. destruct (p x); reflexivity. Qed.

(** X9. The two alert stores agree: the alert list of a machine is the
    part of the global alert history that carries that machine's id, in the
    same order. *)
Theorem machine_alerts_are_history_filtered (ds : list Delivery) (k : Key) :
  alerts_of k (run ds init) = filter (alert_of_machine k) (alert_history (run ds init)).
Proof.
  apply (run_invariant
           (fun s => alerts_of k s = filter (alert_of_machine k) (alert_history s)));
    [reflexivity|].
  intros d s I. apply on_message_lifts.
  - intros e s' H. exact H.
  - intros _. exact I.
  - intros msg r s' _ H.
    destruct (process_alerts _ _ _ _ _ H)
      as [((Nh & _ & Nk) & _)|[((Nh & _ & Nk) & _)
         |(a & k0 & data & mid & q & (Oh & _ & Ok0) & _ & _ & _ & _ & Hk & Hb)]].
    + rewrite Nh, Nk. exact I.
    + rewrite Nh, Nk. exact I.
    + destruct (build_alert_id _ _ _ _ _ Hb) as (_ & Hmid & _).
      rewrite Oh, Ok0, filter_snoc, I.
      replace (alert_of_machine k a) with (key_eqb k k0)
        by (unfold alert_of_machine; rewrite Hmid, Hk; reflexivity).
      destruct (key_eqb k k0); [reflexivity|rewrite app_nil_r; reflexivity].
Qed.

Lemma NoDup_alert_ids (ns : list nat) :
  StronglySorted lt ns -> NoDup (map alert_id_of ns).
Proof.
  induction 1 as [|n ns Hs IH Hn]; simpl; constructor; [|exact IH].
  intros Hin. apply in_map_iff in Hin. destruct Hin as (m & Hm & Hin).
  apply alert_id_of_inj in Hm. subst m.
  rewrite Forall_forall in Hn. apply Hn in Hin. lia.
Qed.

(** X10. Within a process lifetime no two stored alerts have the same
    alert_id, gaps in the numbering and counter values beyond 9999
    included. *)
Theorem alert_ids_are_unique (ds : list Delivery) :
  NoDup (map alert_id (alert_history (run ds init))).
Proof.
  destruct (history_numbered ds) as [[ns (Hid & Hs & _)] _].
  rewrite Hid. apply NoDup_alert_ids. exact Hs.
Qed.

Lemma detect_depends (features : list JVal) (s s' : Monitor) :
  scaler s' = scaler s -> model s' = model s ->
  fst (detect_anomaly features s') = fst (detect_anomaly features s).
Proof.
  intros E1 E2. rewrite !detect_anomaly_eq. cbn [fst]. rewrite E1, E2. reflexivity.
Qed.

Lemma build_alert_metrics (n : nat) (mid : JVal) (data : dict) (q : Q) (a : Alert) :
  build_alert n mid data q = Ok a ->
  metrics_list (metrics a) = extract_features data /\
  dict_get "timestamp" data = Some (timestamp a).
Proof.
  unfold build_alert, rbind, subscript, extract_features, dict_get_default.
  destruct (dict_get "timestamp" data); [|discriminate].
  destruct (dict_get "temperature" data); [|discriminate].
  destruct (dict_get "vibration" data); [|discriminate].
  destruct (dict_get "current" data); [|discriminate].
  destruct (dict_get "pressure" data); [|discriminate].
  destruct (dict_get "rpm" data); [|discriminate].
  destruct (get_recommendation data); [|discriminate].
  intros H. injection H as <-. split; reflexivity.
Qed.

(** The alert history after one delivery: as before, or one alert longer,
    the alert built from the delivered reading and the score the detector
    gave it. *)
Lemma on_message_new_alert (d : Delivery) (s : Monitor) :
  alert_history (on_message d s) = alert_history s \/
  exists a data mid q,
    payload d = Some (JObj data) /\ dict_get "machine_id" data = Some mid /\
    alert_history (on_message d s) = alert_history s ++ [a] /\
    build_alert (S (anomalies_detected s)) mid data q = Ok a /\
    fst (detect_anomaly (extract_features data) (on_message d s)) = Ok (true, q).
Proof.
  apply on_message_lifts.
  - intros e s' [H|(a & data & mid & q & H1 & H2 & H3 & H4 & H5)]; [left; exact H|].
    right. exists a, data, mid, q. repeat split; try assumption.
    rewrite <- H5. apply detect_depends; reflexivity.
  - intros _. left. reflexivity.
  - intros msg r s' Hp H. apply process_cases in H.
    destruct H as [(_ & -> & _)|[(_ & _ & -> & _)
                  |(data & mid & k & c & s1 & -> & Hmid & Hk & Hc & H)]];
      [left; reflexivity..|].
    destruct (collect_keeps _ _ _ _ _ Hc) as (_ & Kh & _ & Ka & _).
    destruct c as [[]|e]; [|destruct H as [_ ->]; left; exact Kh].
    pose proof (score_reading_keeps _ _ _ _ _ _ H) as (_ & _ & Km & Ks & _).
    apply score_reading_cases in H.
    destruct H as [[->| ->]|(_ & q & Hq & H)]; [left; exact Kh..|].
    apply handle_anomaly_cases in H.
    destruct H as [(e & _ & -> & _)|(a & k0 & Hb & _ & Hs')]; [left; exact Kh|].
    right. exists a, data, mid, q.
    split; [exact Hp|]. split; [exact Hmid|]. split; [|split].
    + destruct Hs' as [->| ->]; simpl; rewrite Kh; reflexivity.
    + rewrite Ka in Hb. exact Hb.
    + rewrite <- Hq. apply detect_depends; assumption.
Qed.

Lemma alert_provenance (ds : list Delivery) (a : Alert) :
  In a (alert_history (run ds init)) ->
  exists d data q,
    In d ds /\ payload d = Some (JObj data) /\
    dict_get "machine_id" data = Some (machine_id a) /\
    dict_get "timestamp" data = Some (timestamp a) /\
    metrics_list (metrics a) = extract_features data /\
    fst (detect_anomaly (extract_features data) (run ds init)) = Ok (true, q) /\
    anomaly_score a = round4 q /\ severity a = calculate_severity q /\
    get_recommendation data = Ok (recommendation a).
Proof.
  induction ds as [|d ds IH] using rev_ind; [intros []|].
  rewrite run_snoc. intros Hin.
  assert (Hold : In a (alert_history (run ds init)) ->
                 exists d0 data q,
                   In d0 (ds ++ [d]) /\ payload d0 = Some (JObj data) /\
                   dict_get "machine_id" data = Some (machine_id a) /\
                   dict_get "timestamp" data = Some (timestamp a) /\
                   metrics_list (metrics a) = extract_features data /\
                   fst (detect_anomaly (extract_features data)
                          (on_message d (run ds init))) = Ok (true, q) /\
                   anomaly_score a = round4 q /\ severity a = calculate_severity q /\
                   get_recommendation data = Ok (recommendation a)).
  { intros Hin0.
    destruct (IH Hin0) as (d0 & data & q & H1 & H2 & H3 & H4 & H5 & H6 & H7).
    exists d0, data, q. split; [apply in_or_app; left; exact H1|].
    repeat (split; [assumption|]). split; [|exact H7].
    rewrite <- H6.
    assert (Ht : model_trained (run ds init) = true).
    { destruct (model_trained (run ds init)) eqn:E; [reflexivity|].
      destruct (untrained_is_silent ds) as (_ & Hsilent).
      destruct (Hsilent E) as (Hnil & _). rewrite Hnil in Hin0. destruct Hin0. }
    destruct (on_message_training d (run ds init)) as (T1 & _).
    destruct (T1 Ht) as (_ & _ & Em & Es & _).
    apply detect_depends; assumption. }
  destruct (on_message_new_alert d (run ds init))
    as [E|(a' & data & mid & q & Hp & Hmid & E & Hb & Hq)].
  - rewrite E in Hin. exact (Hold Hin).
  - rewrite E in Hin. apply in_app_or in Hin. destruct Hin as [Hin|[<-|[]]].
    + exact (Hold Hin).
    + destruct (build_alert_id _ _ _ _ _ Hb) as (_ & B1 & _ & B3 & B4 & B5).
      destruct (build_alert_metrics _ _ _ _ _ Hb) as (M1 & M2).
      exists d, data, q. split; [apply in_or_app; right; left; reflexivity|].
      rewrite B1. repeat split; assumption.
Qed.

(** X11. Every stored alert comes from a delivered reading: it carries
    that reading's machine_id and timestamp, its metrics are the reading's
    feature vector, its score and severity are the rounding and the tier of
    the score the fitted detector gives that feature vector as an outlier,
    and its recommendation is the one computed from that reading. *)
Theorem alerts_come_from_readings (ds : list Delivery) (a : Alert) :
  In a (alert_history (run ds init)) ->
  exists d data q,
    In d ds /\ payload d = Some (JObj data) /\
    dict_get "machine_id" data = Some (machine_id a) /\
    dict_get "timestamp" data = Some (timestamp a) /\
    metrics_list (metrics a) = extract_features data /\
    fst (detect_anomaly (extract_features data) (run ds init)) = Ok (true, q) /\
    anomaly_score a = round4 q /\ severity a = calculate_severity q /\
    get_recommendation data = Ok (recommendation a).
Proof. exact (alert_provenance ds a). Qed.






(** ** Recommendation errors, severity order, statistics *)

(** X14. [get_recommendation] returns exactly when temperature,
    vibration, current and rpm are all there and are numbers; otherwise it
    raises KeyError for a missing one of the four or TypeError for one that
    is not a number; and it looks at nothing else in the reading: two
    readings that agree on these four keys get the same result. *)
Theorem get_recommendation_errors (data : dict) :
  ((exists msg, get_recommendation data = Ok msg) <->
   forallb (has_number data) ["temperature"; "vibration"; "current"; "rpm"] = true) /\
  (forall e, get_recommendation data = Raise e ->
     (exists k, In k ["temperature"; "vibration"; "current"; "rpm"] /\
                dict_get k data = None /\ e = KeyError (JStr k)) \/
     (exists k v, In k ["temperature"; "vibration"; "current"; "rpm"] /\
                  dict_get k data = Some v /\ as_number v = None /\ e = TypeError)) /\
  (forall data',
     (forall k, In k ["temperature"; "vibration"; "current"; "rpm"] ->
                dict_get k data' = dict_get k data) ->
     get_recommendation data' = get_recommendation data).
Proof.
  split; [|split].
  - unfold get_recommendation, subscript, py_gt, py_lt, rbind, has_number.
    cbn [forallb].
    destruct (dict_get "temperature" data) as [t|];
      [|split; [intros [? ?]; discriminate|discriminate]].
    destruct (as_number t);
      [|split; [intros [? ?]; discriminate|discriminate]].
    destruct (dict_get "vibration" data) as [v|];
      [|split; [intros [? ?]; discriminate|discriminate]].
    destruct (as_number v);
      [|split; [intros [? ?]; discriminate|discriminate]].
    destruct (dict_get "current" data) as [c|];
      [|split; [intros [? ?]; discriminate|discriminate]].
    destruct (as_number c);
      [|split; [intros [? ?]; discriminate|discriminate]].
    destruct (dict_get "rpm" data) as [r|];
      [|split; [intros [? ?]; discriminate|discriminate]].
    destruct (as_number r);
      [|split; [intros [? ?]; discriminate|discriminate]].
    split; [reflexivity|]. intros _.
    match goal with |- exists _, match ?l with _ => _ end = _ => destruct l end;
      eexists; reflexivity.
  - intros e. unfold get_recommendation, subscript, py_gt, py_lt, rbind.
    destruct (dict_get "temperature" data) as [t|] eqn:Et;
      [|intros H; injection H as <-; left; exists "temperature"; simpl; auto].
    destruct (as_number t) eqn:Nt;
      [|intros H; injection H as <-; right; exists "temperature", t; simpl; auto].
    destruct (dict_get "vibration" data) as [v|] eqn:Ev;
      [|intros H; injection H as <-; left; exists "vibration"; simpl; auto].
    destruct (as_number v) eqn:Nv;
      [|intros H; injection H as <-; right; exists "vibration", v; simpl; auto].
    destruct (dict_get "current" data) as [c|] eqn:Ec;
      [|intros H; injection H as <-; left; exists "current"; simpl; auto 7].
    destruct (as_number c) eqn:Nc;
      [|intros H; injection H as <-; right; exists "current", c; simpl; auto 7].
    destruct (dict_get "rpm" data) as [r|] eqn:Er;
      [|intros H; injection H as <-; left; exists "rpm"; simpl; auto 8].
    destruct (as_number r) eqn:Nr;
      [|intros H; injection H as <-; right; exists "rpm", r; simpl; auto 8].
    match goal with |- match ?l with _ => _ end = _ -> _ => destruct l end;
      discriminate.
  - intros data' Hsame. unfold get_recommendation, subscript.
    rewrite (Hsame "temperature"), (Hsame "vibration"), (Hsame "current"),
      (Hsame "rpm") by (simpl; auto).
    reflexivity.
Qed.

(** X15. Severity never decreases as the score decreases: of two scores,
    the lower one gets a tier at least as severe. *)
Theorem calculate_severity_monotone (s1 s2 : Q) :
  (s1 <= s2)%Q ->
  severity_rank (calculate_severity s2) <= severity_rank (calculate_severity s1).
Proof.
  intros Hle. unfold calculate_severity.
  destruct (Qlt_bool s1 (-5 # 10)) eqn:A1.
  - destruct (Qlt_bool s2 (-5 # 10)); [vm_compute; lia|].
    destruct (Qlt_bool s2 (-3 # 10)); vm_compute; lia.
  - apply Qlt_bool_false_iff in A1.
    destruct (Qlt_bool s2 (-5 # 10)) eqn:A2.
    { apply Qlt_bool_iff in A2. exfalso.
      apply (Qlt_irrefl s2). eapply Qlt_le_trans; [exact A2|].
      eapply Qle_trans; [exact A1|exact Hle]. }
    destruct (Qlt_bool s1 (-3 # 10)) eqn:B1.
    + destruct (Qlt_bool s2 (-3 # 10)); vm_compute; lia.
    + apply Qlt_bool_false_iff in B1.
      destruct (Qlt_bool s2 (-3 # 10)) eqn:B2; [|vm_compute; lia].
      apply Qlt_bool_iff in B2. exfalso.
      apply (Qlt_irrefl s2). eapply Qlt_le_trans; [exact B2|].
      eapply Qle_trans; [exact B1|exact Hle].
Qed.

Lemma anomalies_le_total (ds : list Delivery) :
  anomalies_detected (run ds init) <= total_readings (run ds init).
Proof.
  apply (run_invariant (fun s => anomalies_detected s <= total_readings s)).
  - apply Nat.le_refl.
  - intros d s I. apply on_message_lifts.
    + intros e s' H. exact H.
    + intros _. exact I.
    + intros msg r s' _ H.
      rewrite (process_total _ _ _ _ _ H).
      destruct (process_anomalies _ _ _ _ _ H) as [E|[E Hr]]; rewrite E.
      * destruct (is_reading msg); lia.
      * rewrite Hr. lia.
Qed.

Lemma fits_float_unit (q : Q) : (0 <= q)%Q -> (q <= 1)%Q -> fits_float q = true.
Proof.
  intros H0 H1. unfold fits_float. apply andb_true_intro. split.
  - apply Qlt_bool_iff. apply Qlt_le_trans with (y := 0%Q); [|exact H0].
    vm_compute. reflexivity.
  - apply Qlt_bool_iff. apply Qle_lt_trans with (y := 1%Q); [exact H1|].
    vm_compute. reflexivity.
Qed.

(** X16. [print_statistics] returns after any sequence of deliveries, the
    first call before any reading included: the divisor is
    max(total_readings, 1), where dividing by total_readings itself would
    raise ZeroDivisionError while it is 0.  The anomaly rate it prints is
    between 0 and 100 percent and is 0 before the first reading, the number
    of machines and the number of anomalies are at most the number of
    readings, and no anomaly is reported while the model is in training. *)
Theorem print_statistics_is_consistent (ds : list Delivery) :
  exists rep,
    print_statistics (run ds init) = Ok rep /\
    (0 <= rep_anomaly_rate rep)%Q /\
    (rep_anomaly_rate rep <= 100)%Q /\
    (rep_total_readings rep = 0 ->
     (rep_anomaly_rate rep == 0)%Q /\
     py_truediv (anomalies_detected (run ds init)) (total_readings (run ds init)) =
       Raise ZeroDivisionError) /\
    rep_machines rep <= rep_total_readings rep /\
    rep_anomalies rep <= rep_total_readings rep /\
    (rep_trained rep = false -> rep_anomalies rep = 0).
Proof.
  pose proof (anomalies_le_total ds) as Hle.
  destruct (machine_map_facts ds) as (_ & _ & Hm).
  destruct (untrained_is_silent ds) as (_ & Hsilent).
  unfold print_statistics, py_truediv, rbind.
  set (a := anomalies_detected (run ds init)) in *.
  set (t := total_readings (run ds init)) in *.
  assert (Hpos : (0 < inject_Z (Z.of_nat (Nat.max t 1)))%Q).
  { replace 0%Q with (inject_Z 0) by reflexivity. rewrite <- Zlt_Qlt. lia. }
  assert (Ha : (0 <= inject_Z (Z.of_nat a))%Q).
  { replace 0%Q with (inject_Z 0) by reflexivity. rewrite <- Zle_Qle. lia. }
  assert (Ham : (inject_Z (Z.of_nat a) <= inject_Z (Z.of_nat (Nat.max t 1)))%Q).
  { rewrite <- Zle_Qle. lia. }
  assert (Hfrac0 : (0 <= inject_Z (Z.of_nat a) / inject_Z (Z.of_nat (Nat.max t 1)))%Q).
  { apply Qle_shift_div_l; [exact Hpos|]. rewrite Qmult_0_l. exact Ha. }
  assert (Hfrac1 : (inject_Z (Z.of_nat a) / inject_Z (Z.of_nat (Nat.max t 1)) <= 1)%Q).
  { apply Qle_shift_div_r; [exact Hpos|]. rewrite Qmult_1_l. exact Ham. }
  replace (Nat.max t 1 =? 0) with false by (symmetry; apply Nat.eqb_neq; lia).
  cbv zeta. rewrite (fits_float_unit _ Hfrac0 Hfrac1).
  eexists. split; [reflexivity|].
  cbn [rep_anomaly_rate rep_total_readings rep_machines rep_anomalies rep_trained].
  split; [|split; [|split; [|split; [|split]]]].
  - apply Qmult_le_0_compat; [exact Hfrac0|discriminate].
  - setoid_replace 100%Q with (1 * 100)%Q at 2 by reflexivity.
    apply Qmult_le_compat_r; [exact Hfrac1|discriminate].
  - intros Ht. assert (Ha0 : a = 0) by lia. rewrite Ha0, Ht.
    split; reflexivity.
  - exact Hm.
  - exact Hle.
  - intros Hu. destruct (Hsilent Hu) as (_ & _ & _ & H0). exact H0.
Qed.

(** ** The dashboard *)

Lemma dashboard_handle_alert_eq (alert : JVal) (s : Dashboard.State) :
  Dashboard.handle_alert alert s =
    let s1 := Dashboard.set_statistics Dashboard.incr_total_anomalies
                (Dashboard.set_alerts (Dashboard.insert_keep_100 alert) s) in
    match Dashboard.item alert "machine_id" with
    | Raise e => (Raise e, s1)
    | Ok mid =>
        match hash_key mid with
        | Raise e => (Raise e, s1)
        | Ok k =>
            (Ok tt,
             Dashboard.emit (Dashboard.AlertEvent alert)
               (match Dashboard.lookup k (Dashboard.machines s) with
                | Some _ =>
                    Dashboard.set_machines
                      (Dashboard.update k (Dashboard.set_status "anomaly")) s1
                | None => s1
                end))
        end
    end.
Proof.
  unfold Dashboard.handle_alert, bind, lift, gets, modify, ret. cbv zeta.
  destruct (Dashboard.item alert "machine_id") as [mid|e]; [|reflexivity].
  destruct (hash_key mid) as [k|e]; [|reflexivity].
  cbn [Dashboard.machines Dashboard.set_statistics Dashboard.set_alerts].
  destruct (Dashboard.lookup k (Dashboard.machines s)); reflexivity.
Qed.

Lemma dashboard_handle_sensor_data_eq (data : JVal) (s : Dashboard.State) :
  Dashboard.handle_sensor_data data s =
    match Dashboard.item data "machine_id" with
    | Raise e => (Raise e, s)
    | Ok mid =>
        match hash_key mid with
        | Raise e => (Raise e, s)
        | Ok k =>
            let s1 :=
              Dashboard.set_machines (Dashboard.update k (Dashboard.add_reading data))
                (match Dashboard.lookup k (Dashboard.machines s) with
                 | None =>
                     Dashboard.set_statistics Dashboard.incr_active_machines
                       (Dashboard.set_machines
                          (fun ms => ms ++ [(k, Dashboard.mkMachine [] "normal" JNull)])
                          s)
                 | Some _ => s
                 end) in
            match Dashboard.item data "timestamp" with
            | Raise e => (Raise e, s1)
            | Ok ts =>
                (Ok tt,
                 Dashboard.emit (Dashboard.SensorUpdate mid data)
                   (Dashboard.set_statistics Dashboard.incr_total_readings
                      (Dashboard.set_machines
                         (Dashboard.update k (Dashboard.set_last_update ts)) s1)))
            end
        end
    end.
Proof.
  unfold Dashboard.handle_sensor_data, bind, lift, gets, modify, ret. cbv zeta.
  destruct (Dashboard.item data "machine_id") as [mid|e]; [|reflexivity].
  destruct (hash_key mid) as [k|e]; [|reflexivity].
  destruct (Dashboard.lookup k (Dashboard.machines s));
    destruct (Dashboard.item data "timestamp"); reflexivity.
Qed.

Lemma dashboard_run_snoc (msgs : list Dashboard.Message) (m : Dashboard.Message)
    (s : Dashboard.State) :
  Dashboard.run (msgs ++ [m]) s = Dashboard.on_message m (Dashboard.run msgs s).
Proof. unfold Dashboard.run. rewrite fold_left_app. reflexivity. Qed.

Lemma alert_payloads_app (l1 l2 : list Dashboard.Message) :
  Dashboard.alert_payloads (l1 ++ l2) =
  Dashboard.alert_payloads l1 ++ Dashboard.alert_payloads l2.
Proof.
  induction l1 as [|m l1 IH]; simpl; [reflexivity|].
  destruct (Dashboard.body m); [|exact IH].
  destruct (contains (Dashboard.topic m) "sensors"); [exact IH|].
  destruct (contains (Dashboard.topic m) "alerts"); [|exact IH].
  simpl. rewrite IH. reflexivity.
Qed.

(** The sensor handler leaves the alert list and the alert counter alone. *)
Lemma dashboard_sensor_keeps_alerts (data : JVal) (s : Dashboard.State) r s' :
  Dashboard.handle_sensor_data data s = (r, s') ->
  Dashboard.alerts s' = Dashboard.alerts s /\
  Dashboard.total_anomalies (Dashboard.statistics s') =
    Dashboard.total_anomalies (Dashboard.statistics s).
Proof.
  rewrite dashboard_handle_sensor_data_eq.
  destruct (Dashboard.item data "machine_id") as [mid|e];
    [|intros H; injection H as _ <-; auto].
  destruct (hash_key mid) as [k|e]; [|intros H; injection H as _ <-; auto].
  cbv zeta.
  destruct (Dashboard.lookup k (Dashboard.machines s));
    destruct (Dashboard.item data "timestamp");
    intros H; injection H as _ <-; auto.
Qed.

(** The alert handler stores and counts the alert before anything in it
    can raise. *)
Lemma dashboard_alert_stores (alert : JVal) (s : Dashboard.State) r s' :
  Dashboard.handle_alert alert s = (r, s') ->
  Dashboard.alerts s' = Dashboard.insert_keep_100 alert (Dashboard.alerts s) /\
  Dashboard.total_anomalies (Dashboard.statistics s') =
    S (Dashboard.total_anomalies (Dashboard.statistics s)).
Proof.
  rewrite dashboard_handle_alert_eq. cbv zeta.
  destruct (Dashboard.item alert "machine_id") as [mid|e];
    [|intros H; injection H as _ <-; auto].
  destruct (hash_key mid) as [k|e]; [|intros H; injection H as _ <-; auto].
  destruct (Dashboard.lookup k (Dashboard.machines s));
    intros H; injection H as _ <-; auto.
Qed.

Lemma dashboard_on_message_alerts (m : Dashboard.Message) (s : Dashboard.State) :
  Dashboard.alerts (Dashboard.on_message m s) =
    fold_left (fun l a => Dashboard.insert_keep_100 a l)
      (Dashboard.alert_payloads [m]) (Dashboard.alerts s) /\
  Dashboard.total_anomalies (Dashboard.statistics (Dashboard.on_message m s)) =
    Dashboard.total_anomalies (Dashboard.statistics s) +
    List.length (Dashboard.alert_payloads [m]).
Proof.
  unfold Dashboard.on_message. simpl Dashboard.alert_payloads.
  destruct (Dashboard.body m) as [data|]; [|simpl; split; [reflexivity|lia]].
  cbv zeta.
  destruct (contains (Dashboard.topic m) "sensors").
  - destruct (Dashboard.handle_sensor_data data s) as [r s'] eqn:E.
    destruct (dashboard_sensor_keeps_alerts _ _ _ _ E) as [H1 H2].
    destruct r; simpl; rewrite H1, H2; split; (reflexivity || lia).
  - destruct (contains (Dashboard.topic m) "alerts").
    + destruct (Dashboard.handle_alert data s) as [r s'] eqn:E.
      destruct (dashboard_alert_stores _ _ _ _ E) as [H1 H2].
      destruct r; simpl; rewrite H1, H2; split; (reflexivity || lia).
    + simpl. split; [reflexivity|lia].
Qed.

Lemma insert_keep_100_firstn (x : JVal) (l : list JVal) :
  Dashboard.insert_keep_100 x (firstn 100 l) = firstn 100 (x :: l).
Proof.
  unfold Dashboard.insert_keep_100. cbv zeta.
  change (List.length (x :: firstn 100 l)) with (S (List.length (firstn 100 l))).
  rewrite length_firstn.
  destruct (Nat.le_gt_cases 100 (List.length l)) as [Hge|Hlt].
  - replace (100 <? S (Nat.min 100 (List.length l))) with true
      by (symmetry; apply Nat.ltb_lt; lia).
    change (firstn 100 (x :: l)) with (x :: firstn 99 l).
    rewrite <- (@removelast_firstn JVal 99 l) by lia.
    change (x :: firstn 100 l) with ([x] ++ firstn 100 l).
    rewrite removelast_app; [reflexivity|].
    destruct l; [simpl in Hge; lia|discriminate].
  - replace (100 <? S (Nat.min 100 (List.length l))) with false
      by (symmetry; apply Nat.ltb_ge; lia).
    rewrite firstn_all2 by lia.
    change (firstn 100 (x :: l)) with (x :: firstn 99 l).
    rewrite firstn_all2 by lia. reflexivity.
Qed.

Lemma dashboard_alerts_facts (msgs : list Dashboard.Message) :
  Dashboard.alerts (Dashboard.run msgs Dashboard.init) =
    firstn 100 (rev (Dashboard.alert_payloads msgs)) /\
  Dashboard.total_anomalies (Dashboard.statistics (Dashboard.run msgs Dashboard.init)) =
    List.length (Dashboard.alert_payloads msgs).
Proof.
  induction msgs as [|m msgs [IH1 IH2]] using rev_ind; [split; reflexivity|].
  rewrite dashboard_run_snoc.
  destruct (dashboard_on_message_alerts m (Dashboard.run msgs Dashboard.init))
    as [H1 H2].
  rewrite H1, H2, IH1, IH2, alert_payloads_app, length_app, rev_app_distr.
  split; [|reflexivity].
  simpl Dashboard.alert_payloads.
  destruct (Dashboard.body m) as [data|]; [|reflexivity].
  destruct (contains (Dashboard.topic m) "sensors"); [reflexivity|].
  destruct (contains (Dashboard.topic m) "alerts"); [|reflexivity].
  simpl. apply insert_keep_100_firstn.
Qed.

(** X17. The dashboard's alert list is the last hundred alert payloads it
    was handed, newest first, while total_anomalies counts all of them, an
    alert that makes the handler raise included; [/api/alerts] returns the
    twenty newest. *)
Theorem dashboard_alerts_window (msgs : list Dashboard.Message) :
  Dashboard.alerts (Dashboard.run msgs Dashboard.init) =
    firstn 100 (rev (Dashboard.alert_payloads msgs)) /\
  Dashboard.total_anomalies (Dashboard.statistics (Dashboard.run msgs Dashboard.init)) =
    List.length (Dashboard.alert_payloads msgs) /\
  List.length (Dashboard.alerts (Dashboard.run msgs Dashboard.init)) =
    Nat.min 100
      (Dashboard.total_anomalies
         (Dashboard.statistics (Dashboard.run msgs Dashboard.init))) /\
  Dashboard.get_alerts (Dashboard.run msgs Dashboard.init) =
    firstn 20 (rev (Dashboard.alert_payloads msgs)).
Proof.
  destruct (dashboard_alerts_facts msgs) as [H1 H2].
  split; [exact H1|]. split; [exact H2|]. split.
  - rewrite H1, H2, length_firstn, length_rev. reflexivity.
  - unfold Dashboard.get_alerts. rewrite H1, firstn_firstn. reflexivity.
Qed.


Lemma dashboard_lookup_congr (a b : Key) (ms : list (Key * Dashboard.Machine)) :
  key_eqb a b = true -> Dashboard.lookup a ms = Dashboard.lookup b ms.
Proof.
  intros Hab. induction ms as [|[k mc] ms IH]; simpl; [reflexivity|].
  rewrite (key_eqb_congr a b k Hab), IH. reflexivity.
Qed.

Lemma dashboard_lookup_update (k' k : Key)
    (f : Dashboard.Machine -> Dashboard.Machine) (ms : list (Key * Dashboard.Machine)) :
  Dashboard.lookup k' (Dashboard.update k f ms) =
    if key_eqb k' k then option_map f (Dashboard.lookup k' ms)
    else Dashboard.lookup k' ms.
Proof.
  induction ms as [|[k0 mc] ms IH]; simpl.
  - destruct (key_eqb k' k); reflexivity.
  - destruct (key_eqb k k0) eqn:Hk0; simpl.
    + destruct (key_eqb k' k) eqn:Hk.
      * rewrite (key_eqb_congr k' k k0 Hk), Hk0. reflexivity.
      * destruct (key_eqb k' k0) eqn:Hk'; [|reflexivity].
        rewrite key_eqb_sym in Hk0.
        rewrite (key_eqb_trans _ _ _ Hk' Hk0) in Hk. discriminate.
    + destruct (key_eqb k' k0) eqn:Hk'.
      * destruct (key_eqb k' k) eqn:Hk; [|reflexivity].
        rewrite key_eqb_sym in Hk.
        rewrite (key_eqb_trans _ _ _ Hk Hk') in Hk0. discriminate.
      * exact IH.
Qed.

Lemma dashboard_lookup_snoc (k' k : Key) (mc : Dashboard.Machine)
    (ms : list (Key * Dashboard.Machine)) :
  Dashboard.lookup k' (ms ++ [(k, mc)]) =
    match Dashboard.lookup k' ms with
    | Some x => Some x
    | None => if key_eqb k' k then Some mc else None
    end.
Proof.
  induction ms as [|[k0 m0] ms IH]; simpl; [reflexivity|].
  destruct (key_eqb k' k0); [reflexivity|exact IH].
Qed.

Lemma dashboard_length_update (k : Key) (f : Dashboard.Machine -> Dashboard.Machine)
    (ms : list (Key * Dashboard.Machine)) :
  List.length (Dashboard.update k f ms) = List.length ms.
Proof.
  induction ms as [|[k0 m0] ms IH]; simpl; [reflexivity|].
  destruct (key_eqb k k0); simpl; [reflexivity|rewrite IH; reflexivity].
Qed.

Lemma dashboard_touch_id : dashboard_touch (fun mc => mc).
Proof. intros mc. split; [reflexivity|left; reflexivity]. Qed.

Lemma dashboard_touch_last_update (ts : JVal) :
  dashboard_touch (Dashboard.set_last_update ts).
Proof. intros mc. split; [reflexivity|left; reflexivity]. Qed.

Lemma dashboard_touch_status : dashboard_touch (Dashboard.set_status "anomaly").
Proof. intros mc. split; [reflexivity|right; reflexivity]. Qed.

Lemma dashboard_sensor_reading_some (m : Dashboard.Message) (k : Key) (data : JVal) :
  Dashboard.sensor_reading m = Some (k, data) ->
  Dashboard.body m = Some data /\
  contains (Dashboard.topic m) "sensors" = true /\
  exists fields mid,
    data = JObj fields /\
    Dashboard.item data "machine_id" = Ok mid /\ hash_key mid = Ok k.
Proof.
  unfold Dashboard.sensor_reading.
  destruct (Dashboard.body m) as [d|]; [|discriminate].
  destruct (contains (Dashboard.topic m) "sensors"); [|discriminate].
  destruct d as [| | | | |fields]; try discriminate.
  unfold reading_key, Dashboard.item, subscript.
  destruct (dict_get "machine_id" fields) as [mid|] eqn:D; [|discriminate].
  destruct (hash_key mid) as [k0|e] eqn:Hk; [|discriminate].
  intros H. injection H as <- <-.
  split; [reflexivity|]. split; [reflexivity|].
  exists fields, mid. unfold Dashboard.item, subscript. rewrite D. auto.
Qed.

Lemma dashboard_sensor_reading_none (m : Dashboard.Message) (data : JVal)
    (s : Dashboard.State) :
  Dashboard.body m = Some data ->
  Dashboard.sensor_reading m = None ->
  contains (Dashboard.topic m) "sensors" = true ->
  exists e, Dashboard.handle_sensor_data data s = (Raise e, s).
Proof.
  unfold Dashboard.sensor_reading. intros -> H Ht. rewrite Ht in H.
  rewrite dashboard_handle_sensor_data_eq.
  destruct data as [| | | | |fields];
    try (exists TypeError; reflexivity).
  unfold reading_key in H. unfold Dashboard.item, subscript.
  destruct (dict_get "machine_id" fields) as [mid|]; [|eexists; reflexivity].
  destruct (hash_key mid) as [k0|e]; [discriminate|].
  exists e. reflexivity.
Qed.

(** A sensor reading with a usable machine_id: the entry of its machine
    gets the reading appended, before the timestamp is looked at. *)
Lemma dashboard_sensor_step (data mid : JVal) (k : Key) (s : Dashboard.State)
    r s' :
  Dashboard.item data "machine_id" = Ok mid ->
  hash_key mid = Ok k ->
  Dashboard.handle_sensor_data data s = (r, s') ->
  (exists f, dashboard_touch f /\
     forall k',
       Dashboard.lookup k' (Dashboard.machines s') =
         if key_eqb k' k
         then Some (f (Dashboard.add_reading data
                         (dashboard_entry (Dashboard.lookup k' (Dashboard.machines s)))))
         else Dashboard.lookup k' (Dashboard.machines s)) /\
  Dashboard.total_readings (Dashboard.statistics s') =
    Dashboard.total_readings (Dashboard.statistics s) +
    (match Dashboard.item data "timestamp" with Ok _ => 1 | Raise _ => 0 end) /\
  (Dashboard.active_machines (Dashboard.statistics s) =
     List.length (Dashboard.machines s) ->
   Dashboard.active_machines (Dashboard.statistics s') =
     List.length (Dashboard.machines s')).
Proof.
  intros Hm Hk. rewrite dashboard_handle_sensor_data_eq, Hm, Hk. cbv zeta.
  destruct (Dashboard.lookup k (Dashboard.machines s)) as [mc|] eqn:L;
    destruct (Dashboard.item data "timestamp") as [ts|e] eqn:T;
    intros H; injection H as _ <-;
    cbn [Dashboard.machines Dashboard.statistics Dashboard.set_machines
         Dashboard.set_statistics Dashboard.emit Dashboard.total_readings
         Dashboard.active_machines Dashboard.incr_total_readings
         Dashboard.incr_active_machines];
    (split; [|split; [lia|]]);
    try (rewrite ?dashboard_length_update, ?length_app; simpl; lia).
  - exists (Dashboard.set_last_update ts).
    split; [apply dashboard_touch_last_update|]. intros k'.
    rewrite !dashboard_lookup_update.
    destruct (key_eqb k' k) eqn:K; [|reflexivity].
    rewrite (dashboard_lookup_congr k' k _ K), L. reflexivity.
  - exists (fun mc => mc).
    split; [apply dashboard_touch_id|]. intros k'.
    rewrite !dashboard_lookup_update.
    destruct (key_eqb k' k) eqn:K; [|reflexivity].
    rewrite (dashboard_lookup_congr k' k _ K), L. reflexivity.
  - exists (Dashboard.set_last_update ts).
    split; [apply dashboard_touch_last_update|]. intros k'.
    rewrite !dashboard_lookup_update, dashboard_lookup_snoc.
    destruct (key_eqb k' k) eqn:K.
    + rewrite (dashboard_lookup_congr k' k _ K), L. reflexivity.
    + destruct (Dashboard.lookup k' (Dashboard.machines s)); reflexivity.
  - exists (fun mc => mc).
    split; [apply dashboard_touch_id|]. intros k'.
    rewrite !dashboard_lookup_update, dashboard_lookup_snoc.
    destruct (key_eqb k' k) eqn:K.
    + rewrite (dashboard_lookup_congr k' k _ K), L. reflexivity.
    + destruct (Dashboard.lookup k' (Dashboard.machines s)); reflexivity.
Qed.

(** An alert appends no reading and creates no machine. *)
Lemma dashboard_alert_step (alert : JVal) (s : Dashboard.State) r s' :
  Dashboard.handle_alert alert s = (r, s') ->
  (forall k', exists f, dashboard_touch f /\
     Dashboard.lookup k' (Dashboard.machines s') =
       option_map f (Dashboard.lookup k' (Dashboard.machines s))) /\
  Dashboard.total_readings (Dashboard.statistics s') =
    Dashboard.total_readings (Dashboard.statistics s) /\
  Dashboard.active_machines (Dashboard.statistics s') =
    Dashboard.active_machines (Dashboard.statistics s) /\
  List.length (Dashboard.machines s') = List.length (Dashboard.machines s).
Proof.
  assert (Hid : forall k' ms, exists f, dashboard_touch f /\
            Dashboard.lookup k' ms = option_map f (Dashboard.lookup k' ms)).
  { intros k' ms. exists (fun mc => mc). split; [apply dashboard_touch_id|].
    destruct (Dashboard.lookup k' ms); reflexivity. }
  rewrite dashboard_handle_alert_eq. cbv zeta.
  destruct (Dashboard.item alert "machine_id") as [mid|e];
    [|intros H; injection H as _ <-; simpl; auto].
  destruct (hash_key mid) as [k|e];
    [|intros H; injection H as _ <-; simpl; auto].
  destruct (Dashboard.lookup k (Dashboard.machines s)) as [mc|] eqn:L;
    intros H; injection H as _ <-; simpl; [|auto].
  split; [|rewrite dashboard_length_update; auto].
  intros k'. rewrite dashboard_lookup_update.
  destruct (key_eqb k' k).
  - exists (Dashboard.set_status "anomaly").
    split; [apply dashboard_touch_status|reflexivity].
  - apply Hid.
Qed.

(** One message, as seen from a machine's entry and from the counters. *)
Lemma dashboard_on_message_step (m : Dashboard.Message) (s : Dashboard.State) :
  (forall k', exists f, dashboard_touch f /\
     Dashboard.lookup k' (Dashboard.machines (Dashboard.on_message m s)) =
       match Dashboard.sensor_reading m with
       | Some (k, data) =>
           if key_eqb k' k
           then Some (f (Dashboard.add_reading data
                           (dashboard_entry
                              (Dashboard.lookup k' (Dashboard.machines s)))))
           else Dashboard.lookup k' (Dashboard.machines s)
       | None => option_map f (Dashboard.lookup k' (Dashboard.machines s))
       end) /\
  Dashboard.total_readings (Dashboard.statistics (Dashboard.on_message m s)) =
    Dashboard.total_readings (Dashboard.statistics s) +
    (if Dashboard.counted m then 1 else 0) /\
  (Dashboard.active_machines (Dashboard.statistics s) =
     List.length (Dashboard.machines s) ->
   Dashboard.active_machines (Dashboard.statistics (Dashboard.on_message m s)) =
     List.length (Dashboard.machines (Dashboard.on_message m s))).
Proof.
  assert (Hid : forall k' ms, exists f, dashboard_touch f /\
            Dashboard.lookup k' ms = option_map f (Dashboard.lookup k' ms)).
  { intros k' ms. exists (fun mc => mc). split; [apply dashboard_touch_id|].
    destruct (Dashboard.lookup k' ms); reflexivity. }
  unfold Dashboard.counted.
  destruct (Dashboard.sensor_reading m) as [[k data]|] eqn:Sr.
  - destruct (dashboard_sensor_reading_some m k data Sr)
      as (Hb & Ht & fields & mid & -> & Hm & Hk).
    unfold Dashboard.on_message. rewrite Hb, Ht. cbv zeta.
    destruct (Dashboard.handle_sensor_data (JObj fields) s) as [r s'] eqn:E.
    destruct (dashboard_sensor_step _ _ _ _ _ _ Hm Hk E) as ((f & Hf & Hl) & Hc & Ha).
    assert (Hc' : Dashboard.total_readings (Dashboard.statistics s') =
                  Dashboard.total_readings (Dashboard.statistics s) +
                  (if has_key fields "timestamp" then 1 else 0)).
    { rewrite Hc. unfold Dashboard.item, subscript, has_key.
      destruct (dict_get "timestamp" fields); reflexivity. }
    destruct r; simpl; (split; [intros k'; exists f; split; [exact Hf|apply Hl]|]);
      split; assumption.
  - unfold Dashboard.on_message.
    destruct (Dashboard.body m) as [data|] eqn:Hb;
      [|simpl; split; [intros k'; apply Hid|split; [lia|auto]]].
    cbv zeta.
    destruct (contains (Dashboard.topic m) "sensors") eqn:Ht.
    + destruct (dashboard_sensor_reading_none m data s Hb Sr Ht) as [e ->].
      simpl. split; [intros k'; apply Hid|split; [lia|auto]].
    + destruct (contains (Dashboard.topic m) "alerts").
      * destruct (Dashboard.handle_alert data s) as [r s'] eqn:E.
        destruct (dashboard_alert_step _ _ _ _ E) as (Hl & Hc & Ha & Hn).
        destruct r; simpl; (split; [exact Hl|]);
          (split; [lia|]); rewrite Ha, Hn; auto.
      * simpl. split; [intros k'; apply Hid|split; [lia|auto]].
Qed.

Lemma dashboard_readings_for_app (k : Key) (l1 l2 : list Dashboard.Message) :
  Dashboard.readings_for k (l1 ++ l2) =
  Dashboard.readings_for k l1 ++ Dashboard.readings_for k l2.
Proof.
  induction l1 as [|m l1 IH]; simpl; [reflexivity|].
  destruct (Dashboard.sensor_reading m) as [[k' data]|]; [|exact IH].
  destruct (key_eqb k k'); [|exact IH].
  simpl. rewrite IH. reflexivity.
Qed.

Lemma dashboard_machine_facts (msgs : list Dashboard.Message) (k : Key) :
  Dashboard.readings_of k (Dashboard.run msgs Dashboard.init) =
    lastn 50 (Dashboard.readings_for k msgs) /\
  (Dashboard.lookup k (Dashboard.machines (Dashboard.run msgs Dashboard.init)) = None <->
   Dashboard.readings_for k msgs = []).
Proof.
  induction msgs as [|m msgs [IH1 IH2]] using rev_ind.
  - split; [reflexivity|]. split; reflexivity.
  - rewrite dashboard_run_snoc, dashboard_readings_for_app.
    destruct (dashboard_on_message_step m (Dashboard.run msgs Dashboard.init))
      as (Hl & _ & _).
    destruct (Hl k) as (f & Hf & Hk). clear Hl.
    unfold Dashboard.readings_of in *. rewrite Hk. simpl Dashboard.readings_for.
    destruct (Dashboard.sensor_reading m) as [[k0 data]|].
    + destruct (key_eqb k k0).
      * split.
        -- destruct (Hf (Dashboard.add_reading data
                 (dashboard_entry
                    (Dashboard.lookup k
                       (Dashboard.machines (Dashboard.run msgs Dashboard.init))))))
             as [-> _].
           rewrite <- deque_append_lastn, <- IH1.
           destruct (Dashboard.lookup k
                       (Dashboard.machines (Dashboard.run msgs Dashboard.init)));
             reflexivity.
        -- split; [discriminate|].
           intros H. destruct (app_eq_nil _ _ H). discriminate.
      * rewrite app_nil_r. split; assumption.
    + rewrite app_nil_r.
      destruct (Dashboard.lookup k
                  (Dashboard.machines (Dashboard.run msgs Dashboard.init))) as [mc|];
        simpl.
      * destruct (Hf mc) as [-> _]. split; [exact IH1|].
        split; [discriminate|]. intros H. apply IH2 in H. discriminate.
      * split; assumption.
Qed.

(** X18. The dashboard keeps, for every machine, the last fifty sensor
    payloads received for it in arrival order, whether or not the rest of
    the handler raised; a machine is known exactly when a reading was
    stored for it. *)
Theorem dashboard_readings_window (msgs : list Dashboard.Message) (k : Key) :
  Dashboard.readings_of k (Dashboard.run msgs Dashboard.init) =
    lastn 50 (Dashboard.readings_for k msgs) /\
  List.length (Dashboard.readings_of k (Dashboard.run msgs Dashboard.init)) <= 50 /\
  (Dashboard.status_of k (Dashboard.run msgs Dashboard.init) = None <->
   Dashboard.readings_for k msgs = []).
Proof.
  destruct (dashboard_machine_facts msgs k) as [H1 H2].
  split; [exact H1|]. split.
  - rewrite H1, length_lastn. lia.
  - unfold Dashboard.status_of. rewrite <- H2.
    destruct (Dashboard.lookup k
                (Dashboard.machines (Dashboard.run msgs Dashboard.init)));
      simpl; split; congruence.
Qed.

Lemma dashboard_counter_facts (msgs : list Dashboard.Message) :
  Dashboard.total_readings (Dashboard.statistics (Dashboard.run msgs Dashboard.init)) =
    List.length (filter Dashboard.counted msgs) /\
  Dashboard.active_machines (Dashboard.statistics (Dashboard.run msgs Dashboard.init)) =
    List.length (Dashboard.machines (Dashboard.run msgs Dashboard.init)).
Proof.
  induction msgs as [|m msgs [IH1 IH2]] using rev_ind; [split; reflexivity|].
  rewrite dashboard_run_snoc.
  destruct (dashboard_on_message_step m (Dashboard.run msgs Dashboard.init))
    as (_ & Hc & Ha).
  split; [|exact (Ha IH2)].
  rewrite Hc, IH1, filter_app, length_app. simpl.
  destruct (Dashboard.counted m); reflexivity.
Qed.

(** X19. The dashboard's total_readings is the number of sensor messages
    that were stored and carried a timestamp, and active_machines is the
    number of machine entries, which is the number of rows of
    [/api/machines]. *)
Theorem dashboard_statistics_count (msgs : list Dashboard.Message) :
  Dashboard.total_readings (Dashboard.statistics (Dashboard.run msgs Dashboard.init)) =
    List.length (filter Dashboard.counted msgs) /\
  Dashboard.active_machines (Dashboard.statistics (Dashboard.run msgs Dashboard.init)) =
    List.length (Dashboard.machines (Dashboard.run msgs Dashboard.init)) /\
  List.length (Dashboard.get_machines (Dashboard.run msgs Dashboard.init)) =
    Dashboard.active_machines
      (Dashboard.statistics (Dashboard.run msgs Dashboard.init)).
Proof.
  destruct (dashboard_counter_facts msgs) as [H1 H2].
  split; [exact H1|]. split; [exact H2|].
  unfold Dashboard.get_machines. rewrite length_map, H2. reflexivity.
Qed.


(** X20. A sensor reading without a timestamp is appended to its machine's
    readings all the same (and creates the machine when it is new); the
    handler then raises KeyError, so the reading is neither counted in
    total_readings nor passed on to the web clients, and the error is
    logged. *)
Theorem dashboard_reading_without_timestamp (t : string) (fields : dict)
    (mid : JVal) (k : Key) (s : Dashboard.State) :
  contains t "sensors" = true ->
  dict_get "machine_id" fields = Some mid ->
  hash_key mid = Ok k ->
  dict_get "timestamp" fields = None ->
  let s' := Dashboard.on_message (Dashboard.mkMessage t (Some (JObj fields))) s in
  Dashboard.readings_of k s' =
    Dashboard.append_keep_50 (JObj fields) (Dashboard.readings_of k s) /\
  Dashboard.total_readings (Dashboard.statistics s') =
    Dashboard.total_readings (Dashboard.statistics s) /\
  Dashboard.emitted s' = Dashboard.emitted s /\
  Dashboard.errors s' = Dashboard.errors s ++ [KeyError (JStr "timestamp")] /\
  (Dashboard.status_of k s = None ->
   Dashboard.status_of k s' = Some "normal" /\
   Dashboard.active_machines (Dashboard.statistics s') =
     S (Dashboard.active_machines (Dashboard.statistics s))).
Proof.
  intros Ht Hm Hk Hts. cbv zeta.
  unfold Dashboard.on_message, Dashboard.status_of, Dashboard.readings_of.
  cbn [Dashboard.body Dashboard.topic].
  rewrite Ht, dashboard_handle_sensor_data_eq.
  unfold Dashboard.item, subscript. rewrite Hm, Hk, Hts. cbv zeta.
  destruct (Dashboard.lookup k (Dashboard.machines s)) as [mc|] eqn:L;
    cbn [Dashboard.machines Dashboard.statistics Dashboard.set_machines
         Dashboard.set_statistics Dashboard.log_error Dashboard.emitted
         Dashboard.errors Dashboard.total_readings Dashboard.active_machines
         Dashboard.incr_active_machines];
    rewrite dashboard_lookup_update, key_eqb_refl, ?dashboard_lookup_snoc, L,
      ?key_eqb_refl;
    repeat split; discriminate.
Qed.

Lemma dashboard_status_step (m : Dashboard.Message) (s : Dashboard.State) (k : Key) :
  Dashboard.status_of k s = Some "anomaly" ->
  Dashboard.status_of k (Dashboard.on_message m s) = Some "anomaly".
Proof.
  unfold Dashboard.status_of. intros H.
  destruct (dashboard_on_message_step m s) as (Hl & _).
  destruct (Hl k) as (f & Hf & ->). clear Hl.
  destruct (Dashboard.lookup k (Dashboard.machines s)) as [mc|]; [|discriminate].
  simpl in H. injection H as H.
  assert (Hs : forall mc', Dashboard.status mc' = "anomaly" ->
                           Dashboard.status (f mc') = "anomaly").
  { intros mc' E. destruct (Hf mc') as [_ [-> | ->]]; [exact E|reflexivity]. }
  destruct (Dashboard.sensor_reading m) as [[k0 data]|].
  - destruct (key_eqb k k0); simpl; [|rewrite H; reflexivity].
    rewrite Hs; [reflexivity|exact H].
  - simpl. rewrite Hs; [reflexivity|exact H].
Qed.

(** X21. The dashboard never resets a machine's status: once "anomaly",
    it stays "anomaly" through every later message, normal readings
    included. *)
Theorem dashboard_anomaly_status_is_sticky (msgs : list Dashboard.Message)
    (s : Dashboard.State) (k : Key) :
  Dashboard.status_of k s = Some "anomaly" ->
  Dashboard.status_of k (Dashboard.run msgs s) = Some "anomaly".
Proof.
  revert s. induction msgs as [|m msgs IH]; intros s H; [exact H|].
  simpl. apply IH. apply dashboard_status_step. exact H.
Qed.

Lemma dashboard_alert_emitted (t : string) (alert mid : JVal)
    (k : Key) (s : Dashboard.State) :
  contains t "sensors" = false ->
  contains t "alerts" = true ->
  Dashboard.item alert "machine_id" = Ok mid ->
  hash_key mid = Ok k ->
  Dashboard.errors (Dashboard.on_message (Dashboard.mkMessage t (Some alert)) s) =
    Dashboard.errors s /\
  Dashboard.emitted (Dashboard.on_message (Dashboard.mkMessage t (Some alert)) s) =
    Dashboard.emitted s ++ [Dashboard.AlertEvent alert].
Proof.
  intros Hs Ha Hm Hk. unfold Dashboard.on_message.
  cbn [Dashboard.body Dashboard.topic].
  rewrite Hs, Ha, dashboard_handle_alert_eq, Hm, Hk. cbv zeta.
  destruct (Dashboard.lookup k (Dashboard.machines s)); split; reflexivity.
Qed.

Lemma dashboard_first_reading_normal (t : string) (fields : dict) (mid : JVal)
    (k : Key) (s : Dashboard.State) :
  contains t "sensors" = true ->
  dict_get "machine_id" fields = Some mid ->
  hash_key mid = Ok k ->
  Dashboard.status_of k s = None ->
  Dashboard.status_of k
    (Dashboard.on_message (Dashboard.mkMessage t (Some (JObj fields))) s) =
    Some "normal".
Proof.
  intros Ht Hm Hk. unfold Dashboard.on_message, Dashboard.status_of.
  cbn [Dashboard.body Dashboard.topic].
  rewrite Ht, dashboard_handle_sensor_data_eq.
  unfold Dashboard.item, subscript. rewrite Hm, Hk. cbv zeta.
  destruct (Dashboard.lookup k (Dashboard.machines s)) as [mc|] eqn:L;
    [discriminate|intros _].
  destruct (dict_get "timestamp" fields);
    cbn [Dashboard.machines Dashboard.set_machines Dashboard.set_statistics
         Dashboard.log_error Dashboard.emit];
    rewrite !dashboard_lookup_update, key_eqb_refl, dashboard_lookup_snoc, L,
      key_eqb_refl;
    reflexivity.
Qed.

(** X22. An alert with a usable machine_id marks that machine as "anomaly"
    only if the dashboard already knows it: an alert for a machine without
    a stored reading creates no entry, so the machine starts as "normal"
    when its first reading arrives.  Either way the alert is passed on to
    the web clients and no error is logged. *)
Theorem dashboard_alert_marks_known_machine (t : string) (alert mid : JVal)
    (k : Key) (s : Dashboard.State) :
  contains t "sensors" = false ->
  contains t "alerts" = true ->
  Dashboard.item alert "machine_id" = Ok mid ->
  hash_key mid = Ok k ->
  let s' := Dashboard.on_message (Dashboard.mkMessage t (Some alert)) s in
  Dashboard.status_of k s' =
    option_map (fun _ => "anomaly") (Dashboard.status_of k s) /\
  List.length (Dashboard.machines s') = List.length (Dashboard.machines s) /\
  Dashboard.readings_of k s' = Dashboard.readings_of k s /\
  Dashboard.emitted s' = Dashboard.emitted s ++ [Dashboard.AlertEvent alert] /\
  Dashboard.errors s' = Dashboard.errors s /\
  (Dashboard.status_of k s = None ->
   forall t' fields,
     contains t' "sensors" = true ->
     dict_get "machine_id" fields = Some mid ->
     Dashboard.status_of k
       (Dashboard.on_message (Dashboard.mkMessage t' (Some (JObj fields))) s') =
       Some "normal").
Proof.
  intros Hs Ha Hm Hk. cbv zeta.
  assert (H1 : Dashboard.status_of k
                 (Dashboard.on_message (Dashboard.mkMessage t (Some alert)) s) =
               option_map (fun _ => "anomaly") (Dashboard.status_of k s)).
  { unfold Dashboard.on_message, Dashboard.status_of.
    cbn [Dashboard.body Dashboard.topic].
    rewrite Hs, Ha, dashboard_handle_alert_eq, Hm, Hk. cbv zeta.
    destruct (Dashboard.lookup k (Dashboard.machines s)) as [mc|] eqn:L;
      cbn [Dashboard.machines Dashboard.set_machines Dashboard.set_statistics
           Dashboard.set_alerts Dashboard.emit];
      rewrite ?dashboard_lookup_update, ?key_eqb_refl, L; reflexivity. }
  split; [exact H1|].
  split; [|split; [|split; [|split]]].
  5: { intros Hn t' fields Ht' Hm'.
       apply (dashboard_first_reading_normal t' fields mid k _ Ht' Hm' Hk).
       rewrite H1, Hn. reflexivity. }
  all: unfold Dashboard.on_message, Dashboard.readings_of;
    cbn [Dashboard.body Dashboard.topic];
    rewrite Hs, Ha, dashboard_handle_alert_eq, Hm, Hk; cbv zeta;
    destruct (Dashboard.lookup k (Dashboard.machines s)) as [mc|] eqn:L;
    cbn [Dashboard.machines Dashboard.statistics Dashboard.set_machines
         Dashboard.set_statistics Dashboard.set_alerts Dashboard.emit
         Dashboard.emitted Dashboard.errors];
    rewrite ?dashboard_lookup_update, ?key_eqb_refl, ?dashboard_length_update, ?L;
    reflexivity.
Qed.

(** X23. An alert payload whose machine_id cannot be read (not a dict, no
    machine_id key, or an unhashable machine_id) is already stored and
    counted when the handler raises: it shows in the alert list and in
    total_anomalies, but is not passed on to the web clients and changes no
    machine. *)
Theorem dashboard_alert_without_machine_id (t : string) (alert : JVal) (e : exn)
    (s : Dashboard.State) :
  contains t "sensors" = false ->
  contains t "alerts" = true ->
  rbind (Dashboard.item alert "machine_id") hash_key = Raise e ->
  let s' := Dashboard.on_message (Dashboard.mkMessage t (Some alert)) s in
  Dashboard.alerts s' = Dashboard.insert_keep_100 alert (Dashboard.alerts s) /\
  Dashboard.total_anomalies (Dashboard.statistics s') =
    S (Dashboard.total_anomalies (Dashboard.statistics s)) /\
  Dashboard.machines s' = Dashboard.machines s /\
  Dashboard.emitted s' = Dashboard.emitted s /\
  Dashboard.errors s' = Dashboard.errors s ++ [e].
Proof.
  intros Hs Ha He. cbv zeta. unfold Dashboard.on_message.
  cbn [Dashboard.body Dashboard.topic].
  rewrite Hs, Ha, dashboard_handle_alert_eq. cbv zeta.
  unfold rbind in He.
  destruct (Dashboard.item alert "machine_id") as [mid|e0].
  - destruct (hash_key mid) as [k|e0]; [discriminate|].
    injection He as ->. repeat split.
  - injection He as ->. repeat split.
Qed.

(** X24. Dispatch is by substring of the topic, "sensors" first: a message
    whose topic contains "sensors" never reaches the alert handler, even if
    the topic also contains "alerts"; a decodable message on any other
    topic changes nothing; an undecodable payload only logs an error. *)
Theorem dashboard_topic_dispatch (t : string) (s : Dashboard.State) :
  (forall body,
     contains t "sensors" = true ->
     Dashboard.alerts (Dashboard.on_message (Dashboard.mkMessage t body) s) =
       Dashboard.alerts s /\
     Dashboard.total_anomalies
       (Dashboard.statistics (Dashboard.on_message (Dashboard.mkMessage t body) s)) =
       Dashboard.total_anomalies (Dashboard.statistics s)) /\
  (forall data,
     contains t "sensors" = false -> contains t "alerts" = false ->
     Dashboard.on_message (Dashboard.mkMessage t (Some data)) s = s) /\
  Dashboard.on_message (Dashboard.mkMessage t None) s =
    Dashboard.log_error JSONDecodeError s.
Proof.
  split; [|split; [|reflexivity]].
  - intros body Ht.
    destruct (dashboard_on_message_alerts (Dashboard.mkMessage t body) s) as [H1 H2].
    rewrite H1, H2. simpl. destruct body; rewrite ?Ht; simpl; auto.
  - intros data Hs Ha. unfold Dashboard.on_message.
    cbn [Dashboard.body Dashboard.topic]. rewrite Hs, Ha. reflexivity.
Qed.

(** ** From the monitor to the dashboard *)

Lemma on_message_new_alert_key (d : Delivery) (s : Monitor) :
  alert_history (on_message d s) = alert_history s \/
  exists a k,
    alert_history (on_message d s) = alert_history s ++ [a] /\
    hash_key (machine_id a) = Ok k.
Proof.
  apply on_message_lifts.
  - intros e s' [H|(a & k & H1 & H2)]; [left; exact H|].
    right. exists a, k. split; assumption.
  - intros _. left. reflexivity.
  - intros msg r s' Hp H. apply process_cases in H.
    destruct H as [(_ & -> & _)|[(_ & _ & -> & _)
                  |(data & mid & k & c & s1 & -> & Hmid & Hk & Hc & H)]];
      [left; reflexivity..|].
    destruct (collect_keeps _ _ _ _ _ Hc) as (_ & Kh & _ & Ka & _).
    destruct c as [[]|e]; [|destruct H as [_ ->]; left; exact Kh].
    apply score_reading_cases in H.
    destruct H as [[->| ->]|(_ & q & Hq & H)]; [left; exact Kh..|].
    apply handle_anomaly_cases in H.
    destruct H as [(e & _ & -> & _)|(a & k0 & Hb & Hk0 & Hs')]; [left; exact Kh|].
    right. exists a, k0. split.
    + destruct Hs' as [->| ->]; simpl; rewrite Kh; reflexivity.
    + destruct (build_alert_id _ _ _ _ _ Hb) as (_ & -> & _). exact Hk0.
Qed.

(** Every stored alert has a hashable machine_id. *)
Lemma alert_keys_hashable (ds : list Delivery) :
  Forall (fun a => exists k, hash_key (machine_id a) = Ok k)
    (alert_history (run ds init)).
Proof.
  induction ds as [|d ds IH] using rev_ind; [constructor|].
  rewrite run_snoc.
  destruct (on_message_new_alert_key d (run ds init)) as [->|(a & k & -> & Hk)];
    [exact IH|].
  apply Forall_app. split; [exact IH|].
  constructor; [exists k; exact Hk|constructor].
Qed.

Lemma alert_topic_dispatch :
  contains alert_topic "sensors" = false /\ contains alert_topic "alerts" = true.
Proof. split; vm_compute; reflexivity. Qed.

Lemma alert_payloads_messages (l : list Alert) :
  Dashboard.alert_payloads (alert_messages l) = map alert_json l.
Proof.
  destruct alert_topic_dispatch as [Hs Ha].
  induction l as [|a l IH]; [reflexivity|].
  unfold alert_messages. cbn [map Dashboard.alert_payloads Dashboard.body Dashboard.topic].
  rewrite Hs, Ha. fold (alert_messages l). rewrite IH. reflexivity.
Qed.

Lemma dashboard_run_alert_messages (l : list Alert) (s : Dashboard.State) :
  Forall (fun a => exists k, hash_key (machine_id a) = Ok k) l ->
  Dashboard.errors (Dashboard.run (alert_messages l) s) = Dashboard.errors s /\
  Dashboard.emitted (Dashboard.run (alert_messages l) s) =
    Dashboard.emitted s ++ map (fun a => Dashboard.AlertEvent (alert_json a)) l.
Proof.
  destruct alert_topic_dispatch as [Hs Ha].
  revert s. induction l as [|a l IH]; intros s Hl.
  - simpl. rewrite app_nil_r. auto.
  - apply Forall_cons_iff in Hl as [[k Hk] Hl].
    unfold alert_messages. cbn [map Dashboard.run fold_left].
    fold (alert_messages l).
    change (fold_left (fun s0 m => Dashboard.on_message m s0) (alert_messages l))
      with (Dashboard.run (alert_messages l)).
    destruct (IH (Dashboard.on_message
                    (Dashboard.mkMessage alert_topic (Some (alert_json a))) s) Hl)
      as [-> ->].
    destruct (dashboard_alert_emitted alert_topic (alert_json a)
                (machine_id a) k s Hs Ha eq_refl Hk) as [-> ->].
    rewrite <- app_assoc. auto.
Qed.

(** X25. When the dashboard is fed the alerts the monitor has published
    after any sequence of deliveries, it stores them newest first (the last
    hundred), passes every one on to the web clients and logs no error; its
    total_anomalies is the number of alerts the monitor stored, which is at
    most the monitor's own anomalies_detected. *)
Theorem dashboard_receives_monitor_alerts (ds : list Delivery) :
  let mon := run ds init in
  let dash := Dashboard.run (alert_messages (published mon)) Dashboard.init in
  Dashboard.alerts dash = firstn 100 (rev (map alert_json (alert_history mon))) /\
  Dashboard.total_anomalies (Dashboard.statistics dash) =
    List.length (alert_history mon) /\
  Dashboard.total_anomalies (Dashboard.statistics dash) <= anomalies_detected mon /\
  Dashboard.emitted dash =
    map (fun a => Dashboard.AlertEvent (alert_json a)) (alert_history mon) /\
  Dashboard.errors dash = [].
Proof.
  cbv zeta.
  destruct (history_numbered ds) as [_ ->].
  destruct (dashboard_alerts_facts (alert_messages (alert_history (run ds init))))
    as [H1 H2].
  destruct (dashboard_run_alert_messages _ Dashboard.init (alert_keys_hashable ds))
    as [H3 H4].
  rewrite alert_payloads_messages in H1, H2. rewrite length_map in H2.
  rewrite H1, H2, H3, H4.
  repeat split. apply history_le_anomalies.
Qed.

End Coverage.

(** ** The further theorems on the example runtime *)

Lemma malformed_payloads_witness :
  total_readings
    (@run Toy.runtime
       [mkDelivery None true;
        mkDelivery (Some (JArr [])) true;
        mkDelivery (Some (JObj [("temperature", JNum 65)])) true;
        mkDelivery (Some (JObj [("machine_id", JArr [JNum 1])])) true]
       init) = 1 /\
  machine_data
    (@run Toy.runtime
       [mkDelivery (Some (JObj [("machine_id", JArr [JNum 1])])) true] init) = [].
Proof.
  assert (H : @on_message Toy.runtime
                (mkDelivery (Some (JObj [("machine_id", JArr [JNum 1])])) true) init =
              say (ErrorProcessing TypeError) (set_total_readings S init)).
  { destruct (@malformed_payloads Toy.runtime
                (mkDelivery (Some (JObj [("machine_id", JArr [JNum 1])])) true) init)
      as (_ & _ & _ & Hbad).
    apply (Hbad _ (JArr [JNum 1]) eq_refl eq_refl). left. eexists. reflexivity. }
  split; [vm_compute; reflexivity|].
  simpl run. rewrite H. reflexivity.
Defined.

(** After the garbled run of thirty-one readings, one more normal reading
    enters [train_model] a third time. *)
Lemma untrained_reading_trains_from_threshold_witness :
  trainings_started
    (console
       (@on_message Toy.runtime (Toy.deliver Toy.normal_reading)
          (Toy.after (map Toy.deliver (Toy.garbled :: repeat Toy.normal_reading 30)))))
  = 3.
Proof.
  rewrite (@untrained_reading_trains_from_threshold Toy.runtime
             (Toy.deliver Toy.normal_reading)
             (Toy.after (map Toy.deliver (Toy.garbled :: repeat Toy.normal_reading 30)))
             (KStr "M1") Toy.normal_reading);
    vm_compute; reflexivity.
Defined.

(** Thirty normal readings and a hot one on the example runtime: the model
    in memory is the fit of the thirty samples. *)
Lemma trained_model_is_fit_of_training_data_witness :
  List.length
    (training_data
       (Toy.after (map Toy.deliver (repeat Toy.normal_reading 30 ++ [Toy.hot_reading]))))
  = 30 /\
  fst (@detect_anomaly Toy.runtime (extract_features Toy.hot_reading)
         (Toy.after (map Toy.deliver
                       (repeat Toy.normal_reading 30 ++ [Toy.hot_reading]))))
  = Ok (true, (-120 # 200)%Q).
Proof.
  destruct (@trained_model_is_fit_of_training_data Toy.runtime
              (map Toy.deliver (repeat Toy.normal_reading 30 ++ [Toy.hot_reading])))
    as (_ & sc & X & m & _ & _ & _ & _ & Hdetect); [vm_compute; reflexivity|].
  split; [vm_compute; reflexivity|].
  unfold Toy.after, Toy.start. rewrite Hdetect. vm_compute. reflexivity.
Defined.

(** Twenty-nine readings: scoring now would raise. *)
Lemma premature_scoring_raises_witness :
  exists e,
    @detect_anomaly Toy.runtime (extract_features Toy.hot_reading)
      (Toy.after (map Toy.deliver (repeat Toy.normal_reading 29))) =
    (Raise e, Toy.after (map Toy.deliver (repeat Toy.normal_reading 29))).
Proof.
  destruct (@premature_scoring_raises Toy.runtime
              (map Toy.deliver (repeat Toy.normal_reading 29))
              (extract_features Toy.hot_reading)) as (_ & He);
    [vm_compute; reflexivity|exact He].
Defined.

(** The alert of the hot reading after thirty normal ones carries the hot
    reading's metrics. *)
Lemma alerts_come_from_readings_witness :
  exists a d data,
    alert_history
      (Toy.after (map Toy.deliver (repeat Toy.normal_reading 30 ++ [Toy.hot_reading])))
    = [a] /\
    In d (map Toy.deliver (repeat Toy.normal_reading 30 ++ [Toy.hot_reading])) /\
    payload d = Some (JObj data) /\
    metrics_list (metrics a) = extract_features data.
Proof.
  eexists.
  edestruct (@alerts_come_from_readings Toy.runtime
               (map Toy.deliver (repeat Toy.normal_reading 30 ++ [Toy.hot_reading])))
    as (d & data & q & Hin & Hp & _ & _ & Hm & _).
  - vm_compute. left. reflexivity.
  - exists d, data. split; [vm_compute; reflexivity|]. auto.
Defined.



(** A reading without rpm raises KeyError; a reading whose rpm is a string
    raises TypeError. *)
Lemma get_recommendation_errors_witness :
  get_recommendation
    [("temperature", JNum 95); ("vibration", JNum 1); ("current", JNum 5)] =
    Raise (KeyError (JStr "rpm")) /\
  get_recommendation
    [("temperature", JNum 95); ("vibration", JNum 1); ("current", JNum 5);
     ("rpm", JStr "fast")] =
  get_recommendation
    [("rpm", JStr "fast"); ("pressure", JNull); ("current", JNum 5);
     ("vibration", JNum 1); ("temperature", JNum 95)].
Proof.
  split; [reflexivity|].
  destruct (get_recommendation_errors
              [("rpm", JStr "fast"); ("pressure", JNull); ("current", JNum 5);
               ("vibration", JNum 1); ("temperature", JNum 95)])
    as (_ & _ & Hsame).
  apply Hsame. intros k [<-|[<-|[<-|[<-|[]]]]]; reflexivity.
Defined.

Lemma calculate_severity_monotone_witness :
  severity_rank (calculate_severity (-4 # 10)) <=
  severity_rank (calculate_severity (-6 # 10)).
Proof.
  apply calculate_severity_monotone. discriminate.
Defined.


(** ** The dashboard on example messages *)

(** A first reading of MACHINE_001 without a timestamp: stored, the machine
    created, nothing counted, the KeyError logged. *)
Lemma dashboard_reading_without_timestamp_witness :
  Dashboard.readings_of (KStr "MACHINE_001")
    (Dashboard.on_message
       (Dashboard.mkMessage "factory/sensors/MACHINE_001"
          (Some (JObj [("machine_id", JStr "MACHINE_001"); ("temperature", JNum 70)])))
       Dashboard.init) =
    [JObj [("machine_id", JStr "MACHINE_001"); ("temperature", JNum 70)]] /\
  Dashboard.total_readings
    (Dashboard.statistics
       (Dashboard.on_message
          (Dashboard.mkMessage "factory/sensors/MACHINE_001"
             (Some (JObj [("machine_id", JStr "MACHINE_001");
                          ("temperature", JNum 70)])))
          Dashboard.init)) = 0 /\
  Dashboard.errors
    (Dashboard.on_message
       (Dashboard.mkMessage "factory/sensors/MACHINE_001"
          (Some (JObj [("machine_id", JStr "MACHINE_001"); ("temperature", JNum 70)])))
       Dashboard.init) = [KeyError (JStr "timestamp")] /\
  Dashboard.active_machines
    (Dashboard.statistics
       (Dashboard.on_message
          (Dashboard.mkMessage "factory/sensors/MACHINE_001"
             (Some (JObj [("machine_id", JStr "MACHINE_001");
                          ("temperature", JNum 70)])))
          Dashboard.init)) = 1.
Proof.
  destruct (dashboard_reading_without_timestamp "factory/sensors/MACHINE_001"
              [("machine_id", JStr "MACHINE_001"); ("temperature", JNum 70)]
              (JStr "MACHINE_001") (KStr "MACHINE_001") Dashboard.init)
    as (H1 & H2 & _ & H4 & H5);
    [vm_compute; reflexivity | reflexivity | reflexivity | reflexivity |].
  destruct (H5 eq_refl) as [_ H7].
  rewrite H1, H2, H4, H7. repeat split.
Defined.

(** MACHINE_001 is flagged after its first reading; the next reading of the
    same machine leaves it flagged. *)
Lemma dashboard_anomaly_status_is_sticky_witness :
  Dashboard.status_of (KStr "MACHINE_001")
    (Dashboard.run
       [Dashboard.mkMessage "factory/sensors/MACHINE_001"
          (Some (JObj [("machine_id", JStr "MACHINE_001");
                       ("timestamp", JStr "2024-01-01T00:00:02")]))]
       (Dashboard.run
          [Dashboard.mkMessage "factory/sensors/MACHINE_001"
             (Some (JObj [("machine_id", JStr "MACHINE_001");
                          ("timestamp", JStr "2024-01-01T00:00:00")]));
           Dashboard.mkMessage "factory/alerts/anomaly"
             (Some (JObj [("alert_id", JStr "ALERT_0001");
                          ("machine_id", JStr "MACHINE_001")]))]
          Dashboard.init)) = Some "anomaly".
Proof.
  apply dashboard_anomaly_status_is_sticky. vm_compute. reflexivity.
Defined.

(** An alert for a machine the dashboard has not seen: passed on, but no
    machine entry is made. *)
Lemma dashboard_alert_marks_known_machine_witness :
  Dashboard.status_of (KStr "MACHINE_001")
    (Dashboard.on_message
       (Dashboard.mkMessage "factory/alerts/anomaly"
          (Some (JObj [("alert_id", JStr "ALERT_0001");
                       ("machine_id", JStr "MACHINE_001")])))
       Dashboard.init) = None /\
  Dashboard.emitted
    (Dashboard.on_message
       (Dashboard.mkMessage "factory/alerts/anomaly"
          (Some (JObj [("alert_id", JStr "ALERT_0001");
                       ("machine_id", JStr "MACHINE_001")])))
       Dashboard.init) =
    [Dashboard.AlertEvent
       (JObj [("alert_id", JStr "ALERT_0001"); ("machine_id", JStr "MACHINE_001")])].
Proof.
  destruct (dashboard_alert_marks_known_machine "factory/alerts/anomaly"
              (JObj [("alert_id", JStr "ALERT_0001");
                     ("machine_id", JStr "MACHINE_001")])
              (JStr "MACHINE_001") (KStr "MACHINE_001") Dashboard.init)
    as (H1 & _ & _ & H4 & _);
    [vm_compute; reflexivity | vm_compute; reflexivity | reflexivity | reflexivity |].
  rewrite H1, H4. split; reflexivity.
Defined.

(** An alert payload that is a JSON string: stored and counted, not passed
    on, TypeError logged. *)
Lemma dashboard_alert_without_machine_id_witness :
  Dashboard.alerts
    (Dashboard.on_message
       (Dashboard.mkMessage "factory/alerts/anomaly" (Some (JStr "overheating")))
       Dashboard.init) = [JStr "overheating"] /\
  Dashboard.total_anomalies
    (Dashboard.statistics
       (Dashboard.on_message
          (Dashboard.mkMessage "factory/alerts/anomaly" (Some (JStr "overheating")))
          Dashboard.init)) = 1 /\
  Dashboard.emitted
    (Dashboard.on_message
       (Dashboard.mkMessage "factory/alerts/anomaly" (Some (JStr "overheating")))
       Dashboard.init) = [] /\
  Dashboard.errors
    (Dashboard.on_message
       (Dashboard.mkMessage "factory/alerts/anomaly" (Some (JStr "overheating")))
       Dashboard.init) = [TypeError].
Proof.
  destruct (dashboard_alert_without_machine_id "factory/alerts/anomaly"
              (JStr "overheating") TypeError Dashboard.init)
    as (H1 & H2 & _ & H4 & H5);
    [vm_compute; reflexivity | vm_compute; reflexivity | reflexivity |].
  rewrite H1, H2, H4, H5. repeat split.
Defined.


(** ** Training on the example runtime *)

(** Thirty normal readings train the model, and hot readings delivered
    afterwards change nothing of the training set; with a garbled and a hot
    reading after the thirty, [train_model] was entered once; with the
    garbled reading among the first thirty the fit raises, and the model is
    still untrained after the thirtieth reading. *)
Lemma training_completes_once_witness :
  training_data
    (@run Toy.runtime (map Toy.deliver (repeat Toy.hot_reading 3))
       (@run Toy.runtime (map Toy.deliver (repeat Toy.normal_reading 30)) init)) =
    training_data
      (@run Toy.runtime (map Toy.deliver (repeat Toy.normal_reading 30)) init) /\
  trainings_started
    (console (@run Toy.runtime
                (map Toy.deliver
                   (repeat Toy.normal_reading 30 ++ [Toy.garbled; Toy.hot_reading]))
                init)) <= 1 /\
  model_trained
    (@run Toy.runtime
       (map Toy.deliver (Toy.garbled :: repeat Toy.normal_reading 28) ++
        [Toy.deliver Toy.normal_reading]) init) = false.
Proof.
  split; [|split].
  - destruct (@training_completes_once Toy.runtime
                (map Toy.deliver (repeat Toy.normal_reading 30))
                (map Toy.deliver (repeat Toy.hot_reading 3)))
      as (_ & Hfinal & _).
    destruct Hfinal as (_ & Htd & _); [vm_compute; reflexivity|exact Htd].
  - destruct (@training_completes_once Toy.runtime
                (map Toy.deliver
                   (repeat Toy.normal_reading 30 ++ [Toy.garbled; Toy.hot_reading]))
                [])
      as (_ & _ & _ & Honce & _).
    apply Honce. intros _. vm_compute. reflexivity.
  - destruct (@training_completes_once Toy.runtime
                (map Toy.deliver (Toy.garbled :: repeat Toy.normal_reading 28)) [])
      as (_ & _ & _ & _ & Hretry).
    destruct Hretry as [_ Hstep]; [vm_compute; reflexivity|].
    destruct (Hstep (Toy.deliver Toy.normal_reading) (KStr "M1") Toy.normal_reading
                eq_refl) as [Hm _].
    rewrite Hm. vm_compute. reflexivity.
Defined.

(** Thirty normal readings, then a garbled and a hot one: trained on the
    thirty, one call of [train_model]. *)
Lemma trains_on_first_thirty_witness :
  model_trained
    (@run Toy.runtime
       (map Toy.deliver
          (repeat Toy.normal_reading 30 ++ [Toy.garbled; Toy.hot_reading])) init) =
    true /\
  training_data
    (@run Toy.runtime
       (map Toy.deliver
          (repeat Toy.normal_reading 30 ++ [Toy.garbled; Toy.hot_reading])) init) =
    map extract_features (repeat Toy.normal_reading 30) /\
  trainings_started
    (console (@run Toy.runtime
                (map Toy.deliver
                   (repeat Toy.normal_reading 30 ++ [Toy.garbled; Toy.hot_reading]))
                init)) = 1.
Proof.
  destruct (@trains_on_first_thirty Toy.runtime
              (map Toy.deliver
                 (repeat Toy.normal_reading 30 ++ [Toy.garbled; Toy.hot_reading])))
    as (Hflag & Htd & Hst); [intros _; vm_compute; reflexivity|].
  split; [rewrite Hflag|split; [rewrite Htd|rewrite Hst]]; vm_compute; reflexivity.
Defined.
